(** * Sticker conversion-and-cache pipeline

    A shallow embedding of the three converters of the sticker bot
    (src/handler_webm.js, src/handler_tgs.js, src/handler_static.js) and of
    the cache eviction sweep, with the properties of the specification
    stated over them.

    Conventions.
    - JavaScript strings are [string] (bytes of the UTF-8 text).
    - The file system maps each existing directory to the names of the
      regular files in it; the handlers reach every file as
      [path.join(dir, name)].  Every [fs.promises] call they make is an
      operation on that state which either returns or throws.
    - Awaited asynchronous calls are sequenced: the handlers await every
      call, so one invocation is a sequential program over the state.
    - The outcome of everything outside the process (HTTP download, the
      external ffmpeg and gifski commands, gunzip/JSON parsing, the
      lottie renderer, a full disk) is read from an [Env] record, so each
      theorem quantifies over every behaviour of the outside world.  A
      command that exits with status 0 has written its output file.
    - A directory and a regular file never share a path.
    - Removing a file that exists, and an empty directory, succeeds:
      the handlers' cleanup is best effort and swallows every error.
    - Logging, [anim.destroy()] and building the JSDOM document do not
      throw.  A promise that never settles is not modelled. *)

From Stdlib Require Import ZArith QArith Qround Ascii String List.
From Stdlib Require Import DecimalString DecimalNat DecimalFacts.
From Stdlib Require OrderedTypeEx.
From stdpp Require Import base tactics option list gmap strings sorting.
Import ListNotations.

#[local] Open Scope string_scope.
#[local] Open Scope Z_scope.
#[local] Set Warnings "-clear-no-such-hyp".

(** ** crypto.createHash('md5').update(s).digest('hex') *)

Module MD5.

Definition w32 (x : Z) : Z := x mod 2 ^ 32.

Definition rotl32 (x c : Z) : Z :=
  Z.lor (w32 (Z.shiftl x c)) (Z.shiftr x (32 - c)).

Definition not32 (x : Z) : Z := Z.lxor x 0xffffffff.

Definition S_table : list Z :=
  [ 7; 12; 17; 22; 7; 12; 17; 22; 7; 12; 17; 22; 7; 12; 17; 22;
    5;  9; 14; 20; 5;  9; 14; 20; 5;  9; 14; 20; 5;  9; 14; 20;
    4; 11; 16; 23; 4; 11; 16; 23; 4; 11; 16; 23; 4; 11; 16; 23;
    6; 10; 15; 21; 6; 10; 15; 21; 6; 10; 15; 21; 6; 10; 15; 21 ].

Definition K_table : list Z :=
  [ 0xd76aa478; 0xe8c7b756; 0x242070db; 0xc1bdceee;
    0xf57c0faf; 0x4787c62a; 0xa8304613; 0xfd469501;
    0x698098d8; 0x8b44f7af; 0xffff5bb1; 0x895cd7be;
    0x6b901122; 0xfd987193; 0xa679438e; 0x49b40821;
    0xf61e2562; 0xc040b340; 0x265e5a51; 0xe9b6c7aa;
    0xd62f105d; 0x02441453; 0xd8a1e681; 0xe7d3fbc8;
    0x21e1cde6; 0xc33707d6; 0xf4d50d87; 0x455a14ed;
    0xa9e3e905; 0xfcefa3f8; 0x676f02d9; 0x8d2a4c8a;
    0xfffa3942; 0x8771f681; 0x6d9d6122; 0xfde5380c;
    0xa4beea44; 0x4bdecfa9; 0xf6bb4b60; 0xbebfbc70;
    0x289b7ec6; 0xeaa127fa; 0xd4ef3085; 0x04881d05;
    0xd9d4d039; 0xe6db99e5; 0x1fa27cf8; 0xc4ac5665;
    0xf4292244; 0x432aff97; 0xab9423a7; 0xfc93a039;
    0x655b59c3; 0x8f0ccc92; 0xffeff47d; 0x85845dd1;
    0x6fa87e4f; 0xfe2ce6e0; 0xa3014314; 0x4e0811a1;
    0xf7537e82; 0xbd3af235; 0x2ad7d2bb; 0xeb86d391 ].

(** The four 32-bit chaining words. *)
Record state := St { sA : Z; sB : Z; sC : Z; sD : Z }.

Definition init : state :=
  St 0x67452301 0xefcdab89 0x98badcfe 0x10325476.

(** Little-endian encoding of [x] on [n] bytes. *)
Fixpoint le_bytes (n : nat) (x : Z) : list Z :=
  match n with
  | O => []
  | S n' => x mod 256 :: le_bytes n' (x / 256)
  end.

Fixpoint le_word (bs : list Z) : Z :=
  match bs with
  | [] => 0
  | b :: bs' => b + 256 * le_word bs'
  end.

(** Cut a list into consecutive blocks of [k] elements. *)
Fixpoint blocks {A} (fuel k : nat) (l : list A) : list (list A) :=
  match fuel, l with
  | O, _ | _, [] => []
  | S fuel', _ => take k l :: blocks fuel' k (drop k l)
  end.

Definition pad (msg : list Z) : list Z :=
  let len := Z.of_nat (length msg) in
  let zeros := Z.to_nat ((55 - len) mod 64) in
  msg ++ [0x80] ++ repeat 0 zeros ++ le_bytes 8 ((8 * len) mod 2 ^ 64).

Definition round (M : list Z) (s : state) (i : nat) : state :=
  let '(St a b c d) := s in
  let iz := Z.of_nat i in
  let '(f, g) :=
    if iz <? 16 then (Z.lor (Z.land b c) (Z.land (not32 b) d), iz)
    else if iz <? 32 then
      (Z.lor (Z.land d b) (Z.land (not32 d) c), (5 * iz + 1) mod 16)
    else if iz <? 48 then (Z.lxor b (Z.lxor c d), (3 * iz + 5) mod 16)
    else (Z.lxor c (Z.lor b (not32 d)), (7 * iz) mod 16) in
  let f' := w32 (f + a + nth i K_table 0 + nth (Z.to_nat g) M 0) in
  St d (w32 (b + rotl32 f' (nth i S_table 0))) b c.

Definition compress (s : state) (chunk : list Z) : state :=
  let M := le_word <$> blocks 16 4 chunk in
  let '(St a b c d) := fold_left (round M) (seq 0 64) s in
  St (w32 (sA s + a)) (w32 (sB s + b)) (w32 (sC s + c)) (w32 (sD s + d)).

Definition digest (msg : list Z) : list Z :=
  let padded := pad msg in
  let '(St a b c d) :=
    fold_left compress (blocks (length padded) 64 padded) init in
  le_bytes 4 a ++ le_bytes 4 b ++ le_bytes 4 c ++ le_bytes 4 d.

Definition hex_digit (n : Z) : ascii :=
  nth (Z.to_nat n)
    (list_ascii_of_string "0123456789abcdef") "0"%char.

Fixpoint hex (bs : list Z) : string :=
  match bs with
  | [] => ""
  | b :: bs' => String (hex_digit (b / 16)) (String (hex_digit (b mod 16)) (hex bs'))
  end.

Definition bytes_of_string (s : string) : list Z :=
  (fun c => Z.of_N (N_of_ascii c)) <$> list_ascii_of_string s.

Definition md5_hex (s : string) : string := hex (digest (bytes_of_string s)).

End MD5.

(** ** The state a conversion runs in *)

(** A file path as [path.join(dir, name)] builds it: the directory and the
    entry name.  [path_str] is the string the handlers pass around. *)
Record Path := mkPath { dir : string; base : string }.

Definition path_join (d f : string) : Path := mkPath d f.
Definition path_str (p : Path) : string := dir p ++ "/" ++ base p.

(** What call-count instrumentation sees: an HTTP download, an external
    command, and (for the TGS rasterization loop) the playback engine
    advanced to a frame whose bitmap is written to a file. *)
Inductive Event :=
| EvDownload (url : string)
| EvExec (cmd : string)
| EvRender (frame : Z) (file : string).

(** [fs] maps each existing directory to the names of the regular files in
    it; [globals] is the set of property names bound on the process-wide
    [global] object; [trace] logs the events, oldest first. *)
Record World := mkWorld {
  fs : gmap string (gset string);
  globals : gset string;
  trace : list Event
}.

Definition set_fs (f : gmap string (gset string)) (w : World) : World :=
  mkWorld f (globals w) (trace w).
Definition set_globals (g : gset string) (w : World) : World :=
  mkWorld (fs w) g (trace w).
Definition log (e : Event) (w : World) : World :=
  mkWorld (fs w) (globals w) (trace w ++ [e]).

Inductive Error :=
| ENOENT | ENOTEMPTY | EIO
| HttpError | GzipError | JsonError | LottieError | CanvasError
| ExecError (cmd : string).

Inductive Result (A : Type) :=
| Returned (a : A)
| Thrown (e : Error).
Arguments Returned {A} a.
Arguments Thrown {A} e.

(** An awaited computation: runs on a world, returns or throws, and leaves
    a world behind. *)
Definition M (A : Type) : Type := World -> Result A * World.

#[export] Instance M_ret : MRet M := fun A a w => (Returned a, w).
#[export] Instance M_bind : MBind M := fun A B k m w =>
  match m w with
  | (Returned a, w') => k a w'
  | (Thrown e, w') => (Thrown e, w')
  end.

Definition throw {A} (e : Error) : M A := fun w => (Thrown e, w).

(** [try { body } catch (error) { handler }] *)
Definition try_catch {A} (body : M A) (handler : Error -> M A) : M A :=
  fun w =>
    match body w with
    | (Returned a, w') => (Returned a, w')
    | (Thrown e, w') => handler e w'
    end.

(** [promise.catch(() => v)] *)
Definition catch_with {A} (m : M A) (v : A) : M A :=
  try_catch m (fun _ => mret v).

(** [for (const x of l) await body(x)] *)
Fixpoint for_of {A} (l : list A) (body : A -> M unit) : M unit :=
  match l with
  | [] => mret tt
  | x :: l' => body x ;; for_of l' body
  end.

(** *** fs.promises *)

Definition file_exists (p : Path) (w : World) : bool :=
  match fs w !! dir p with
  | Some names => bool_decide (base p ∈ names)
  | None => false
  end.

Definition dir_exists (d : string) (w : World) : bool :=
  bool_decide (is_Some (fs w !! d)).

(** The world with regular file [p] present; nothing to write into when
    the directory is missing. *)
Definition put_file (p : Path) (w : World) : option World :=
  match fs w !! dir p with
  | Some names => Some (set_fs (<[dir p := {[base p]} ∪ names]> (fs w)) w)
  | None => None
  end.

Definition fs_access (p : Path) : M unit := fun w =>
  if file_exists p w then (Returned tt, w) else (Thrown ENOENT, w).

Definition fs_unlink (p : Path) : M unit := fun w =>
  match fs w !! dir p with
  | Some names =>
      if bool_decide (base p ∈ names)
      then (Returned tt, set_fs (<[dir p := names ∖ {[base p]}]> (fs w)) w)
      else (Thrown ENOENT, w)
  | None => (Thrown ENOENT, w)
  end.

(** [fs.mkdir(d, { recursive: true })]; [ok] is whether the disk lets the
    directory be created when it is not there yet. *)
Definition fs_mkdir (ok : bool) (d : string) : M unit := fun w =>
  match fs w !! d with
  | Some _ => (Returned tt, w)
  | None =>
      if ok then (Returned tt, set_fs (<[d := ∅]> (fs w)) w)
      else (Thrown EIO, w)
  end.

Definition fs_readdir (d : string) : M (list string) := fun w =>
  match fs w !! d with
  | Some names => (Returned (elements names), w)
  | None => (Thrown ENOENT, w)
  end.

Definition fs_rmdir (d : string) : M unit := fun w =>
  match fs w !! d with
  | Some names =>
      if bool_decide (names = ∅)
      then (Returned tt, set_fs (delete d (fs w)) w)
      else (Thrown ENOTEMPTY, w)
  | None => (Thrown ENOENT, w)
  end.

(** [fs.writeFile(p, buf)]; [ok] is whether the disk takes the write. *)
Definition fs_writeFile (ok : bool) (p : Path) : M unit := fun w =>
  if ok then
    match put_file p w with
    | Some w' => (Returned tt, w')
    | None => (Thrown ENOENT, w)
    end
  else (Thrown EIO, w).

(** ** JavaScript helpers *)

(** [a || b] on an optional string: [null], [undefined] and the empty
    string are falsy. *)
Definition js_or (a : option string) (b : string) : string :=
  match a with
  | Some (String c s) => String c s
  | _ => b
  end.

Definition lower_ascii (c : ascii) : ascii :=
  let n := nat_of_ascii c in
  if ((65 <=? n) && (n <=? 90))%nat then ascii_of_nat (n + 32) else c.

(** [s.toLowerCase()], on the ASCII letters. *)
Fixpoint toLowerCase (s : string) : string :=
  match s with
  | EmptyString => EmptyString
  | String c s' => String (lower_ascii c) (toLowerCase s')
  end.

(** [s.includes(needle)] *)
Fixpoint includes (s needle : string) : bool :=
  String.prefix needle s ||
  match s with
  | EmptyString => false
  | String _ s' => includes s' needle
  end.

(** [String(n)] for a non-negative integer. *)
Definition String_of_nat (n : nat) : string :=
  NilEmpty.string_of_uint (Nat.to_uint n).

(** [s.padStart(n, c)] with a one-character filler. *)
Definition padStart (n : nat) (c : ascii) (s : string) : string :=
  string_of_list_ascii (repeat c (n - String.length s)) ++ s.

(** The double-quote character the shell commands carry. *)
Definition dq : string := String "034"%char EmptyString.

(** A finite [Number] is a double, given here by its exact rational
    value.  Arithmetic on numbers rounds the exact result to the nearest
    double, ties to the even significand: [binary64 x] is that double for
    a rational [x] of magnitude below 2^1024. *)

(** [p / q] rounded to the nearest integer, ties to the even one, for
    [0 <= p] and [0 < q]. *)
Definition round_half_even (p q : Z) : Z :=
  let k := p / q in
  let r := p mod q in
  if 2 * r <? q then k
  else if q <? 2 * r then k + 1
  else if Z.even k then k else k + 1.

(** Numerator and denominator of [(n / d) / 2 ^ e]. *)
Definition scaled (n d e : Z) : Z * Z :=
  if 0 <=? e then (n, d * 2 ^ e) else (n * 2 ^ (- e), d).

(** The significand has 53 bits at the binary exponent of [x], and fewer
    where that would take the last place below 2^-1074. *)
Definition binary64 (x : Q) : Q :=
  let n := Z.abs (Qnum x) in
  let d := Zpos (Qden x) in
  if n =? 0 then 0
  else
    let e0 := Z.log2 n - Z.log2 d in
    let '(p0, q0) := scaled n d e0 in
    let exponent := if p0 <? q0 then e0 - 1 else e0 in
    let e := Z.max (exponent - 52) (-1074) in
    let '(p, q) := scaled n d e in
    let m := Z.sgn (Qnum x) * round_half_even p q in
    if 0 <=? e then inject_Z (m * 2 ^ e)
    else Qmake m (Z.to_pos (2 ^ (- e))).

(** [Math.round(x)] of a double: the nearest integer, halves towards
    plus infinity. *)
Definition Math_round (x : Q) : Z := Qfloor (Qplus x (1 # 2)).

(** ** The world outside the process *)

(** How a step that produces a file ended: it finished and the file is
    there, or it failed, having left a (partial) file behind or not. *)
Inductive Outcome :=
| Done
| Failed (leftover : bool).

(** The parsed Lottie document, as far as the handler reads it: the
    declared frame rate [fr], a finite number, when the document has
    one. *)
Record AnimData := mkAnimData { fr : option Q }.

Record Env := mkEnv {
  (** axios GET: the body received, [None] when the request fails *)
  http_get : string -> option string;
  (** piping a response body into the file at a path *)
  stream_write : string -> Outcome;
  (** whether the disk lets a directory or file at a path be created *)
  disk_ok : string -> bool;
  (** the frame-extraction command: the frames it wrote, exit status 0? *)
  ffmpeg_extract : string -> list string * bool;
  (** the GIF encoder command *)
  gifski : string -> Outcome;
  (** the image resize command *)
  ffmpeg_resize : string -> Outcome;
  (** pako.ungzip and JSON.parse, [None] when they throw *)
  ungzip : string -> option string;
  JSON_parse : string -> option AnimData;
  (** lottie.loadAnimation: [anim.totalFrames], [None] when it throws *)
  loadAnimation : AnimData -> option Z;
  (** goToAndStop(i) and canvas.toBuffer: [false] when one of them throws *)
  render_ok : Z -> bool
}.

(** A step that writes file [p] and ends as [o] says; it throws [e] when
    it fails, and also when there is no directory to write into. *)
Definition produce (o : Outcome) (p : Path) (e : Error) : M unit := fun w =>
  match o with
  | Done =>
      match put_file p w with
      | Some w' => (Returned tt, w')
      | None => (Thrown e, w)
      end
  | Failed leftover =>
      (Thrown e, if leftover then default w (put_file p w) else w)
  end.

Definition log_event (e : Event) : M unit := fun w => (Returned tt, log e w).

(** ** The handlers *)

(** The fields the three handler classes set in their constructors;
    [root] stands for [path.join(__dirname, '..')]. *)
Record Handler := mkHandler { cacheDir : string; tempDir : string }.

Definition new_Handler (root : string) : Handler :=
  {| cacheDir := path_str (path_join root "gif-cache");
     tempDir := path_str (path_join root "temp") |}.

Definition initDirs (this : Handler) (env : Env) : M unit :=
  try_catch
    (fs_mkdir (disk_ok env (cacheDir this)) (cacheDir this) ;;
     fs_mkdir (disk_ok env (tempDir this)) (tempDir this))
    (fun _ => mret tt).

Definition generateHash (input : string) : string := MD5.md5_hex input.

(** [downloadFile(url, outputPath)] of the WebM and static handlers. *)
Definition downloadFile (env : Env) (url : string) (outputPath : Path) : M unit :=
  log_event (EvDownload url) ;;
  match http_get env url with
  | None => throw HttpError
  | Some _ => produce (stream_write env (path_str outputPath)) outputPath EIO
  end.

(** [exec] of a command that writes the single file [out]. *)
Definition exec_writing (o : string -> Outcome) (cmd : string) (out : Path) : M unit :=
  log_event (EvExec cmd) ;;
  produce (o cmd) out (ExecError cmd).

(** What the frame-extraction command does to the disk: the frames it
    wrote land in [framesDir], whatever its exit status. *)
Definition run_extract (env : Env) (cmd : string) (framesDir : string) : M unit :=
  fun w =>
    let '(frames, ok) := ffmpeg_extract env cmd in
    let w' := foldl (fun w f => default w (put_file (path_join framesDir f) w)) w frames in
    (if ok then Returned tt else Thrown (ExecError cmd), w').

(** [exec] of the frame extraction. *)
Definition exec_extract (env : Env) (cmd : string) (framesDir : string) : M unit :=
  log_event (EvExec cmd) ;; run_extract env cmd framesDir.

(** The cache probe at the top of every converter:
    [try { await fs.access(p); return p; } catch (err) { }]. *)
Definition cache_hit (p : Path) : M bool :=
  try_catch (fs_access p ;; mret true) (fun _ => mret false).

(** *** WebmHandler (src/handler_webm.js) *)

Definition webm_hash (webmUrl : string) (fileId : option string) : string :=
  generateHash (js_or fileId webmUrl).

Definition webm_extract_cmd (tempWebm : Path) (framesDir : string) : string :=
  "ffmpeg -i " ++ dq ++ path_str tempWebm ++ dq
  ++ " -vf " ++ dq ++ "fps=50,scale=256:-1:flags=lanczos" ++ dq ++ " "
  ++ dq ++ framesDir ++ "/frame_%04d.png" ++ dq.

Definition gifski_cmd (fps : string) (cachedGif : Path) (framesDir : string) : string :=
  "gifski --fps " ++ fps ++ " --width 256 --quality 90 -o "
  ++ dq ++ path_str cachedGif ++ dq ++ " " ++ framesDir ++ "/frame_*.png".

Definition convertWebmToGif (this : Handler) (env : Env)
    (webmUrl : string) (fileId : option string) : M string :=
  let hash := webm_hash webmUrl fileId in
  let cachedGif := path_join (cacheDir this) (hash ++ ".gif") in
  hit ← cache_hit cachedGif;
  if hit : bool then mret (path_str cachedGif) else
  let tempWebm := path_join (tempDir this) (hash ++ ".webm") in
  try_catch
    (downloadFile env webmUrl tempWebm ;;
     let framesDir := path_str (path_join (tempDir this) ("webm_" ++ hash)) in
     fs_mkdir (disk_ok env framesDir) framesDir ;;
     exec_extract env (webm_extract_cmd tempWebm framesDir) framesDir ;;
     exec_writing (gifski env) (gifski_cmd "50" cachedGif framesDir) cachedGif ;;
     frames ← fs_readdir framesDir;
     for_of frames (fun f => catch_with (fs_unlink (path_join framesDir f)) tt) ;;
     catch_with (fs_rmdir framesDir) tt ;;
     catch_with (fs_unlink tempWebm) tt ;;
     mret (path_str cachedGif))
    (fun error =>
       catch_with (fs_unlink tempWebm) tt ;;
       catch_with (fs_unlink cachedGif) tt ;;
       throw error).

(** *** TgsHandler (src/handler_tgs.js) *)

Definition tgs_hash (tgsUrl : string) (fileId : option string) : string :=
  generateHash (js_or fileId tgsUrl).

(** [animData.fr || 60]: a missing or zero rate is falsy. *)
Definition fr_or (x : option Q) (d : Q) : Q :=
  match x with
  | Some q => if Qeq_bool q 0 then d else q
  | None => d
  end.

Definition targetFps : Q := 50 # 1.

(** [Math.max(1, Math.round((animData.fr || 60) / targetFps))]; the
    quotient is a double. *)
Definition tgs_step (animData : AnimData) : Z :=
  Z.max 1
    (Math_round (binary64 (Qdiv (fr_or (fr animData) (60 # 1)) targetFps))).

Definition frame_name (frameNum : nat) : string :=
  "frame_" ++ padStart 4 "0"%char (String_of_nat frameNum) ++ ".png".

(** The names [g.window = ...] and the four assignments after it bind. *)
Definition dom_globals : list string :=
  ["window"; "document"; "navigator"; "requestAnimationFrame"; "cancelAnimationFrame"].

Definition install_globals : M unit := fun w =>
  (Returned tt, set_globals (list_to_set dom_globals ∪ globals w) w).

Definition delete_globals : M unit := fun w =>
  (Returned tt, set_globals (globals w ∖ list_to_set dom_globals) w).

Definition axios_get (env : Env) (url : string) : M string :=
  log_event (EvDownload url) ;;
  match http_get env url with
  | Some body => mret body
  | None => throw HttpError
  end.

Definition of_option {A} (o : option A) (e : Error) : M A :=
  match o with
  | Some a => mret a
  | None => throw e
  end.

(** [anim.goToAndStop(i, true); mainCanvas.toBuffer('image/png')] *)
Definition render_frame (env : Env) (i : Z) : M unit :=
  if render_ok env i then mret tt else throw CanvasError.

(** [for (let i = 0; i < anim.totalFrames; i += step) { ... frameNum++ }];
    [fuel] bounds the number of iterations.  Each iteration also logs the
    frame index it rendered and the file it wrote, for the properties to
    speak about. *)
Fixpoint render_loop (env : Env) (framesDir : string) (totalFrames step : Z)
    (fuel : nat) (i : Z) (frameNum : nat) : M nat :=
  match fuel with
  | O => mret frameNum
  | S fuel' =>
      if i <? totalFrames then
        render_frame env i ;;
        let file := path_join framesDir (frame_name frameNum) in
        fs_writeFile (disk_ok env (path_str file)) file ;;
        log_event (EvRender i (path_str file)) ;;
        render_loop env framesDir totalFrames step fuel' (i + step) (S frameNum)
      else mret frameNum
  end.

Definition convertTgsToGif (this : Handler) (env : Env)
    (tgsUrl : string) (fileId : option string) : M (option string) :=
  let hash := tgs_hash tgsUrl fileId in
  let cachedGif := path_join (cacheDir this) (hash ++ ".gif") in
  hit ← cache_hit cachedGif;
  if hit : bool then mret (Some (path_str cachedGif)) else
  let framesDir := path_str (path_join (tempDir this) ("tgs_" ++ hash)) in
  try_catch
    (response ← axios_get env tgsUrl;
     json ← of_option (ungzip env response) GzipError;
     animData ← of_option (JSON_parse env json) JsonError;
     install_globals ;;
     totalFrames ← of_option (loadAnimation env animData) LottieError;
     let step := tgs_step animData in
     fs_mkdir (disk_ok env framesDir) framesDir ;;
     frameNum ← render_loop env framesDir totalFrames step
                  (Z.to_nat totalFrames) 0 0%nat;
     exec_writing (gifski env) (gifski_cmd "50" cachedGif framesDir) cachedGif ;;
     files ← fs_readdir framesDir;
     for_of files (fun file => catch_with (fs_unlink (path_join framesDir file)) tt) ;;
     catch_with (fs_rmdir framesDir) tt ;;
     delete_globals ;;
     mret (Some (path_str cachedGif)))
    (fun error =>
       files ← catch_with (fs_readdir framesDir) [];
       for_of files (fun file => catch_with (fs_unlink (path_join framesDir file)) tt) ;;
       catch_with (fs_rmdir framesDir) tt ;;
       catch_with (fs_unlink cachedGif) tt ;;
       mret None).

(** *** StaticHandler (src/handler_static.js) *)

(** The extension of the temporary download, read off the URL. *)
Definition static_ext (imageUrl : string) : string :=
  let urlLower := toLowerCase imageUrl in
  if includes urlLower ".png" then "png"
  else if includes urlLower ".jpg" || includes urlLower ".jpeg" then "jpg"
  else "webp".

Definition resize_cmd (tempImage cachedImage : Path) : string :=
  "ffmpeg -i " ++ dq ++ path_str tempImage ++ dq
  ++ " -vf " ++ dq ++ "scale=256:-1" ++ dq
  ++ " -y " ++ dq ++ path_str cachedImage ++ dq.

Definition resizeStaticImage (this : Handler) (env : Env) (imageUrl : string) : M string :=
  let hash := generateHash imageUrl in
  let cachedImage := path_join (cacheDir this) (hash ++ ".webp") in
  hit ← cache_hit cachedImage;
  if hit : bool then mret (path_str cachedImage) else
  let ext := static_ext imageUrl in
  let tempImage := path_join (tempDir this) (hash ++ "_orig." ++ ext) in
  try_catch
    (downloadFile env imageUrl tempImage ;;
     exec_writing (ffmpeg_resize env) (resize_cmd tempImage cachedImage) cachedImage ;;
     catch_with (fs_unlink tempImage) tt ;;
     mret (path_str cachedImage))
    (fun error =>
       catch_with (fs_unlink tempImage) tt ;;
       catch_with (fs_unlink cachedImage) tt ;;
       throw error).

(** *** The call sites (POST /api/send of the picker server)

    [convert kind sourceUrl stableId] is the handler call the picker makes
    for a sticker of that kind:
    [webmHandler.convertWebmToGif(stickerUrl, fileId)],
    [tgsHandler.convertTgsToGif(stickerUrl, fileId)] and
    [staticHandler.resizeStaticImage(stickerUrl, fileId)].  The last
    passes two arguments to a method that declares one, and JavaScript
    drops the extra one. *)
Inductive Kind := Static | Webm | Tgs.

Definition convert (this : Handler) (env : Env) (kind : Kind)
    (sourceUrl : string) (stableId : option string) : M (option string) :=
  match kind with
  | Webm => p ← convertWebmToGif this env sourceUrl stableId; mret (Some p)
  | Tgs => convertTgsToGif this env sourceUrl stableId
  | Static => p ← resizeStaticImage this env sourceUrl; mret (Some p)
  end.

(** ** The cache eviction sweep *)

Module Sweeper.

(** Modelled from the spec: src/cache_manager.js (the CacheManager that
    stickerbot.js starts) is not among the sources.  Section 4.5: list
    all entries in the cache directory; sum their sizes; if the sum
    exceeds the budget, sort entries by last-modified time ascending and
    delete entries, accumulating freed space, until the running total is
    at or below the budget. *)
Record Artifact := mkArtifact {
  name : string;
  sizeBytes : N;
  lastModifiedTime : Z
}.

(** Modelled from the spec: the sum of the sizes of the listed entries. *)
Definition total_size (entries : list Artifact) : N :=
  foldr (fun a acc => (sizeBytes a + acc)%N) 0%N entries.

(** Modelled from the spec: the order of the sort, last-modified time
    ascending. *)
Definition older_eq (a b : Artifact) : Prop :=
  lastModifiedTime a <= lastModifiedTime b.

#[global] Instance older_eq_dec : RelDecision older_eq :=
  fun a b => decide (lastModifiedTime a <= lastModifiedTime b).

(** Modelled from the spec: the deletion loop over the entries sorted
    oldest first; [total] is the running total.  Returns the entries
    deleted, in deletion order, and the entries left. *)
Fixpoint evict (budget total : N) (sorted : list Artifact)
    : list Artifact * list Artifact :=
  match sorted with
  | [] => ([], [])
  | a :: rest =>
      if (total <=? budget)%N then ([], sorted)
      else
        let '(deleted, kept) := evict budget (total - sizeBytes a)%N rest in
        (a :: deleted, kept)
  end.

(** Modelled from the spec: one sweep cycle over the directory listing. *)
Definition sweep (budget : N) (entries : list Artifact)
    : list Artifact * list Artifact :=
  let total := total_size entries in
  if (budget <? total)%N
  then evict budget total (merge_sort older_eq entries)
  else ([], entries).

End Sweeper.

(** ** Frames *)

(** [steps R m]: every run of [m] takes a world to an [R]-related one,
    whether it returns or throws. *)
Definition steps {A} (R : relation World) (m : M A) : Prop :=
  forall w, R w (snd (m w)).

Definition same_globals : relation World :=
  fun w w' => globals w' = globals w.

Definition same_trace : relation World :=
  fun w w' => trace w' = trace w.

(** Only the listing of directory [d] may differ. *)
Definition only_dir (d : string) : relation World :=
  fun w w' => forall d', d' <> d -> fs w' !! d' = fs w !! d'.

#[export] Instance Path_eq_dec : EqDecision Path.
Proof. solve_decision. Defined.

(** ** What the properties speak about *)

Definition is_download (e : Event) : bool :=
  match e with EvDownload _ => true | _ => false end.

Definition is_exec (e : Event) : bool :=
  match e with EvExec _ => true | _ => false end.

(** The call counts instrumentation reports in world [w]. *)
Definition download_count (w : World) : nat :=
  length (List.filter is_download (trace w)).

Definition exec_count (w : World) : nat :=
  length (List.filter is_exec (trace w)).

(** The document the TGS converter gets to render: downloaded, gunzipped
    and parsed, [None] when one of the three fails. *)
Definition tgs_document (env : Env) (tgsUrl : string) : option AnimData :=
  body ← http_get env tgsUrl; json ← ungzip env body; JSON_parse env json.

(** The rasterization events of [k] consecutive loop iterations that start
    at frame index [i] and file number [n]. *)
Definition rendered (framesDir : string) (step i : Z) (n k : nat) : list Event :=
  (fun j => EvRender (i + Z.of_nat j * step)
              (path_str (path_join framesDir (frame_name (n + j))))) <$> seq 0 k.

(** [a / b] rounded up, for [0 < b]. *)
Definition ceil_div (a b : Z) : Z := (a + b - 1) / b.

(** The cache file a converter probes first and returns: [cachedGif] of
    the two animated converters, [cachedImage] of the static one. *)
Definition cache_path (this : Handler) (kind : Kind)
    (sourceUrl : string) (stableId : option string) : Path :=
  match kind with
  | Webm => path_join (cacheDir this) (webm_hash sourceUrl stableId ++ ".gif")
  | Tgs => path_join (cacheDir this) (tgs_hash sourceUrl stableId ++ ".gif")
  | Static => path_join (cacheDir this) (generateHash sourceUrl ++ ".webp")
  end.

(** The string each converter hashes into its cache key. *)
Definition hashed_identifier (kind : Kind)
    (sourceUrl : string) (stableId : option string) : string :=
  match kind with
  | Webm | Tgs => js_or stableId sourceUrl
  | Static => sourceUrl
  end.

(** The failures of a TGS conversion the specification names: download
    error, payload that is not gzip, payload that is not JSON, the
    animation engine refusing the document, a frame that does not
    rasterize, the encoder failing. *)
Inductive tgs_failure (env : Env) (tgsUrl : string) (cmd : string) : Prop :=
| download_error :
    http_get env tgsUrl = None -> tgs_failure env tgsUrl cmd
| not_gzip body :
    http_get env tgsUrl = Some body -> ungzip env body = None ->
    tgs_failure env tgsUrl cmd
| not_json body json :
    http_get env tgsUrl = Some body -> ungzip env body = Some json ->
    JSON_parse env json = None -> tgs_failure env tgsUrl cmd
| animation_error doc :
    tgs_document env tgsUrl = Some doc -> loadAnimation env doc = None ->
    tgs_failure env tgsUrl cmd
| rasterization_error doc totalFrames (j : nat) :
    tgs_document env tgsUrl = Some doc ->
    loadAnimation env doc = Some totalFrames ->
    Z.of_nat j * tgs_step doc < totalFrames ->
    render_ok env (Z.of_nat j * tgs_step doc) = false ->
    tgs_failure env tgsUrl cmd
| encoder_failure leftover :
    gifski env cmd = Failed leftover -> tgs_failure env tgsUrl cmd.

(** *** Concrete runs *)

Module Demo.

Definition handler : Handler := new_Handler "/app".

(** An outside world in which every step works: the animation declares
    150 frames per second and has 7 frames. *)
Definition env_ok : Env := {|
  http_get := fun _ => Some "payload";
  stream_write := fun _ => Done;
  disk_ok := fun _ => true;
  ffmpeg_extract := fun _ => (["frame_0001.png"; "frame_0002.png"], true);
  gifski := fun _ => Done;
  ffmpeg_resize := fun _ => Done;
  ungzip := fun _ => Some "{}";
  JSON_parse := fun _ => Some (mkAnimData (Some (150 # 1)));
  loadAnimation := fun _ => Some 7;
  render_ok := fun _ => true
|}.

(** The network is down and every external command fails. *)
Definition env_down : Env := {|
  http_get := fun _ => None;
  stream_write := fun _ => Failed false;
  disk_ok := fun _ => false;
  ffmpeg_extract := fun _ => ([], false);
  gifski := fun _ => Failed false;
  ffmpeg_resize := fun _ => Failed false;
  ungzip := fun _ => None;
  JSON_parse := fun _ => None;
  loadAnimation := fun _ => None;
  render_ok := fun _ => false
|}.

(** As [env_ok], but the GIF encoder exits non-zero, leaving a partial
    output file. *)
Definition env_gifski_fails : Env := {|
  http_get := http_get env_ok;
  stream_write := stream_write env_ok;
  disk_ok := disk_ok env_ok;
  ffmpeg_extract := ffmpeg_extract env_ok;
  gifski := fun _ => Failed true;
  ffmpeg_resize := ffmpeg_resize env_ok;
  ungzip := ungzip env_ok;
  JSON_parse := JSON_parse env_ok;
  loadAnimation := loadAnimation env_ok;
  render_ok := render_ok env_ok
|}.

(** As [env_ok], but the downloaded payload is not gzip data. *)
Definition env_not_gzip : Env := {|
  http_get := http_get env_ok;
  stream_write := stream_write env_ok;
  disk_ok := disk_ok env_ok;
  ffmpeg_extract := ffmpeg_extract env_ok;
  gifski := gifski env_ok;
  ffmpeg_resize := ffmpeg_resize env_ok;
  ungzip := fun _ => None;
  JSON_parse := JSON_parse env_ok;
  loadAnimation := loadAnimation env_ok;
  render_ok := render_ok env_ok
|}.

(** As [env_ok], but the image resize command exits non-zero, leaving a
    partial output file. *)
Definition env_resize_fails : Env := {|
  http_get := http_get env_ok;
  stream_write := stream_write env_ok;
  disk_ok := disk_ok env_ok;
  ffmpeg_extract := ffmpeg_extract env_ok;
  gifski := gifski env_ok;
  ffmpeg_resize := fun _ => Failed true;
  ungzip := ungzip env_ok;
  JSON_parse := JSON_parse env_ok;
  loadAnimation := loadAnimation env_ok;
  render_ok := render_ok env_ok
|}.

(** The world the handlers' constructors leave: both directories exist
    and are empty, nothing is bound on [global], nothing has run. *)
Definition world0 : World :=
  snd (initDirs handler env_ok (mkWorld ∅ ∅ [])).

Definition webm_url : string := "https://example/file.webm".
Definition tgs_url : string := "https://example/file.tgs".
Definition png_url : string := "https://example/file.PNG".
Definition rotated_png_url : string := "https://example/file.PNG?token=2".

End Demo.

(** *** WebmHandler.getGifUrl (src/handler_webm.js)

    [try { if (originalUrl.includes('.webm')) { ...; return gifUrl; } }
     catch (error) { }  return originalUrl;]
    The [try] block yields the URL it returns early with, if any.  The call
    [this.convertWebmToGif(originalUrl)] passes no [fileId], which then
    takes its default [null]. *)
Definition getGifUrl (this : Handler) (env : Env)
    (originalUrl baseUrl : string) : M string :=
  early ← try_catch
            (if includes originalUrl ".webm" then
               gifPath ← convertWebmToGif this env originalUrl None;
               let hash := generateHash originalUrl in
               mret (Some (baseUrl ++ "/gif/" ++ hash ++ ".gif"))
             else mret None)
            (fun _ => mret None);
  match early with
  | Some gifUrl => mret gifUrl
  | None => mret originalUrl
  end.

(** ** The files a conversion works on *)



Definition nowhere {A} : A -> Prop := fun _ => False.

(** [w'] differs from [w] at most in the files that satisfy [P] and in
    whether the directories that satisfy [D] exist. *)
Definition touches (P : Path -> Prop) (D : string -> Prop) : relation World :=
  fun w w' =>
    (forall q, ~ P q -> file_exists q w' = file_exists q w)
    /\ (forall d, ~ D d -> (fs w' !! d = None <-> fs w !! d = None)).

(** One of the sixteen characters [digest('hex')] writes. *)
Definition is_lower_hex (c : ascii) : bool :=
  existsb (Ascii.eqb c) (list_ascii_of_string "0123456789abcdef").

(** What a conversion needs to go through: the cache directory is there
    and every step the converter takes succeeds. For the TGS converter
    the steps are the download, gunzip and parse of the document, loading
    the animation, creating the frames directory, rendering and writing
    every frame the loop visits, and the encoder. *)
Definition cooperative (this : Handler) (env : Env) (kind : Kind)
    (sourceUrl : string) (stableId : option string) (w : World) : Prop :=
  let cached := cache_path this kind sourceUrl stableId in
  dir_exists (cacheDir this) w = true
  /\ match kind with
     | Static =>
         let tempImage :=
           path_join (tempDir this)
             (generateHash sourceUrl ++ "_orig." ++ static_ext sourceUrl) in
         dir_exists (tempDir this) w = true
         /\ is_Some (http_get env sourceUrl)
         /\ stream_write env (path_str tempImage) = Done
         /\ ffmpeg_resize env (resize_cmd tempImage cached) = Done
     | Webm =>
         let hash := webm_hash sourceUrl stableId in
         let tempWebm := path_join (tempDir this) (hash ++ ".webm") in
         let framesDir := path_str (path_join (tempDir this) ("webm_" ++ hash)) in
         dir_exists (tempDir this) w = true
         /\ is_Some (http_get env sourceUrl)
         /\ stream_write env (path_str tempWebm) = Done
         /\ (dir_exists framesDir w = true \/ disk_ok env framesDir = true)
         /\ snd (ffmpeg_extract env (webm_extract_cmd tempWebm framesDir)) = true
         /\ gifski env (gifski_cmd "50" cached framesDir) = Done
     | Tgs =>
         let hash := tgs_hash sourceUrl stableId in
         let framesDir := path_str (path_join (tempDir this) ("tgs_" ++ hash)) in
         exists doc totalFrames,
           tgs_document env sourceUrl = Some doc
           /\ loadAnimation env doc = Some totalFrames
           /\ (dir_exists framesDir w = true \/ disk_ok env framesDir = true)
           /\ (forall j : nat,
                 Z.of_nat j * tgs_step doc < totalFrames ->
                 render_ok env (Z.of_nat j * tgs_step doc) = true
                 /\ disk_ok env
                      (path_str (path_join framesDir (frame_name j))) = true)
           /\ gifski env (gifski_cmd "50" cached framesDir) = Done
     end.

(** ** Computations of the bot's other classes

    The Telegram client and the picker server keep their state in their
    own objects and fail with JavaScript errors of their own, so their
    methods run over a state [S] of their own and end as a [Completion]. *)

Inductive Exn :=
| ReferenceError (name : string)
| ConversionError (e : Error)
| UploadFailed
| PostFailed
| ReadFailed
| WriteFailed (message : string)
| PackExists.

Inductive Completion (A : Type) :=
| Resolved (a : A)
| Rejected (e : Exn).
Arguments Resolved {A} a.
Arguments Rejected {A} e.

Definition Run (S A : Type) : Type := S -> Completion A * S.

#[export] Instance Run_ret S : MRet (Run S) := fun A a s => (Resolved a, s).
#[export] Instance Run_bind S : MBind (Run S) := fun A B k m s =>
  match m s with
  | (Resolved a, s') => k a s'
  | (Rejected e, s') => (Rejected e, s')
  end.

Definition reject {S A} (e : Exn) : Run S A := fun s => (Rejected e, s).

(** [try { body } catch (error) { handler }] *)
Definition try_ {S A} (body : Run S A) (handler : Exn -> Run S A) : Run S A :=
  fun s =>
    match body s with
    | (Resolved a, s') => (Resolved a, s')
    | (Rejected e, s') => handler e s'
    end.

Definition gets {S A} (f : S -> A) : Run S A := fun s => (Resolved (f s), s).
Definition modify {S} (f : S -> S) : Run S unit := fun s => (Resolved tt, f s).

(** ** JavaScript helpers, continued *)

(** [s] without the prefix [p], when it starts with it. *)
Fixpoint strip_prefix (p s : string) : option string :=
  match p, s with
  | EmptyString, _ => Some s
  | String a p', String b s' =>
      if Ascii.eqb a b then strip_prefix p' s' else None
  | String _ _, EmptyString => None
  end.

(** Whether a line terminator starts [s]: the characters a regular
    expression's [.] does not match, which are LF, CR and, in UTF-8,
    U+2028 and U+2029. *)
Definition line_terminator_at (s : string) : bool :=
  String.prefix (String "010" "") s
  || String.prefix (String "013" "") s
  || String.prefix (String "226" (String "128" (String "168" ""))) s
  || String.prefix (String "226" (String "128" (String "169" ""))) s.

(** [/.*addstickers\//] matched at the start of [s]: what follows the
    match.  [.*] is greedy, so the last occurrence of the literal that no
    line terminator separates from the start is the one taken. *)
Fixpoint match_addstickers (s : string) : option string :=
  match s with
  | EmptyString => None
  | String _ s' =>
      let here := strip_prefix "addstickers/" s in
      if line_terminator_at s then here
      else match match_addstickers s' with
           | Some rest => Some rest
           | None => here
           end
  end.

(** [s.replace(/.*addstickers\//, '')]: the leftmost match is cut out. *)
Fixpoint strip_addstickers (s : string) : string :=
  match match_addstickers s with
  | Some rest => rest
  | None =>
      match s with
      | EmptyString => EmptyString
      | String c s' => String c (strip_addstickers s')
      end
  end.

(** [`${v}`] of a value that may be undefined. *)
Definition template (v : option string) : string := default "undefined" v.

(** ** TelegramAPI (src/telegram-api.js) *)

Module Tg.

(** A sticker of a set, as far as the code reads it. *)
Record Sticker := mkSticker {
  file_id : string;
  emoji : option string;
  is_animated : bool;
  is_video : bool
}.

(** The [result] of getStickerSet; [stickers] may be missing. *)
Record StickerSet := mkStickerSet { stickers : option (list Sticker) }.

(** A value of [urlMap]: [{ url, fileId }]. *)
Record UrlEntry := mkUrlEntry { url : string; fileId : string }.

(** The fields of a TelegramAPI object. *)
Record TelegramAPI := mkTelegramAPI {
  botToken : option string;
  baseUrl : string;
  fileUrl : string;
  stickerCache : gmap string StickerSet;
  urlMap : gmap string UrlEntry
}.

(** [new TelegramAPI(botToken)], where [envToken] is
    [process.env.TELEGRAM_BOT_TOKEN]. *)
Definition new_TelegramAPI (botToken envToken : option string) : TelegramAPI :=
  let token :=
    match botToken with
    | Some (String c s) => Some (String c s)
    | _ => envToken
    end in
  {| botToken := token;
     baseUrl := "https://api.telegram.org/bot" ++ template token;
     fileUrl := "https://api.telegram.org/file/bot" ++ template token;
     stickerCache := ∅;
     urlMap := ∅ |}.

(** A request the object sent to the Bot API. *)
Inductive Request :=
| GetStickerSet (endpoint : string) (name : string)
| GetFile (endpoint : string) (file_id : string).

(** The object and the requests it has sent, oldest first. *)
Record State := mkState { self : TelegramAPI; sent : list Request }.

(** How a request ends: a body with [ok] true and a [result], a body
    whose [ok] is not true, or [axios.get] throwing (no connection, or a
    status code outside 2xx). *)
Inductive Reply (A : Type) :=
| Ok (result : A)
| NotOk
| Throws (status : option nat).
Arguments Ok {A} result.
Arguments NotOk {A}.
Arguments Throws {A} status.

(** Telegram, seen from the bot: the answer to each request, which may
    depend on how many requests came before it, and how long the answer
    to the request with a given number takes. *)
Record Server := mkServer {
  getStickerSet_reply : nat -> string -> Reply StickerSet;
  getFile_reply : nat -> string -> Reply string;
  latency : nat -> nat
}.

Definition set_urlMap (f : gmap string UrlEntry -> gmap string UrlEntry)
    (s : State) : State :=
  let t := self s in
  mkState (mkTelegramAPI (botToken t) (baseUrl t) (fileUrl t) (stickerCache t)
             (f (urlMap t)))
    (sent s).

Definition set_stickerCache
    (f : gmap string StickerSet -> gmap string StickerSet) (s : State) : State :=
  let t := self s in
  mkState (mkTelegramAPI (botToken t) (baseUrl t) (fileUrl t)
             (f (stickerCache t)) (urlMap t))
    (sent s).

Definition send (r : Request) (s : State) : State :=
  mkState (self s) (sent s ++ [r]).

(** [hashUrl(url, fileId)] *)
Definition hashUrl (url fileId : string) : Run State string := fun s =>
  let hash := String.substring 0 16 (generateHash fileId) in
  (Resolved hash, set_urlMap (insert hash (mkUrlEntry url fileId)) s).

(** [getUrlFromHash(hash)] *)
Definition getUrlFromHash (hash : string) : Run State (option string) :=
  entry ← gets (fun s => urlMap (self s) !! hash);
  match entry with
  | None => mret None
  | Some entry => mret (Some (url entry))
  end.

(** [axios.get(`${this.baseUrl}/getFile`, { params: { file_id } })] *)
Definition get_getFile (server : Server) (file_id : string)
    : Run State (Reply string) := fun s =>
  (Resolved (getFile_reply server (length (sent s)) file_id),
   send (GetFile (baseUrl (self s) ++ "/getFile") file_id) s).

(** [axios.get(`${this.baseUrl}/getStickerSet`, { params: { name } })] *)
Definition get_getStickerSet (server : Server) (name : string)
    : Run State (Reply StickerSet) := fun s =>
  (Resolved (getStickerSet_reply server (length (sent s)) name),
   send (GetStickerSet (baseUrl (self s) ++ "/getStickerSet") name) s).

(** [getFileUrl(fileId)]: the [catch] block logs and returns null. *)
Definition getFileUrl (server : Server) (fileId : string)
    : Run State (option string) :=
  reply ← get_getFile server fileId;
  match reply with
  | Ok filePath =>
      fileUrl ← gets (fun s => fileUrl (self s));
      mret (Some (fileUrl ++ "/" ++ filePath))
  | NotOk => mret None
  | Throws _ => mret None
  end.


(** [getStickerSet(setName)].  [cleanName] is a [const] of the [try]
    block, so the [catch] block, which logs it, is outside its scope:
    when [axios.get] throws, evaluating [cleanName] there throws a
    ReferenceError and the method rejects instead of returning null. *)
Definition getStickerSet (server : Server) (setName : string)
    : Run State (option StickerSet) :=
  let cleanName := strip_addstickers setName in
  cached ← gets (fun s => stickerCache (self s) !! cleanName);
  match cached with
  | Some stickerSet => mret (Some stickerSet)
  | None =>
      reply ← get_getStickerSet server cleanName;
      match reply with
      | Ok stickerSet =>
          modify (set_stickerCache (insert cleanName stickerSet)) ;;
          mret (Some stickerSet)
      | NotOk => mret None
      | Throws _ => reject (ReferenceError "cleanName")
      end
  end.

(** [array[index]] for a JSON number [index]: nothing unless it is a
    position of the array. *)
Definition at_index {A} (l : list A) (index : Z) : option A :=
  if index <? 0 then None else l !! Z.to_nat index.

(** [getStickerInfo(setName, stickerIndex)] *)
Definition getStickerInfo (server : Server) (setName : string)
    (stickerIndex : Z) : Run State (option UrlEntry) :=
  stickerSet ← getStickerSet server setName;
  match stickerSet with
  | None => mret None
  | Some stickerSet =>
      match stickers stickerSet with
      | None => mret None
      | Some stickers =>
          match at_index stickers stickerIndex with
          | None => mret None
          | Some sticker =>
              url ← getFileUrl server (file_id sticker);
              match url with
              | Some url => mret (Some (mkUrlEntry url (file_id sticker)))
              | None => mret None
              end
          end
      end
  end.

(** [getStickerUrl(setName, stickerIndex)] *)
Definition getStickerUrl (server : Server) (setName : string)
    (stickerIndex : Z) : Run State (option string) :=
  info ← getStickerInfo server setName stickerIndex;
  match info with
  | Some info => mret (Some (url info))
  | None => mret None
  end.

(** An element of the array [getAllStickerUrls] returns. *)
Record StickerEntry := mkStickerEntry {
  entry_url : string;
  realUrl : string;
  entry_emoji : option string;
  isAnimated : bool;
  isVideo : bool;
  entry_fileId : string
}.

(** What one callback of [stickers.map(async (sticker) => ...)] returns
    once the answer to its request is in: the entry, or null. *)
Definition sticker_entry (fileUrl : string) (useProxy : bool)
    (sticker : Sticker) (reply : Reply string) : option StickerEntry :=
  match reply with
  | Ok filePath =>
      let url := fileUrl ++ "/" ++ filePath in
      let hash := String.substring 0 16 (generateHash (file_id sticker)) in
      let displayUrl := if useProxy then "/proxy/sticker?id=" ++ hash else url in
      Some (mkStickerEntry displayUrl url (emoji sticker) (is_animated sticker)
              (is_video sticker) (file_id sticker))
  | NotOk => None
  | Throws _ => None
  end.

(** The answer to request [first + i] is in no later than the one to
    request [first + j]. *)
Definition answers_before (server : Server) (first : nat) : relation nat :=
  fun i j => (latency server (first + i) <= latency server (first + j))%nat.

#[export] Instance answers_before_dec server first :
  RelDecision (answers_before server first) :=
  fun i j => decide (latency server (first + i) <= latency server (first + j))%nat.

(** The order in which the answers to the requests numbered [first],
    [first + 1], ..., [first + n - 1] come in: by latency. *)
Definition arrival_order (server : Server) (first n : nat) : list nat :=
  merge_sort (answers_before server first) (seq 0 n).

(** A callback going on when the answer to its request is in:
    [if (url) { const hash = this.hashUrl(url, sticker.file_id); ... }]. *)
Definition on_answer (s : State) (entry : option StickerEntry) : State :=
  match entry with
  | Some e => snd (hashUrl (realUrl e) (entry_fileId e) s)
  | None => s
  end.

(** [Promise.all(stickers.map(async (sticker) => ...))].  [map] starts
    every callback in turn, so the getFile requests go out in the order
    of the stickers; each callback goes on when its answer is in;
    [Promise.all] keeps the order of the stickers. *)
Definition all_sticker_entries (server : Server) (useProxy : bool)
    (stickers : list Sticker) : Run State (list (option StickerEntry)) :=
  fun s =>
    let first := length (sent s) in
    let endpoint := baseUrl (self s) ++ "/getFile" in
    let results :=
      imap (fun i sticker =>
              sticker_entry (fileUrl (self s)) useProxy sticker
                (getFile_reply server (first + i) (file_id sticker)))
        stickers in
    let requested :=
      mkState (self s)
        (sent s ++ ((fun sticker => GetFile endpoint (file_id sticker))
                      <$> stickers)) in
    let arrived :=
      omap (fun i => results !! i)
        (arrival_order server first (length stickers)) in
    (Resolved results, foldl on_answer requested arrived).

(** [getAllStickerUrls(setName, useProxy)] *)
Definition getAllStickerUrls (server : Server) (setName : string)
    (useProxy : bool) : Run State (list StickerEntry) :=
  stickerSet ← getStickerSet server setName;
  match stickerSet with
  | None => mret []
  | Some stickerSet =>
      match stickers stickerSet with
      | None => mret []
      | Some stickers =>
          results ← all_sticker_entries server useProxy stickers;
          mret (omap id results)
      end
  end.

End Tg.

(** The key [hashUrl] files a file id under. *)
Definition hash16 (fileId : string) : string :=
  String.substring 0 16 (generateHash fileId).

(** ** WebPicker (web-ui/web-picker.js) *)

(** [String(i)] for an integer. *)
Definition String_of_Z (i : Z) : string :=
  if i <? 0 then "-" ++ String_of_nat (Z.to_nat (- i))
  else String_of_nat (Z.to_nat i).

(** [a === b] on strings. *)
Definition same (a b : string) : bool := bool_decide (a = b).

(** A JavaScript [Map] with string keys, in insertion order. *)
Fixpoint map_get {V} (m : list (string * V)) (k : string) : option V :=
  match m with
  | [] => None
  | (k', v) :: m' => if same k' k then Some v else map_get m' k
  end.

(** [m.set(k, v)]: a key that is there keeps its place. *)
Fixpoint map_set {V} (m : list (string * V)) (k : string) (v : V)
    : list (string * V) :=
  match m with
  | [] => [(k, v)]
  | (k', v') :: m' =>
      if same k' k then (k, v) :: m' else (k', v') :: map_set m' k v
  end.

Definition map_delete {V} (m : list (string * V)) (k : string)
    : list (string * V) :=
  List.filter (fun kv => negb (same (fst kv) k)) m.

(** A value that is [null] when falsy: [x || null]. *)
Definition or_null (x : option string) : option string :=
  match x with
  | Some (String c s) => Some (String c s)
  | _ => None
  end.

Module Picker.

(** A value of [sessions]. *)
Record Session := mkSession {
  channelId : string;
  userId : string;
  username : string;
  rootId : option string;
  responseUrl : option string;
  responseUrlDead : bool;
  created : Z
}.

(** An element of data/custom-packs.json. *)
Record CustomPack := mkCustomPack {
  name : string;
  telegramName : string;
  added : string
}.

(** data/custom-packs.json: missing, there but unreadable (reading or
    parsing it throws), or holding an array of packs.  The file is
    written by this class only, as [JSON.stringify] of such an array. *)
Inductive PacksFile :=
| NoFile
| Unreadable
| Packs (l : list CustomPack).

(** The fields of a WebPicker object. *)
Record WebPicker := mkWebPicker {
  port : string;
  webmHandler : option Handler;
  tgsHandler : option Handler;
  staticHandler : option Handler;
  sessions : list (string * Session);
  stickerCache : gmap string (list Tg.StickerEntry)
}.

(** The fields of [this.bot] the picker reads. *)
Record Bot := mkBot { serverUrl : string; botToken : string }.

(** A request the picker made: uploads and posts to Mattermost, posts to
    a slash command's response URL, downloads of sticker files for the
    proxy. *)
Inductive Outgoing :=
| Upload (channelId : string) (filePath : string) (filename : string)
| PostToResponseUrl (responseUrl : string) (text : string)
| FileAsPost (channelId : string) (fileId : string) (rootId : option string)
| Download (url : string).

(** The picker, the Telegram client it holds, the files of the
    converters, the custom packs file, the requests made so far, and how
    many times the clock and the random generator have been read. *)
Record State := mkState {
  self : WebPicker;
  telegram : Tg.State;
  files : World;
  customPacksFile : PacksFile;
  outbox : list Outgoing;
  reads : nat
}.

(** How a download of a sticker file ends. *)
Inductive Fetch :=
| Fetched (data : string)
| FetchError (status : option nat).

(** Everything outside the process.  An answer may depend on how many
    requests went out before; [uploadFile] and [sendFileAsPost] are the
    functions of web-ui/file-upload.js, which return or throw. *)
Record Outside := mkOutside {
  converters : Env;
  telegramServer : Tg.Server;
  (** uploadFile: [fileInfo.id], [None] when it throws *)
  uploadFile : nat -> string -> string -> option string;
  (** axios.post to a response URL: whether it succeeded *)
  responseUrl_ok : nat -> string -> bool;
  (** sendFileAsPost: whether it returned *)
  sendFileAsPost_ok : nat -> bool;
  (** axios GET of a sticker file *)
  fetch : nat -> string -> Fetch;
  (** fs.writeFileSync of the packs file: the message of the error it
      throws, if it does *)
  write_error : list CustomPack -> option string;
  (** Math.random().toString(36).substring(7), Date.now() and
      new Date().toISOString(), by the number of earlier reads *)
  random_id : nat -> string;
  Date_now : nat -> Z;
  toISOString : nat -> string;
  (** process.env.MM_BOT_TOKEN and process.env.DOMAIN *)
  MM_BOT_TOKEN : option string;
  DOMAIN : option string
}.

(** A response body. *)
Inductive Body :=
| Text (s : string)
| File (contentType cacheControl : string) (data : string)
| JsonError (error : string)
| JsonExpired (error message : string)
| JsonSuccess
| JsonMessage (message : string)
| JsonValid (valid : bool) (error : option string)
| JsonNames (names : list string)
| JsonSessionId (sessionId : string)
| JsonEphemeral (text : string)
| JsonStickers (stickers : list Tg.StickerEntry)
| JsonSafeStickers
    (stickers : list (string * option string * bool * bool)).

Record Response := mkResponse { status : nat; body : Body }.

(** [res.json(x)], [res.send(x)]: status 200. *)
Definition ok (b : Body) : Response := mkResponse 200 b.

Definition set_self (f : WebPicker -> WebPicker) (s : State) : State :=
  mkState (f (self s)) (telegram s) (files s) (customPacksFile s) (outbox s)
    (reads s).

Definition set_sessions
    (f : list (string * Session) -> list (string * Session)) : State -> State :=
  set_self (fun p =>
    mkWebPicker (port p) (webmHandler p) (tgsHandler p) (staticHandler p)
      (f (sessions p)) (stickerCache p)).

Definition set_stickerCache
    (f : gmap string (list Tg.StickerEntry) -> gmap string (list Tg.StickerEntry))
    : State -> State :=
  set_self (fun p =>
    mkWebPicker (port p) (webmHandler p) (tgsHandler p) (staticHandler p)
      (sessions p) (f (stickerCache p))).

Definition set_customPacksFile (f : PacksFile) (s : State) : State :=
  mkState (self s) (telegram s) (files s) f (outbox s) (reads s).

(** A method of the Telegram client, called from the picker. *)
Definition on_telegram {A} (m : Run Tg.State A) : Run State A := fun s =>
  let '(r, t) := m (telegram s) in
  (r, mkState (self s) t (files s) (customPacksFile s) (outbox s) (reads s)).

(** A method of a converter, called from the picker. *)
Definition on_files {A} (m : M A) : Run State A := fun s =>
  let '(r, w) := m (files s) in
  (match r with
   | Returned a => Resolved a
   | Thrown e => Rejected (ConversionError e)
   end,
   mkState (self s) (telegram s) w (customPacksFile s) (outbox s) (reads s)).

(** A request goes out; [answer] reads what comes back. *)
Definition request {A} (r : Outgoing) (answer : nat -> A) : Run State A :=
  fun s =>
    (Resolved (answer (length (outbox s))),
     mkState (self s) (telegram s) (files s) (customPacksFile s)
       (outbox s ++ [r]) (reads s)).

(** The clock or the random generator is read. *)
Definition read {A} (value : nat -> A) : Run State A := fun s =>
  (Resolved (value (reads s)),
   mkState (self s) (telegram s) (files s) (customPacksFile s) (outbox s)
     (S (reads s))).

(** [getCustomPacks()] *)
Definition getCustomPacks : Run State (list CustomPack) :=
  file ← gets customPacksFile;
  match file with
  | Packs l => mret l
  | NoFile => mret []
  | Unreadable => mret []
  end.

(** [telegramPackName] of the routes: the Telegram name of the custom
    pack called [packName], if there is one, else [packName]. *)
Definition telegram_pack_name (customPacks : list CustomPack)
    (packName : string) : string :=
  match List.find (fun pack => same (name pack) packName) customPacks with
  | Some customPack => telegramName customPack
  | None => packName
  end.

(** [error.message], for the errors whose message the code builds or
    passes on. *)
Definition error_message (error : Exn) : string :=
  match error with
  | PackExists => "Pack already exists"
  | WriteFailed message => message
  | ReferenceError name => name ++ " is not defined"
  | _ => ""
  end.

(** [addCustomPack(packName, telegramPackName)]; [lower] is
    [String.prototype.toLowerCase]. *)
Definition addCustomPack (out : Outside) (lower : string -> string)
    (packName telegramPackName : string) : Run State unit :=
  customPacks ← getCustomPacks;
  let existingPack :=
    List.find (fun pack =>
                 same (lower (name pack)) (lower packName)
                 || same (telegramName pack) telegramPackName)
      customPacks in
  match existingPack with
  | Some _ => reject PackExists
  | None =>
      now ← read (toISOString out);
      let customPacks :=
        (customPacks ++ [mkCustomPack packName telegramPackName now])%list in
      match write_error out customPacks with
      | None => modify (set_customPacksFile (Packs customPacks))
      | Some message => reject (WriteFailed message)
      end
  end.

(** The longest prefix of [s] without "/", "?" and "#": [[^\/\?\#]+]. *)
Fixpoint name_run (s : string) : string :=
  match s with
  | EmptyString => EmptyString
  | String c s' =>
      if (Ascii.eqb c "/" || Ascii.eqb c "?" || Ascii.eqb c "#")%bool
      then EmptyString
      else String c (name_run s')
  end.

(** [s] without the prefix [p], letters compared without case (the [i]
    flag, which holds ASCII letters only against ASCII letters). *)
Fixpoint strip_prefix_i (p s : string) : option string :=
  match p, s with
  | EmptyString, _ => Some s
  | String a p', String b s' =>
      if Ascii.eqb (lower_ascii a) (lower_ascii b) then strip_prefix_i p' s'
      else None
  | String _ _, EmptyString => None
  end.

(** The expression of /api/add-pack matched at the start of [s]: the
    captured name. *)
Definition match_pack_link_here (s : string) : option string :=
  let capture rest :=
    match rest with
    | Some rest =>
        match name_run rest with
        | EmptyString => None
        | String c n => Some (String c n)
        end
    | None => None
    end in
  match capture (strip_prefix_i "t.me/addstickers/" s) with
  | Some n => Some n
  | None => capture (strip_prefix_i "telegram.me/addstickers/" s)
  end.

(** [packUrl.match(/(?:t\.me\/addstickers\/|telegram\.me\/addstickers\/)([^\/\?\#]+)/i)]:
    [urlMatch[1]] of the leftmost match. *)
Fixpoint match_pack_link (s : string) : option string :=
  match match_pack_link_here s with
  | Some n => Some n
  | None =>
      match s with
      | EmptyString => None
      | String _ s' => match_pack_link s'
      end
  end.

(** POST /api/add-pack; a missing field and an empty one are both
    falsy. *)
Definition api_add_pack (out : Outside) (lower : string -> string)
    (packName packUrl : option string) : Run State Response :=
  try_
    (match packName, packUrl with
     | Some (String c n), Some (String d u) =>
         let packName := String c n in
         match match_pack_link (String d u) with
         | None =>
             mret (mkResponse 400
                     (JsonError "Invalid Telegram sticker pack URL. Expected format: https://t.me/addstickers/PackName"))
         | Some telegramPackName =>
             addCustomPack out lower packName telegramPackName ;;
             mret (ok (JsonMessage "Pack added successfully"))
         end
     | _, _ => mret (mkResponse 400 (JsonError "Pack name and URL are required"))
     end)
    (fun error =>
       mret (mkResponse 500
               (JsonError ("Failed to add pack: " ++ error_message error)))).

(** POST /api/delete-pack *)
Definition api_delete_pack (out : Outside) (packName : string)
    (token : option string) : Run State Response :=
  if negb (bool_decide (token = MM_BOT_TOKEN out))
  then mret (mkResponse 401 (JsonError "Invalid token"))
  else
    try_
      (file ← gets customPacksFile;
       customPacks ←
         match file with
         | NoFile => mret []
         | Packs l => mret l
         | Unreadable => reject ReadFailed
         end;
       let remaining :=
         List.filter (fun pack => negb (same (name pack) packName))
           customPacks in
       if (length remaining =? length customPacks)%nat
       then mret (mkResponse 404 (JsonError "Pack not found or is a default pack"))
       else
         match write_error out remaining with
         | None =>
             modify (set_customPacksFile (Packs remaining)) ;;
             modify (set_stickerCache (delete packName)) ;;
             mret (ok JsonSuccess)
         | Some message => reject (WriteFailed message)
         end)
      (fun _ => mret (mkResponse 500 (JsonError "Failed to delete pack"))).

(** GET /api/packs *)
Definition api_packs : Run State Response :=
  customPacks ← getCustomPacks;
  mret (ok (JsonNames (["memezey"; "pepetop"; "HotCherry"]
                       ++ (name <$> customPacks))%list)).

(** GET /api/custom-packs *)
Definition api_custom_packs : Run State Response :=
  customPacks ← getCustomPacks;
  mret (ok (JsonNames (name <$> customPacks))).

(** POST /api/verify-token *)
Definition api_verify_token (out : Outside) (token : option string)
    : Run State Response :=
  if bool_decide (token = MM_BOT_TOKEN out)
  then mret (ok (JsonValid true None))
  else mret (mkResponse 401 (JsonValid false (Some "Invalid token"))).

(** The fields of a sticker GET /api/pack/:name sends on a cache miss:
    [{ url, emoji, isAnimated, isVideo }]. *)
Definition safe_fields (s : Tg.StickerEntry)
    : string * option string * bool * bool :=
  (Tg.entry_url s, Tg.entry_emoji s, Tg.isAnimated s, Tg.isVideo s).

(** GET /api/pack/:name *)
Definition api_pack (out : Outside) (packName : string) : Run State Response :=
  cached ← gets (fun s => stickerCache (self s) !! packName);
  match cached with
  | Some stickers => mret (ok (JsonStickers stickers))
  | None =>
      customPacks ← getCustomPacks;
      let telegramPackName := telegram_pack_name customPacks packName in
      stickers ← on_telegram
        (Tg.getAllStickerUrls (telegramServer out) telegramPackName true);
      (if (0 <? length stickers)%nat
       then modify (set_stickerCache (insert packName stickers))
       else mret tt) ;;
      mret (ok (JsonSafeStickers (safe_fields <$> stickers)))
  end.




(** [uploadFile(serverUrl, botToken, channelId, filePath, filename)] *)
Definition upload (out : Outside) (channelId filePath filename : string)
    : Run State string :=
  fileInfo ← request (Upload channelId filePath filename)
               (fun n => uploadFile out n filePath filename);
  match fileInfo with
  | Some id => mret id
  | None => reject UploadFailed
  end.

(** [postFile(fileInfo)] of POST /api/send: whether the session's
    response URL has expired.  [session] is the object read from
    [sessions] at the start of the request; marking it dead changes the
    object the map holds. *)
Definition postFile (out : Outside) (bot : Bot) (sessionId : string)
    (session : Session) (fileInfo_id : string) : Run State bool :=
  let fileUrl := serverUrl bot ++ "/api/v4/files/" ++ fileInfo_id in
  match or_null (responseUrl session) with
  | Some url =>
      if responseUrlDead session then mret true
      else
        sent ← request (PostToResponseUrl url ("![sticker](" ++ fileUrl ++ ")"))
                 (fun n => responseUrl_ok out n url);
        if sent : bool then mret false
        else
          modify (set_sessions (fun m =>
            match map_get m sessionId with
            | Some session =>
                map_set m sessionId
                  (mkSession (channelId session) (userId session)
                     (username session) (rootId session) (responseUrl session)
                     true (created session))
            | None => m
            end)) ;;
          mret true
  | None =>
      sent ← request (FileAsPost (channelId session) fileInfo_id (rootId session))
               (sendFileAsPost_ok out);
      if sent : bool then mret false else reject PostFailed
  end.

(** The end of both branches of POST /api/send: upload, post, answer. *)
Definition upload_and_post (out : Outside) (bot : Bot) (sessionId : string)
    (session : Session) (filePath filename : string) : Run State Response :=
  fileInfo ← upload out (channelId session) filePath filename;
  expired ← postFile out bot sessionId session fileInfo;
  if expired : bool
  then mret (mkResponse 410
               (JsonExpired "session_expired"
                  "Session expired. Please run /sticker again."))
  else mret (ok JsonSuccess).

(** POST /api/send *)
Definition api_send (out : Outside) (bot : Bot) (packName : string)
    (stickerIndex : Z) (sessionId : string) : Run State Response :=
  session ← gets (fun s => map_get (sessions (self s)) sessionId);
  match session with
  | None => mret (mkResponse 400 (JsonError "Invalid session"))
  | Some session =>
      customPacks ← getCustomPacks;
      let telegramPackName := telegram_pack_name customPacks packName in
      stickerInfo ← on_telegram
        (Tg.getStickerInfo (telegramServer out) telegramPackName stickerIndex);
      match stickerInfo with
      | None => mret (mkResponse 400 (JsonError "Failed to get sticker URL"))
      | Some stickerInfo =>
          let stickerUrl := Tg.url stickerInfo in
          let fileId := Tg.fileId stickerInfo in
          this ← gets self;
          let sticker := "sticker_" ++ packName ++ "_" ++ String_of_Z stickerIndex in
          gifFilePath ←
            match includes stickerUrl ".webm", webmHandler this,
                  includes stickerUrl ".tgs", tgsHandler this with
            | true, Some webmHandler, _, _ =>
                try_
                  (p ← on_files (convertWebmToGif webmHandler (converters out)
                                   stickerUrl (Some fileId));
                   mret (Some p))
                  (fun _ => mret None)
            | _, _, true, Some tgsHandler =>
                try_
                  (on_files (convertTgsToGif tgsHandler (converters out)
                               stickerUrl (Some fileId)))
                  (fun _ => mret None)
            | _, _, _, _ => mret None
            end;
          match or_null gifFilePath with
          | Some gifFilePath =>
              upload_and_post out bot sessionId session gifFilePath
                (sticker ++ ".gif")
          | None =>
              answered ←
                match staticHandler this, includes stickerUrl ".tgs" with
                | Some staticHandler, false =>
                    try_
                      (resizedPath ← on_files
                         (resizeStaticImage staticHandler (converters out)
                            stickerUrl);
                       response ← upload_and_post out bot sessionId session
                                    resizedPath (sticker ++ ".webp");
                       mret (Some response))
                      (fun _ => mret None)
                | _, _ => mret None
                end;
              match answered with
              | Some response => mret response
              | None =>
                  mret (mkResponse 500 (JsonError "Failed to convert sticker"))
              end
          end
      end
  end.

(** The session the three places that open one write, but for the fields
    each of them fills in. *)
Definition new_session (out : Outside) (sessionId : string) (session : Z -> Session)
    : Run State unit :=
  now ← read (Date_now out);
  modify (set_sessions (fun m => map_set m sessionId (session now))).

(** [for (const [id, session] of this.sessions) { if (Date.now() -
    session.created > 10 * 60 * 1000) this.sessions.delete(id); }] over
    the entries still to visit. *)
Fixpoint expire_sessions (out : Outside) (entries : list (string * Session))
    : Run State unit :=
  match entries with
  | [] => mret tt
  | (id, session) :: entries' =>
      now ← read (Date_now out);
      (if 10 * 60 * 1000 <? now - created session
       then modify (set_sessions (fun m => map_delete m id))
       else mret tt) ;;
      expire_sessions out entries'
  end.

(** POST /api/session *)
Definition api_session (out : Outside) (channelId userId : string)
    : Run State Response :=
  sessionId ← read (random_id out);
  new_session out sessionId
    (fun now => mkSession channelId userId userId None None false now) ;;
  entries ← gets (fun s => sessions (self s));
  expire_sessions out entries ;;
  mret (ok (JsonSessionId sessionId)).

(** [`${domain}:${this.port}/?session=${sessionId}`] *)
Definition picker_url (out : Outside) (this : WebPicker) (sessionId : string)
    : string :=
  js_or (DOMAIN out) "http://localhost" ++ ":" ++ port this
  ++ "/?session=" ++ sessionId.

(** POST /api/slash *)
Definition api_slash (out : Outside) (user_id user_name channel_id : string)
    (root_id response_url : option string) : Run State Response :=
  sessionId ← read (random_id out);
  new_session out sessionId
    (fun now =>
       mkSession channel_id user_id user_name (or_null root_id)
         (or_null response_url) false now) ;;
  this ← gets self;
  mret (ok (JsonEphemeral
              ("🎨 [**Open Sticker Picker**](" ++ picker_url out this sessionId
               ++ ")"))).

(** [generatePickerLink(channelId, userId, username, rootId)] *)
Definition generatePickerLink (out : Outside) (channelId userId : string)
    (username rootId : option string) : Run State string :=
  sessionId ← read (random_id out);
  new_session out sessionId
    (fun now =>
       mkSession channelId userId (js_or username userId) (or_null rootId)
         None false now) ;;
  this ← gets self;
  mret (picker_url out this sessionId).

End Picker.

(** ** Vocabulary of the picker's properties *)

(** What a request to /api/send leaves as it was: the custom packs, the
    clock and random reads, the picker's handlers, port and sticker cache,
    and every session but the request's own. *)
Definition send_frame (sessionId : string) (s s1 : Picker.State) : Prop :=
  Picker.customPacksFile s1 = Picker.customPacksFile s
  /\ Picker.reads s1 = Picker.reads s
  /\ Picker.port (Picker.self s1) = Picker.port (Picker.self s)
  /\ Picker.webmHandler (Picker.self s1) = Picker.webmHandler (Picker.self s)
  /\ Picker.tgsHandler (Picker.self s1) = Picker.tgsHandler (Picker.self s)
  /\ Picker.staticHandler (Picker.self s1) = Picker.staticHandler (Picker.self s)
  /\ Picker.stickerCache (Picker.self s1) = Picker.stickerCache (Picker.self s)
  /\ (forall id, id <> sessionId ->
        map_get (Picker.sessions (Picker.self s1)) id
        = map_get (Picker.sessions (Picker.self s)) id).

(** The post /api/send makes for an uploaded file: to the session's
    response URL when it has one, else as a post of the bot. *)
Definition post_of (bot : Picker.Bot) (session : Picker.Session)
    (fileInfo_id : string) : Picker.Outgoing :=
  match or_null (Picker.responseUrl session) with
  | Some url =>
      Picker.PostToResponseUrl url
        ("![sticker](" ++ (Picker.serverUrl bot ++ "/api/v4/files/" ++ fileInfo_id)
         ++ ")")
  | None =>
      Picker.FileAsPost (Picker.channelId session) fileInfo_id
        (Picker.rootId session)
  end.

(** Whether the post that goes out as request number [n] is accepted. *)
Definition post_accepted (out : Picker.Outside) (session : Picker.Session)
    (n : nat) : bool :=
  match or_null (Picker.responseUrl session) with
  | Some url => Picker.responseUrl_ok out n url
  | None => Picker.sendFileAsPost_ok out n
  end.

(** ** Sample values of the picker *)

Module PickerDemo.

(** A set of three stickers: a video, an animation and an image. *)
Definition memezey : Tg.StickerSet :=
  Tg.mkStickerSet
    (Some [Tg.mkSticker "video1" (Some "v") false true;
           Tg.mkSticker "anim1" (Some "a") true false;
           Tg.mkSticker "image1" None false false]).

(** Telegram knows that set only and gives each file a path with the
    extension of its kind; answers come in in the order of the
    requests. *)
Definition server : Tg.Server := {|
  Tg.getStickerSet_reply := fun _ name =>
    if same name "memezey" then Tg.Ok memezey else Tg.NotOk;
  Tg.getFile_reply := fun _ file_id =>
    if same file_id "video1" then Tg.Ok "stickers/file_1.webm"
    else if same file_id "anim1" then Tg.Ok "stickers/file_2.tgs"
    else if same file_id "image1" then Tg.Ok "stickers/file_3.webp"
    else Tg.NotOk;
  Tg.latency := fun n => n
|}.

(** Everything outside works, but for the converters, which run in
    [env]. *)
Definition outside (env : Env) : Picker.Outside := {|
  Picker.converters := env;
  Picker.telegramServer := server;
  Picker.uploadFile := fun _ _ _ => Some "file1";
  Picker.responseUrl_ok := fun _ _ => true;
  Picker.sendFileAsPost_ok := fun _ => true;
  Picker.fetch := fun _ _ => Picker.Fetched "data";
  Picker.write_error := fun _ => None;
  Picker.random_id := fun n => "id" ++ String_of_nat n;
  Picker.Date_now := fun n => 1000 * Z.of_nat n;
  Picker.toISOString := fun _ => "2024-01-01T00:00:00.000Z";
  Picker.MM_BOT_TOKEN := Some "secret";
  Picker.DOMAIN := None
|}.

Definition bot : Picker.Bot := Picker.mkBot "https://mm.example" "secret".

(** A session a slash command opened. *)
Definition session : Picker.Session :=
  Picker.mkSession "channel1" "user1" "alice" None
    (Some "https://mm.example/hooks/commands/1") false 0.

(** A picker with the three converters, that session and nothing
    cached. *)
Definition state : Picker.State := {|
  Picker.self :=
    Picker.mkWebPicker "3333" (Some Demo.handler) (Some Demo.handler)
      (Some Demo.handler) [("s1", session)] ∅;
  Picker.telegram :=
    Tg.mkState (Tg.new_TelegramAPI (Some "123:abc") None) [];
  Picker.files := Demo.world0;
  Picker.customPacksFile := Picker.NoFile;
  Picker.outbox := [];
  Picker.reads := 0
|}.

End PickerDemo.

(** * Properties *)

(** ** The digest against the RFC 1321 test suite *)

Example md5_test_suite :
  MD5.md5_hex "" = "d41d8cd98f00b204e9800998ecf8427e"
  /\ MD5.md5_hex "a" = "0cc175b9c0f1b6a831c399e269772661"
  /\ MD5.md5_hex "abc" = "900150983cd24fb0d6963f7d28e17f72"
  /\ MD5.md5_hex "message digest" = "f96b697d7cb7938d525a2f31aaf161d0"
  /\ MD5.md5_hex "abcdefghijklmnopqrstuvwxyz"
     = "c3fcd3d76192e4007dfb496cca67e13b"
  /\ MD5.md5_hex "12345678901234567890123456789012345678901234567890123456789012345678901234567890"
     = "57edf4a22be3c955ac49da2e2107b67a".
Proof. repeat split; vm_compute; reflexivity. Qed.

(** ** Strings and paths *)

Lemma string_app_cons (x : ascii) (a b : string) :
  String x a ++ b = String x (a ++ b).
Proof. reflexivity. Qed.

Lemma string_app_assoc (a b c : string) : (a ++ b) ++ c = a ++ (b ++ c).
Proof.
  induction a as [|x a IH]; [reflexivity|].
  rewrite !string_app_cons. by rewrite IH.
Qed.

Lemma string_app_cancel (a b c : string) : a ++ b = a ++ c -> b = c.
Proof. apply (inj (String.append a)). Qed.

(** The cache directory is neither the temp directory nor anything
    below it. *)
Lemma cacheDir_not_tempDir root :
  cacheDir (new_Handler root) <> tempDir (new_Handler root).
Proof.
  unfold new_Handler, path_str, path_join, cacheDir, tempDir, dir, base.
  intros H. do 2 apply string_app_cancel in H. discriminate H.
Qed.

Lemma cacheDir_not_below_tempDir root entry :
  cacheDir (new_Handler root)
  <> path_str (path_join (tempDir (new_Handler root)) entry).
Proof.
  unfold new_Handler, path_str, path_join, cacheDir, tempDir, dir, base.
  intros H. rewrite !string_app_assoc in H.
  do 2 apply string_app_cancel in H.
  rewrite !string_app_cons in H. discriminate H.
Qed.

(** ** Frame file names *)

Lemma string_length_app (a b : string) :
  String.length (a ++ b) = (String.length a + String.length b)%nat.
Proof.
  induction a as [|x a IH]; [reflexivity|].
  rewrite string_app_cons. simpl. by rewrite IH.
Qed.

Lemma string_app_cancel_r (a b c : string) : a ++ c = b ++ c -> a = b.
Proof.
  revert b. induction a as [|x a IH]; intros [|y b] H.
  - reflexivity.
  - apply (f_equal String.length) in H.
    rewrite !string_length_app in H. simpl in H. lia.
  - apply (f_equal String.length) in H.
    rewrite !string_length_app in H. simpl in H. lia.
  - rewrite !string_app_cons in H. injection H as -> H.
    f_equal. by apply IH.
Qed.

(** Reading a zero-padded decimal back gives the number printed. *)
Lemma padded_decimal_value (k n : nat) :
  Nat.of_uint <$> NilEmpty.uint_of_string
    (string_of_list_ascii (repeat "0"%char k) ++ String_of_nat n)
  = Some n.
Proof.
  assert (NilEmpty.uint_of_string
            (string_of_list_ascii (repeat "0"%char k) ++ String_of_nat n)
          = Some (Nat.iter k Decimal.D0 (Nat.to_uint n))) as ->.
  { induction k as [|k IH].
    - apply NilEmpty.usu.
    - cbn [repeat string_of_list_ascii Nat.iter nat_rect].
      rewrite string_app_cons. cbn [NilEmpty.uint_of_string].
      by rewrite IH. }
  simpl. f_equal.
  rewrite <- DecimalNat.Unsigned.of_uint_norm, DecimalFacts.unorm_iter_D0.
  rewrite DecimalNat.Unsigned.of_uint_norm. apply DecimalNat.Unsigned.of_to.
Qed.

(** Distinct frame numbers give distinct file names. *)
Lemma frame_name_inj (i j : nat) : frame_name i = frame_name j -> i = j.
Proof.
  unfold frame_name, padStart. intros H.
  apply string_app_cancel, string_app_cancel_r in H.
  pose proof (padded_decimal_value (4 - String.length (String_of_nat i)) i) as Hi.
  rewrite H, padded_decimal_value in Hi. congruence.
Qed.

Example frame_names :
  frame_name 0 = "frame_0000.png"
  /\ frame_name 7 = "frame_0007.png"
  /\ frame_name 123 = "frame_0123.png".
Proof. repeat split; vm_compute; reflexivity. Qed.

(** ** File-system facts *)

Lemma put_file_exists p w w' : put_file p w = Some w' -> file_exists p w' = true.
Proof.
  unfold put_file. destruct (fs w !! dir p) as [names|] eqn:Hd; [|done].
  intros [= <-]. unfold file_exists. simpl. rewrite lookup_insert_eq.
  apply bool_decide_eq_true. set_solver.
Qed.

Lemma put_file_dirs p w w' d :
  put_file p w = Some w' -> fs w' !! d = None <-> fs w !! d = None.
Proof.
  unfold put_file. destruct (fs w !! dir p) as [names|] eqn:Hd; [|done].
  intros [= <-]; simpl. destruct (decide (dir p = d)) as [<-|Hne].
  - rewrite lookup_insert_eq, Hd. done.
  - by rewrite lookup_insert_ne.
Qed.

Lemma put_file_globals p w w' : put_file p w = Some w' -> globals w' = globals w.
Proof. unfold put_file. destruct (fs w !! dir p); [|done]. by intros [= <-]. Qed.

Lemma put_file_trace p w w' : put_file p w = Some w' -> trace w' = trace w.
Proof. unfold put_file. destruct (fs w !! dir p); [|done]. by intros [= <-]. Qed.

(** After [fs.unlink(p)], returned or thrown, [p] is not there. *)
Lemma fs_unlink_gone p w : file_exists p (snd (fs_unlink p w)) = false.
Proof.
  unfold fs_unlink, file_exists.
  destruct (fs w !! dir p) as [names|] eqn:Hd; simpl; [|by rewrite Hd].
  case_bool_decide as Hin; simpl.
  - rewrite lookup_insert_eq. apply bool_decide_eq_false. set_solver.
  - rewrite Hd. by apply bool_decide_eq_false.
Qed.

Lemma fs_unlink_other p q w :
  q <> p -> file_exists q (snd (fs_unlink p w)) = file_exists q w.
Proof.
  intros Hne. unfold fs_unlink, file_exists.
  destruct (fs w !! dir p) as [names|] eqn:Hd; simpl; [|done].
  case_bool_decide as Hin; simpl; [|done].
  destruct (decide (dir p = dir q)) as [Heq|Hd'].
  - rewrite <- Heq, Hd, lookup_insert_eq.
    apply bool_decide_ext. split; [set_solver|].
    intros Hq. apply elem_of_difference. split; [done|].
    intros Hb%elem_of_singleton. destruct p, q; simpl in *; congruence.
  - by rewrite lookup_insert_ne.
Qed.

(** [fs.unlink] creates nothing. *)
Lemma fs_unlink_stays_absent p q w :
  file_exists q w = false -> file_exists q (snd (fs_unlink p w)) = false.
Proof.
  intros Hq. destruct (decide (q = p)) as [->|Hne].
  - apply fs_unlink_gone.
  - by rewrite fs_unlink_other.
Qed.

Lemma fs_unlink_dirs p d w : fs (snd (fs_unlink p w)) !! d = None <-> fs w !! d = None.
Proof.
  unfold fs_unlink. destruct (fs w !! dir p) as [names|] eqn:Hd; simpl; [|done].
  case_bool_decide; simpl; [|done].
  destruct (decide (dir p = d)) as [<-|Hne].
  - rewrite lookup_insert_eq, Hd. done.
  - by rewrite lookup_insert_ne.
Qed.

(** [fs.rmdir] only removes empty directories: no file is lost. *)
Lemma fs_rmdir_files d q w : file_exists q (snd (fs_rmdir d w)) = file_exists q w.
Proof.
  unfold fs_rmdir, file_exists.
  destruct (fs w !! d) as [names|] eqn:Hd; simpl; [|done].
  case_bool_decide as Hempty; simpl; [|done].
  destruct (decide (d = dir q)) as [<-|Hne].
  - rewrite lookup_delete_eq, Hd, Hempty. symmetry. by apply bool_decide_eq_false.
  - by rewrite lookup_delete_ne.
Qed.

Lemma fs_rmdir_dirs d d' w :
  fs w !! d' = None -> fs (snd (fs_rmdir d w)) !! d' = None.
Proof.
  unfold fs_rmdir. intros Hd'.
  destruct (fs w !! d) as [names|] eqn:Hd; simpl; [|done].
  case_bool_decide; simpl; [|done].
  destruct (decide (d = d')) as [<-|Hne].
  - by rewrite lookup_delete_eq.
  - by rewrite lookup_delete_ne.
Qed.

Lemma fs_mkdir_files ok d q w : file_exists q (snd (fs_mkdir ok d w)) = file_exists q w.
Proof.
  unfold fs_mkdir, file_exists.
  destruct (fs w !! d) as [names|] eqn:Hd; simpl; [done|].
  destruct ok; simpl; [|done].
  destruct (decide (d = dir q)) as [<-|Hne].
  - rewrite lookup_insert_eq, Hd. apply bool_decide_eq_false. set_solver.
  - by rewrite lookup_insert_ne.
Qed.

(** *** Frames of the file-system calls *)

Ltac frame_cases :=
  intros w;
  unfold same_globals, same_trace, fs_unlink, fs_mkdir, fs_rmdir, set_fs;
  repeat (case_match; simpl in *; simplify_eq); try reflexivity.

Lemma fs_unlink_same_globals p : steps same_globals (fs_unlink p).
Proof. frame_cases. Qed.
Lemma fs_unlink_same_trace p : steps same_trace (fs_unlink p).
Proof. frame_cases. Qed.

Lemma fs_mkdir_same_globals ok d : steps same_globals (fs_mkdir ok d).
Proof. frame_cases. Qed.
Lemma fs_mkdir_same_trace ok d : steps same_trace (fs_mkdir ok d).
Proof. frame_cases. Qed.

Lemma fs_rmdir_same_globals d : steps same_globals (fs_rmdir d).
Proof. frame_cases. Qed.
Lemma fs_rmdir_same_trace d : steps same_trace (fs_rmdir d).
Proof. frame_cases. Qed.

(** ** Running a sequence step by step *)

Lemma run_bind {A B} (m : M A) (k : A -> M B) w :
  (m ≫= k) w
  = match m w with
    | (Returned a, w') => k a w'
    | (Thrown e, w') => (Thrown e, w')
    end.
Proof. reflexivity. Qed.

Lemma run_try_catch {A} (body : M A) (handler : Error -> M A) w :
  try_catch body handler w
  = match body w with
    | (Returned a, w') => (Returned a, w')
    | (Thrown e, w') => handler e w'
    end.
Proof. reflexivity. Qed.

Lemma run_ret {A} (a : A) w : (mret a : M A) w = (Returned a, w).
Proof. reflexivity. Qed.

Lemma run_throw {A} (e : Error) w : (throw e : M A) w = (Thrown e, w).
Proof. reflexivity. Qed.

Lemma catch_with_returns {A} (m : M A) (v : A) w e w' :
  catch_with m v w = (Thrown e, w') -> False.
Proof.
  unfold catch_with. rewrite run_try_catch.
  by destruct (m w) as [[?|?] ?].
Qed.

(** The cache probe returns whether the file is there and changes
    nothing. *)
Lemma cache_hit_run p w : cache_hit p w = (Returned (file_exists p w), w).
Proof.
  unfold cache_hit, try_catch, mbind, M_bind, fs_access.
  by destruct (file_exists p w).
Qed.

(** ** What one run of each step tells *)

#[export] Instance only_dir_po d : PreOrder (only_dir d).
Proof.
  split; [by intros w d' | intros a b c Hab Hbc d' Hd'].
  by rewrite Hbc, Hab.
Qed.

Lemma only_dir_file d q w w' :
  only_dir d w w' -> dir q <> d -> file_exists q w' = file_exists q w.
Proof. intros H Hq. unfold file_exists. by rewrite H. Qed.

Lemma put_file_only_dir p w w' : put_file p w = Some w' -> only_dir (dir p) w w'.
Proof.
  unfold put_file. destruct (fs w !! dir p) as [names|]; [|done].
  intros [= <-] d' Hd'. simpl. by rewrite lookup_insert_ne.
Qed.

Lemma fs_unlink_only_dir p : steps (only_dir (dir p)) (fs_unlink p).
Proof.
  intros w. unfold fs_unlink.
  destruct (fs w !! dir p) as [names|]; [|reflexivity].
  case_bool_decide as Hin; [|reflexivity].
  intros d' Hd'. simpl. by rewrite lookup_insert_ne.
Qed.

Lemma produce_run o p e w r w' :
  produce o p e w = (r, w') ->
  trace w' = trace w
  /\ globals w' = globals w
  /\ only_dir (dir p) w w'
  /\ match r with
     | Returned _ => o = Done /\ file_exists p w' = true
     | Thrown e' => e' = e
     end.
Proof.
  unfold produce.
  destruct o as [|[|]];
    try destruct (put_file p w) as [w1|] eqn:Hput;
    intros [= <- <-]; simpl;
    repeat split; try reflexivity;
    eauto using put_file_trace, put_file_globals, put_file_only_dir,
      put_file_exists.
Qed.

Lemma log_event_run e w : log_event e w = (Returned tt, log e w).
Proof. reflexivity. Qed.

Lemma downloadFile_run env url out w r w' :
  downloadFile env url out w = (r, w') ->
  trace w' = (trace w ++ [EvDownload url])%list
  /\ globals w' = globals w
  /\ only_dir (dir out) w w'
  /\ match r with
     | Returned _ =>
         is_Some (http_get env url)
         /\ stream_write env (path_str out) = Done
         /\ file_exists out w' = true
     | Thrown e => e = HttpError \/ e = EIO
     end.
Proof.
  unfold downloadFile. rewrite run_bind, log_event_run. cbv beta iota.
  destruct (http_get env url) as [body|].
  - intros (Ht & Hg & Hd & Hr)%produce_run.
    split; [exact Ht|]. split; [exact Hg|]. split; [exact Hd|].
    destruct r as [?|e']; [naive_solver | by right].
  - intros [= <- <-]. split; [reflexivity|]. split; [reflexivity|].
    split; [by intros d' _ | by left].
Qed.

Lemma exec_writing_run o cmd out w r w' :
  exec_writing o cmd out w = (r, w') ->
  trace w' = (trace w ++ [EvExec cmd])%list
  /\ globals w' = globals w
  /\ only_dir (dir out) w w'
  /\ match r with
     | Returned _ => o cmd = Done /\ file_exists out w' = true
     | Thrown e => e = ExecError cmd
     end.
Proof.
  unfold exec_writing. rewrite run_bind, log_event_run. cbv beta iota.
  by intros (Ht & Hg & Hd & Hr)%produce_run.
Qed.

Lemma fs_unlink_listing p w :
  fs (snd (fs_unlink p w)) !! dir p
  = (fun names => names ∖ {[base p]}) <$> fs w !! dir p.
Proof.
  unfold fs_unlink. destruct (fs w !! dir p) as [names|] eqn:Hl; simpl.
  - case_bool_decide as Hin; simpl.
    + by rewrite lookup_insert_eq.
    + rewrite Hl. simpl. f_equal. set_solver.
  - by rewrite Hl.
Qed.

Lemma unlink_quiet_run p w r w' :
  catch_with (fs_unlink p) tt w = (r, w') ->
  trace w' = trace w
  /\ globals w' = globals w
  /\ only_dir (dir p) w w'
  /\ file_exists p w' = false
  /\ (forall q, file_exists q w = false -> file_exists q w' = false)
  /\ (forall q, q <> p -> file_exists q w' = file_exists q w)
  /\ (forall d, fs w' !! d = None <-> fs w !! d = None)
  /\ fs w' !! dir p = (fun names => names ∖ {[base p]}) <$> fs w !! dir p.
Proof.
  unfold catch_with. rewrite run_try_catch.
  pose proof (fs_unlink_listing p w) as Hlist.
  pose proof (fs_unlink_same_trace p w) as Ht.
  pose proof (fs_unlink_same_globals p w) as Hg.
  pose proof (fs_unlink_only_dir p w) as Hd.
  pose proof (fs_unlink_gone p w) as Hgone.
  pose proof (fun q => fs_unlink_stays_absent p q w) as Habs.
  pose proof (fun q => fs_unlink_other p q w) as Hoth.
  pose proof (fun d => fs_unlink_dirs p d w) as Hdirs.
  intros Hrun. assert (w' = snd (fs_unlink p w)) as ->.
  { destruct (fs_unlink p w) as [[?|?] ?];
      cbv beta iota in Hrun; rewrite ?run_ret in Hrun; by simplify_eq. }
  repeat split; try done; try apply Hdirs.
Qed.

Lemma rmdir_quiet_run d w r w' :
  catch_with (fs_rmdir d) tt w = (r, w') ->
  trace w' = trace w
  /\ globals w' = globals w
  /\ only_dir d w w'
  /\ (forall q, file_exists q w' = file_exists q w)
  /\ (forall d', fs w !! d' = None -> fs w' !! d' = None)
  /\ (fs w !! d = Some ∅ -> fs w' !! d = None).
Proof.
  unfold catch_with. rewrite run_try_catch.
  pose proof (fs_rmdir_same_trace d w) as Ht.
  pose proof (fs_rmdir_same_globals d w) as Hg.
  pose proof (fun q => fs_rmdir_files d q w) as Hf.
  pose proof (fun d' => fs_rmdir_dirs d d' w) as Hdirs.
  assert (only_dir d w (snd (fs_rmdir d w))
          /\ (fs w !! d = Some ∅ -> fs (snd (fs_rmdir d w)) !! d = None))
    as [Hd Hrm].
  { unfold fs_rmdir. destruct (fs w !! d) as [names|] eqn:Hl; simpl.
    - case_bool_decide as He; simpl.
      + split; [|by rewrite lookup_delete_eq].
        intros d' Hd'. simpl. by rewrite lookup_delete_ne.
      + split; [reflexivity | congruence].
    - split; [reflexivity | done]. }
  intros Hrun. assert (w' = snd (fs_rmdir d w)) as ->.
  { destruct (fs_rmdir d w) as [[?|?] ?];
      cbv beta iota in Hrun; rewrite ?run_ret in Hrun; by simplify_eq. }
  repeat split; done.
Qed.

Lemma put_files_run d frames w :
  let w' := foldl (fun w f => default w (put_file (path_join d f) w)) w frames in
  trace w' = trace w /\ globals w' = globals w /\ only_dir d w w'
  /\ (forall d', fs w' !! d' = None <-> fs w !! d' = None).
Proof.
  revert w. induction frames as [|f frames IH]; intros w; simpl.
  - repeat split; done.
  - destruct (put_file (path_join d f) w) as [w1|] eqn:Hput; simpl; [|apply IH].
    destruct (IH w1) as (Ht & Hg & Hd & Hdirs).
    rewrite Ht, Hg. split; [by eapply put_file_trace|].
    split; [by eapply put_file_globals|]. split.
    + etrans; [|exact Hd]. by apply (put_file_only_dir (path_join d f)).
    + intros d'. rewrite Hdirs. by eapply put_file_dirs.
Qed.

Lemma exec_extract_run env cmd d w r w' :
  exec_extract env cmd d w = (r, w') ->
  trace w' = (trace w ++ [EvExec cmd])%list
  /\ globals w' = globals w
  /\ only_dir d w w'
  /\ (forall d', fs w' !! d' = None <-> fs w !! d' = None)
  /\ match r with
     | Returned _ => snd (ffmpeg_extract env cmd) = true
     | Thrown e => e = ExecError cmd
     end.
Proof.
  unfold exec_extract. rewrite run_bind, log_event_run. cbv beta iota.
  unfold run_extract. destruct (ffmpeg_extract env cmd) as [frames ok].
  intros [= <- <-].
  destruct (put_files_run d frames (log (EvExec cmd) w)) as (Ht & Hg & Hd & Hdirs).
  split; [exact Ht|]. split; [exact Hg|]. split; [exact Hd|].
  split; [exact Hdirs|]. by destruct ok.
Qed.

Lemma fs_mkdir_run ok d w r w' :
  fs_mkdir ok d w = (r, w') ->
  trace w' = trace w
  /\ globals w' = globals w
  /\ only_dir d w w'
  /\ (forall q, file_exists q w' = file_exists q w)
  /\ match r with
     | Returned _ => is_Some (fs w' !! d)
     | Thrown e => e = EIO /\ w' = w /\ fs w !! d = None
     end.
Proof.
  intros Hrun.
  pose proof (fs_mkdir_same_trace ok d w) as Ht.
  pose proof (fs_mkdir_same_globals ok d w) as Hg.
  pose proof (fun q => fs_mkdir_files ok d q w) as Hf.
  rewrite Hrun in Ht, Hg, Hf. split; [exact Ht|]. split; [exact Hg|].
  split; [|split; [exact Hf|]]; revert Hrun; unfold fs_mkdir;
    destruct (fs w !! d) as [names|] eqn:Hl; try destruct ok;
    intros [= <- <-]; try done.
  - intros d' Hd'. simpl. by rewrite lookup_insert_ne.
  - simpl. by rewrite lookup_insert_eq.
Qed.

Lemma fs_readdir_run d w r w' :
  fs_readdir d w = (r, w') ->
  w' = w
  /\ match r with
     | Returned l => exists names, fs w !! d = Some names /\ l = elements names
     | Thrown e => fs w !! d = None
     end.
Proof.
  unfold fs_readdir. destruct (fs w !! d) as [names|]; intros [= <- <-];
    split; eauto.
Qed.

Lemma readdir_quiet_run d w r w' :
  catch_with (fs_readdir d) [] w = (r, w') ->
  w' = w
  /\ exists l, r = Returned l
     /\ match fs w !! d with
        | Some names => l = elements names
        | None => l = []
        end.
Proof.
  unfold catch_with. rewrite run_try_catch. unfold fs_readdir.
  destruct (fs w !! d) as [names|]; cbv beta iota; rewrite ?run_ret;
    intros [= <- <-]; eauto.
Qed.

Lemma unlink_all_run d l w r w' :
  for_of l (fun f => catch_with (fs_unlink (path_join d f)) tt) w = (r, w') ->
  r = Returned tt
  /\ trace w' = trace w
  /\ globals w' = globals w
  /\ only_dir d w w'
  /\ fs w' !! d = (fun names => names ∖ list_to_set l) <$> fs w !! d.
Proof.
  revert w r w'. induction l as [|f l IH]; intros w r w'; simpl.
  - rewrite run_ret. intros [= <- <-]. repeat split; try done.
    destruct (fs w !! d) as [names|]; simpl; [|done]. f_equal. set_solver.
  - rewrite run_bind.
    destruct (catch_with (fs_unlink (path_join d f)) tt w) as [[[]|e] w1] eqn:H1;
      [|by apply catch_with_returns in H1].
    intros (-> & Ht & Hg & Hd & Hl)%IH.
    apply unlink_quiet_run in H1 as (Ht1 & Hg1 & Hd1 & _ & _ & _ & _ & Hl1).
    simpl in Hd1, Hl1.
    split; [done|]. split; [congruence|]. split; [congruence|].
    split; [by etrans|].
    rewrite Hl, Hl1. destruct (fs w !! d) as [names|]; simpl; [|done].
    f_equal. set_solver.
Qed.

Lemma axios_get_run env url w r w' :
  axios_get env url w = (r, w') ->
  w' = log (EvDownload url) w
  /\ match r with
     | Returned body => http_get env url = Some body
     | Thrown e => e = HttpError /\ http_get env url = None
     end.
Proof.
  unfold axios_get. rewrite run_bind, log_event_run. cbv beta iota.
  destruct (http_get env url) as [body|]; intros [= <- <-]; done.
Qed.

Lemma of_option_run {A} (o : option A) e w r w' :
  of_option o e w = (r, w') ->
  w' = w
  /\ match r with
     | Returned a => o = Some a
     | Thrown e' => e' = e /\ o = None
     end.
Proof. destruct o; intros [= <- <-]; done. Qed.

Lemma install_globals_run w :
  install_globals w
  = (Returned tt, set_globals (list_to_set dom_globals ∪ globals w) w).
Proof. reflexivity. Qed.

Lemma delete_globals_run w :
  delete_globals w
  = (Returned tt, set_globals (globals w ∖ list_to_set dom_globals) w).
Proof. reflexivity. Qed.

Lemma rendered_S d step i n k :
  rendered d step i n (S k)
  = EvRender i (path_str (path_join d (frame_name n)))
    :: rendered d step (i + step) (S n) k.
Proof.
  unfold rendered. rewrite <- cons_seq, fmap_cons. f_equal.
  - f_equal; [lia | by rewrite Nat.add_0_r].
  - rewrite <- fmap_S_seq, <- list_fmap_compose. apply list_fmap_ext.
    intros _ j _. simpl. f_equal; [lia | by rewrite Nat.add_succ_r].
Qed.

Lemma fs_writeFile_run ok p w r w' :
  fs_writeFile ok p w = (r, w') ->
  trace w' = trace w
  /\ globals w' = globals w
  /\ only_dir (dir p) w w'
  /\ (forall d', fs w' !! d' = None <-> fs w !! d' = None)
  /\ match r with
     | Returned _ => ok = true /\ file_exists p w' = true
     | Thrown e => e = EIO \/ e = ENOENT
     end.
Proof.
  unfold fs_writeFile. destruct ok.
  - destruct (put_file p w) as [w1|] eqn:Hput; intros [= <- <-].
    + split; [by eapply put_file_trace|]. split; [by eapply put_file_globals|].
      split; [by eapply put_file_only_dir|].
      split; [intros d'; by eapply put_file_dirs|].
      split; [done | by eapply put_file_exists].
    + repeat split; auto.
  - intros [= <- <-]. repeat split; auto.
Qed.

Lemma render_loop_run env d total step fuel i n w r w' :
  render_loop env d total step fuel i n w = (r, w') ->
  globals w' = globals w
  /\ only_dir d w w'
  /\ (forall d', fs w' !! d' = None <-> fs w !! d' = None)
  /\ exists k : nat,
      trace w' = (trace w ++ rendered d step i n k)%list
      /\ (forall j : nat, (j < k)%nat ->
            i + Z.of_nat j * step < total
            /\ render_ok env (i + Z.of_nat j * step) = true)
      /\ match r with
         | Returned n' =>
             n' = (n + k)%nat
             /\ (fuel = k \/ total <= i + Z.of_nat k * step)
         | Thrown e =>
             i + Z.of_nat k * step < total
             /\ (e = CanvasError \/ e = EIO \/ e = ENOENT)
         end.
Proof.
  revert i n w. induction fuel as [|fuel IH]; intros i n w; simpl.
  - rewrite run_ret. intros [= <- <-]. split; [done|]. split; [done|].
    split; [done|]. exists 0%nat. unfold rendered; simpl.
    rewrite app_nil_r. split; [done|]. split; [lia|]. split; [lia | by left].
  - destruct (Z.ltb_spec i total) as [Hlt|Hge].
    + rewrite run_bind. unfold render_frame at 1.
      destruct (render_ok env i) eqn:Hok.
      * rewrite run_ret. cbv beta iota. rewrite run_bind.
        destruct (fs_writeFile _ _ w) as [[[]|e] w1] eqn:Hw; cbv beta iota.
        -- apply fs_writeFile_run in Hw as (Ht1 & Hg1 & Hd1 & Hdirs1 & _).
           rewrite run_bind, log_event_run. cbv beta iota.
           intros (Hg & Hd & Hdirs & k & Ht & Hall & Hr)%IH.
           simpl in Hd1.
           split; [by rewrite Hg|]. split; [by etrans|].
           split; [intros d'; by rewrite Hdirs, <- Hdirs1|].
           exists (S k). rewrite rendered_S. split.
           { rewrite Ht. simpl. rewrite Ht1, <- app_assoc. done. }
           split.
           { intros [|j] Hj.
             - rewrite Z.mul_0_l, Z.add_0_r. done.
             - destruct (Hall j) as [H1 H2]; [lia|].
               replace (i + Z.of_nat (S j) * step) with (i + step + Z.of_nat j * step) by lia.
               done. }
           replace (i + Z.of_nat (S k) * step) with (i + step + Z.of_nat k * step) by lia.
           destruct r as [n'|e]; [|done].
           destruct Hr as [-> Hr]. split; [lia|].
           destruct Hr as [->|Hr]; [by left | by right].
        -- intros [= <- <-].
           apply fs_writeFile_run in Hw as (Ht1 & Hg1 & Hd1 & Hdirs1 & He).
           split; [done|]. split; [done|]. split; [done|].
           exists 0%nat. unfold rendered; simpl. rewrite app_nil_r.
           split; [done|]. split; [lia|]. split; [lia|]. naive_solver.
      * rewrite run_throw. intros [= <- <-].
        split; [done|]. split; [done|]. split; [done|].
        exists 0%nat. unfold rendered; simpl. rewrite app_nil_r.
        split; [done|]. split; [lia|]. split; [lia | by left].
    + rewrite run_ret. intros [= <- <-]. split; [done|]. split; [done|].
      split; [done|]. exists 0%nat. unfold rendered; simpl.
      rewrite app_nil_r. split; [done|]. split; [lia|]. split; [lia | right; lia].
Qed.

(** The loop leaves through its test when it starts with
    [Z.to_nat totalFrames] iterations to spend and a stride of at least
    one; the count of iterations is then the rounded-up quotient. *)
Lemma loop_count step total (k : nat) :
  1 <= step ->
  (forall j : nat, (j < k)%nat -> Z.of_nat j * step < total) ->
  (Z.to_nat total = k \/ total <= Z.of_nat k * step) ->
  k = Z.to_nat (ceil_div total step)
  /\ (forall j : nat, Z.of_nat j * step < total <-> (j < k)%nat).
Proof.
  intros Hstep Hlt Hexit.
  assert (total <= Z.of_nat k * step) as Hge by (destruct Hexit; nia).
  split.
  - unfold ceil_div. destruct k as [|k].
    + assert ((total + step - 1) / step <= 0); [|lia].
      apply Z.lt_succ_r. apply Z.div_lt_upper_bound; lia.
    + specialize (Hlt k ltac:(lia)).
      assert ((total + step - 1) / step = Z.of_nat (S k)) as ->; [|lia].
      symmetry. apply (Z.div_unique_pos _ _ _ (total + step - 1 - Z.of_nat (S k) * step)); nia.
  - intros j. split; [|by apply Hlt].
    intros Hj. destruct (decide (j < k)%nat); [done|]. nia.
Qed.

(** ** StaticHandler *)

Lemma resizeStaticImage_hit this env imageUrl w :
  let cachedImage := path_join (cacheDir this) (generateHash imageUrl ++ ".webp") in
  file_exists cachedImage w = true ->
  resizeStaticImage this env imageUrl w = (Returned (path_str cachedImage), w).
Proof.
  intros c Hhit. unfold resizeStaticImage, mbind, M_bind.
  rewrite cache_hit_run. fold c. by rewrite Hhit.
Qed.

(** On a cache miss the converter is its [try]/[catch] block. *)
Lemma resizeStaticImage_miss this env imageUrl w :
  let hash := generateHash imageUrl in
  let cachedImage := path_join (cacheDir this) (hash ++ ".webp") in
  let tempImage :=
    path_join (tempDir this) (hash ++ "_orig." ++ static_ext imageUrl) in
  file_exists cachedImage w = false ->
  resizeStaticImage this env imageUrl w
  = try_catch
      (downloadFile env imageUrl tempImage ;;
       exec_writing (ffmpeg_resize env) (resize_cmd tempImage cachedImage) cachedImage ;;
       catch_with (fs_unlink tempImage) tt ;;
       mret (path_str cachedImage))
      (fun error =>
         catch_with (fs_unlink tempImage) tt ;;
         catch_with (fs_unlink cachedImage) tt ;;
         throw error) w.
Proof.
  intros h c t Hmiss. unfold resizeStaticImage, mbind at 1, M_bind at 1.
  rewrite cache_hit_run. fold h c. by rewrite Hmiss.
Qed.

(** ** WebmHandler *)

Lemma convertWebmToGif_hit this env webmUrl fileId w :
  let cachedGif :=
    path_join (cacheDir this) (webm_hash webmUrl fileId ++ ".gif") in
  file_exists cachedGif w = true ->
  convertWebmToGif this env webmUrl fileId w
  = (Returned (path_str cachedGif), w).
Proof.
  intros c Hhit. unfold convertWebmToGif. rewrite run_bind, cache_hit_run.
  fold c. by rewrite Hhit.
Qed.

(** The [catch] block of the WebM converter, from any world: it removes
    the download and the cache file, and rethrows. *)
Lemma webm_catch_run this webmUrl fileId (error : Error) w r w' :
  let hash := webm_hash webmUrl fileId in
  let cachedGif := path_join (cacheDir this) (hash ++ ".gif") in
  let tempWebm := path_join (tempDir this) (hash ++ ".webm") in
  (catch_with (fs_unlink tempWebm) tt ;;
   catch_with (fs_unlink cachedGif) tt ;;
   (throw error : M string)) w = (r, w') ->
  r = Thrown error
  /\ file_exists tempWebm w' = false
  /\ file_exists cachedGif w' = false
  /\ (forall d, fs w' !! d = None <-> fs w !! d = None)
  /\ (forall d, d <> tempDir this -> d <> cacheDir this -> fs w' !! d = fs w !! d)
  /\ globals w' = globals w
  /\ trace w' = trace w.
Proof.
  intros h c t. rewrite run_bind.
  destruct (catch_with (fs_unlink t) tt w) as [[[]|e] w1] eqn:H1;
    [|by apply catch_with_returns in H1].
  apply unlink_quiet_run in H1 as (Ht1 & Hg1 & Hd1 & Hgone1 & _ & _ & Hdirs1 & _).
  cbv beta iota. rewrite run_bind.
  destruct (catch_with (fs_unlink c) tt w1) as [[[]|e] w2] eqn:H2;
    [|by apply catch_with_returns in H2].
  apply unlink_quiet_run in H2 as (Ht2 & Hg2 & Hd2 & Hgone2 & Habs2 & _ & Hdirs2 & _).
  cbv beta iota. rewrite run_throw. intros [= <- <-].
  split; [done|]. split; [by apply Habs2|]. split; [done|].
  split; [intros d; by rewrite Hdirs2, Hdirs1|].
  split; [|split; congruence].
  intros d Ht Hc. rewrite Hd2, Hd1; done.
Qed.

Lemma convertWebmToGif_miss_run root env webmUrl fileId w r w' :
  let this := new_Handler root in
  let hash := webm_hash webmUrl fileId in
  let cachedGif := path_join (cacheDir this) (hash ++ ".gif") in
  let tempWebm := path_join (tempDir this) (hash ++ ".webm") in
  let framesDir := path_str (path_join (tempDir this) ("webm_" ++ hash)) in
  file_exists cachedGif w = false ->
  convertWebmToGif this env webmUrl fileId w = (r, w') ->
  match r with
  | Returned p =>
      p = path_str cachedGif
      /\ file_exists cachedGif w' = true
      /\ file_exists tempWebm w' = false
      /\ fs w' !! framesDir = None
      /\ trace w'
         = (trace w ++ [EvDownload webmUrl;
                        EvExec (webm_extract_cmd tempWebm framesDir);
                        EvExec (gifski_cmd "50" cachedGif framesDir)])%list
  | Thrown e =>
      file_exists tempWebm w' = false
      /\ file_exists cachedGif w' = false
  end.
Proof.
  intros this h c t d Hmiss. unfold convertWebmToGif.
  rewrite run_bind, cache_hit_run. fold this h c t. rewrite Hmiss.
  cbv beta iota. rewrite run_try_catch. fold d.
  rewrite run_bind.
  destruct (downloadFile env webmUrl t w) as [[[]|e] w1] eqn:Hdl;
    apply downloadFile_run in Hdl as (Ht1 & _ & _ & _); cbv beta iota.
  2:{ by intros (-> & ? & ? & _)%webm_catch_run. }
  rewrite run_bind.
  destruct (fs_mkdir _ d w1) as [[[]|e] w2] eqn:Hmk;
    apply fs_mkdir_run in Hmk as (Ht2 & _ & _ & _ & _); cbv beta iota.
  2:{ by intros (-> & ? & ? & _)%webm_catch_run. }
  rewrite run_bind.
  destruct (exec_extract env _ d w2) as [[[]|e] w3] eqn:Hex;
    apply exec_extract_run in Hex as (Ht3 & _ & _ & _ & _); cbv beta iota.
  2:{ by intros (-> & ? & ? & _)%webm_catch_run. }
  rewrite run_bind.
  destruct (exec_writing _ _ c w3) as [[[]|e] w4] eqn:Henc;
    apply exec_writing_run in Henc as (Ht4 & _ & _ & Henc); cbv beta iota.
  2:{ by intros (-> & ? & ? & _)%webm_catch_run. }
  destruct Henc as [_ Hc4].
  rewrite run_bind.
  destruct (fs_readdir d w4) as [[files|e] w5] eqn:Hread;
    apply fs_readdir_run in Hread as [-> Hread]; cbv beta iota.
  2:{ by intros (-> & ? & ? & _)%webm_catch_run. }
  destruct Hread as (names & Hnames & ->).
  rewrite run_bind.
  destruct (for_of _ _ w4) as [[[]|e] w5] eqn:Hdel;
    apply unlink_all_run in Hdel as (Hret & Ht5 & _ & Hd5 & Hl5); [|done].
  cbv beta iota. rewrite run_bind.
  destruct (catch_with (fs_rmdir d) tt w5) as [[[]|e] w6] eqn:Hrm;
    [|by apply catch_with_returns in Hrm].
  apply rmdir_quiet_run in Hrm as (Ht6 & _ & _ & Hf6 & _ & Hgone).
  cbv beta iota. rewrite run_bind.
  destruct (catch_with (fs_unlink t) tt w6) as [[[]|e] w7] eqn:Hun;
    [|by apply catch_with_returns in Hun].
  apply unlink_quiet_run in Hun as (Ht7 & _ & _ & Hgone7 & _ & Hoth7 & Hdirs7 & _).
  cbv beta iota. rewrite run_ret. intros [= <- <-].
  split; [done|]. split.
  { rewrite Hoth7, Hf6.
    - rewrite (only_dir_file d c w4 w5); [done | done |].
      apply cacheDir_not_below_tempDir.
    - intros [= Hdir _]. by apply (cacheDir_not_tempDir root). }
  split; [done|]. split.
  { apply Hdirs7, Hgone. rewrite Hl5, Hnames. simpl. f_equal.
    rewrite list_to_set_elements_L. set_solver. }
  rewrite Ht7, Ht6, Ht5, Ht4, Ht3, Ht2, Ht1. by rewrite <- !app_assoc.
Qed.

(** ** StaticHandler: one run from a cache miss *)

Lemma static_paths_differ this hash ext :
  path_join (cacheDir this) (hash ++ ".webp")
  <> path_join (tempDir this) (hash ++ "_orig." ++ ext).
Proof. intros [= _ H]. apply string_app_cancel in H. discriminate H. Qed.

Lemma resizeStaticImage_miss_run this env imageUrl w r w' :
  let hash := generateHash imageUrl in
  let cachedImage := path_join (cacheDir this) (hash ++ ".webp") in
  let tempImage :=
    path_join (tempDir this) (hash ++ "_orig." ++ static_ext imageUrl) in
  file_exists cachedImage w = false ->
  resizeStaticImage this env imageUrl w = (r, w') ->
  file_exists tempImage w' = false
  /\ match r with
     | Returned p =>
         p = path_str cachedImage
         /\ file_exists cachedImage w' = true
         /\ trace w'
            = (trace w ++ [EvDownload imageUrl;
                           EvExec (resize_cmd tempImage cachedImage)])%list
     | Thrown e =>
         file_exists cachedImage w' = false
         /\ (e = HttpError \/ e = EIO
             \/ e = ExecError (resize_cmd tempImage cachedImage))
     end.
Proof.
  intros h c t Hmiss. rewrite resizeStaticImage_miss by done. fold h c t.
  rewrite run_try_catch, run_bind.
  destruct (downloadFile env imageUrl t w) as [[[]|e] w1] eqn:Hdl;
    apply downloadFile_run in Hdl as (Ht1 & _ & _ & Hdl); cbv beta iota.
  2:{ rewrite run_bind.
      destruct (catch_with (fs_unlink t) tt w1) as [[[]|e1] w2] eqn:H1;
        [|by apply catch_with_returns in H1].
      apply unlink_quiet_run in H1 as (_ & _ & _ & Hgone1 & _).
      cbv beta iota. rewrite run_bind.
      destruct (catch_with (fs_unlink c) tt w2) as [[[]|e2] w3] eqn:H2;
        [|by apply catch_with_returns in H2].
      apply unlink_quiet_run in H2 as (_ & _ & _ & Hgone2 & Habs2 & _).
      cbv beta iota. rewrite run_throw. intros [= <- <-].
      split; [by apply Habs2|]. split; [done|]. naive_solver. }
  rewrite run_bind.
  destruct (exec_writing _ _ c w1) as [[[]|e] w2] eqn:Henc;
    apply exec_writing_run in Henc as (Ht2 & _ & _ & Henc); cbv beta iota.
  2:{ rewrite run_bind.
      destruct (catch_with (fs_unlink t) tt w2) as [[[]|e1] w3] eqn:H1;
        [|by apply catch_with_returns in H1].
      apply unlink_quiet_run in H1 as (_ & _ & _ & Hgone1 & _).
      cbv beta iota. rewrite run_bind.
      destruct (catch_with (fs_unlink c) tt w3) as [[[]|e2] w4] eqn:H2;
        [|by apply catch_with_returns in H2].
      apply unlink_quiet_run in H2 as (_ & _ & _ & Hgone2 & Habs2 & _).
      cbv beta iota. rewrite run_throw. intros [= <- <-].
      split; [by apply Habs2|]. split; [done|]. naive_solver. }
  destruct Henc as [_ Hc2].
  rewrite run_bind.
  destruct (catch_with (fs_unlink t) tt w2) as [[[]|e] w3] eqn:Hun;
    [|by apply catch_with_returns in Hun].
  apply unlink_quiet_run in Hun as (Ht3 & _ & _ & Hgone3 & _ & Hoth3 & _).
  cbv beta iota. rewrite run_ret. intros [= <- <-].
  split; [done|]. split; [done|]. split.
  - rewrite Hoth3; [done|]. apply static_paths_differ.
  - rewrite Ht3, Ht2, Ht1. by rewrite <- !app_assoc.
Qed.

(** ** TgsHandler *)

Lemma convertTgsToGif_hit this env tgsUrl fileId w :
  let cachedGif :=
    path_join (cacheDir this) (tgs_hash tgsUrl fileId ++ ".gif") in
  file_exists cachedGif w = true ->
  convertTgsToGif this env tgsUrl fileId w
  = (Returned (Some (path_str cachedGif)), w).
Proof.
  intros c Hhit. unfold convertTgsToGif. rewrite run_bind, cache_hit_run.
  fold c. by rewrite Hhit.
Qed.

(** The [catch] block of the TGS converter, from any world. *)
Lemma tgs_catch_run this tgsUrl fileId w r w' :
  let hash := tgs_hash tgsUrl fileId in
  let cachedGif := path_join (cacheDir this) (hash ++ ".gif") in
  let framesDir := path_str (path_join (tempDir this) ("tgs_" ++ hash)) in
  (files ← catch_with (fs_readdir framesDir) [];
   for_of files (fun file => catch_with (fs_unlink (path_join framesDir file)) tt) ;;
   catch_with (fs_rmdir framesDir) tt ;;
   catch_with (fs_unlink cachedGif) tt ;;
   mret None) w = (r, w') ->
  r = Returned (@None string)
  /\ fs w' !! framesDir = None
  /\ file_exists cachedGif w' = false
  /\ globals w' = globals w
  /\ trace w' = trace w.
Proof.
  intros h c d. rewrite run_bind.
  destruct (catch_with (fs_readdir d) [] w) as [[files|e] w0] eqn:Hread;
    [|by apply catch_with_returns in Hread].
  apply readdir_quiet_run in Hread as (-> & l & [= ->] & Hl).
  cbv beta iota. rewrite run_bind.
  destruct (for_of l _ w) as [[[]|e] w1] eqn:Hloop;
    apply unlink_all_run in Hloop as (Hret & Ht1 & Hg1 & _ & Hd1); [|done].
  cbv beta iota. rewrite run_bind.
  destruct (catch_with (fs_rmdir d) tt w1) as [[[]|e] w2] eqn:Hrm;
    [|by apply catch_with_returns in Hrm].
  apply rmdir_quiet_run in Hrm as (Ht2 & Hg2 & _ & _ & Hkeep & Hgone).
  cbv beta iota. rewrite run_bind.
  destruct (catch_with (fs_unlink c) tt w2) as [[[]|e] w3] eqn:Hun;
    [|by apply catch_with_returns in Hun].
  apply unlink_quiet_run in Hun as (Ht3 & Hg3 & _ & Hc & _ & _ & Hdirs & _).
  cbv beta iota. rewrite run_ret. intros [= <- <-].
  split; [done|]. split; [|split; [done | split; congruence]].
  apply Hdirs. destruct (fs w !! d) as [names|] eqn:Hd.
  - apply Hgone. rewrite Hd1. simpl. f_equal. subst l.
    rewrite list_to_set_elements_L. set_solver.
  - apply Hkeep. by rewrite Hd1.
Qed.

Lemma tgs_step_pos doc : 1 <= tgs_step doc.
Proof. unfold tgs_step. lia. Qed.

Lemma convertTgsToGif_miss_run root env tgsUrl fileId w r w' :
  let this := new_Handler root in
  let hash := tgs_hash tgsUrl fileId in
  let cachedGif := path_join (cacheDir this) (hash ++ ".gif") in
  let framesDir := path_str (path_join (tempDir this) ("tgs_" ++ hash)) in
  let cmd := gifski_cmd "50" cachedGif framesDir in
  file_exists cachedGif w = false ->
  convertTgsToGif this env tgsUrl fileId w = (r, w') ->
  (exists doc total,
      r = Returned (Some (path_str cachedGif))
      /\ tgs_document env tgsUrl = Some doc
      /\ loadAnimation env doc = Some total
      /\ gifski env cmd = Done
      /\ (let step := tgs_step doc in
          let n := Z.to_nat (ceil_div total step) in
          (forall j : nat, Z.of_nat j * step < total <-> (j < n)%nat)
          /\ (forall j : nat, (j < n)%nat -> render_ok env (Z.of_nat j * step) = true)
          /\ trace w' = (trace w ++ [EvDownload tgsUrl]
                         ++ rendered framesDir step 0 0 n ++ [EvExec cmd])%list)
      /\ globals w' = globals w ∖ list_to_set dom_globals
      /\ fs w' !! framesDir = None
      /\ file_exists cachedGif w' = true)
  \/ (r = Returned None
      /\ fs w' !! framesDir = None
      /\ file_exists cachedGif w' = false
      /\ globals w'
         = match tgs_document env tgsUrl with
           | Some _ => list_to_set dom_globals ∪ globals w
           | None => globals w
           end).
Proof.
  intros this h c d cmd Hmiss. unfold convertTgsToGif.
  rewrite run_bind, cache_hit_run. fold this h c d cmd. rewrite Hmiss.
  cbv beta iota. rewrite run_try_catch.
  (* download, gunzip, parse *)
  rewrite run_bind.
  destruct (axios_get env tgsUrl w) as [[body|e] w0] eqn:Hget;
    apply axios_get_run in Hget as [-> Hget]; cbv beta iota.
  2:{ intros (-> & Hd & Hc & Hg & _)%tgs_catch_run. right.
      unfold tgs_document. destruct Hget as [_ ->]. done. }
  rewrite run_bind.
  destruct (of_option (ungzip env body) GzipError _) as [[json|e] w1] eqn:Hzip;
    apply of_option_run in Hzip as [-> Hzip]; cbv beta iota.
  2:{ intros (-> & Hd & Hc & Hg & _)%tgs_catch_run. right.
      unfold tgs_document. rewrite Hget. simpl. destruct Hzip as [_ ->]. done. }
  rewrite run_bind.
  destruct (of_option (JSON_parse env json) JsonError _) as [[doc|e] w1] eqn:Hjs;
    apply of_option_run in Hjs as [-> Hjs]; cbv beta iota.
  2:{ intros (-> & Hd & Hc & Hg & _)%tgs_catch_run. right.
      unfold tgs_document. rewrite Hget. simpl. rewrite Hzip. simpl.
      destruct Hjs as [_ ->]. done. }
  assert (tgs_document env tgsUrl = Some doc) as Hdoc.
  { unfold tgs_document. rewrite Hget. simpl. rewrite Hzip. done. }
  rewrite Hdoc.
  (* the rendering context, the animation, the frames directory *)
  rewrite run_bind, install_globals_run. cbv beta iota.
  set (wi := set_globals _ _).
  rewrite run_bind.
  destruct (of_option (loadAnimation env doc) LottieError wi) as [[total|e] w1] eqn:Hanim;
    apply of_option_run in Hanim as [-> Hanim]; cbv beta iota.
  2:{ intros (-> & Hd & Hc & Hg & _)%tgs_catch_run. by right. }
  rewrite run_bind.
  destruct (fs_mkdir _ d wi) as [[[]|e] w1] eqn:Hmk;
    apply fs_mkdir_run in Hmk as (Ht1 & Hg1 & _ & _ & _); cbv beta iota.
  2:{ intros (-> & Hd & Hc & Hg & _)%tgs_catch_run. right.
      repeat split; try done. by rewrite Hg, Hg1. }
  rewrite run_bind.
  destruct (render_loop _ _ _ _ _ _ _ w1) as [[frameNum|e] w2] eqn:Hloop;
    apply render_loop_run in Hloop as (Hg2 & _ & _ & k & Ht2 & Hall & Hexit);
    cbv beta iota.
  2:{ intros (-> & Hd & Hc & Hg & _)%tgs_catch_run. right.
      repeat split; try done. by rewrite Hg, Hg2, Hg1. }
  (* the encoder *)
  rewrite run_bind.
  destruct (exec_writing _ _ _ w2) as [[[]|e] w3] eqn:Henc;
    apply exec_writing_run in Henc as (Ht3 & Hg3 & _ & Henc); cbv beta iota.
  2:{ intros (-> & Hd & Hc & Hg & _)%tgs_catch_run. right.
      repeat split; try done. by rewrite Hg, Hg3, Hg2, Hg1. }
  destruct Henc as [Hdone Hc3].
  (* cleanup *)
  rewrite run_bind.
  destruct (fs_readdir d w3) as [[files|e] w4] eqn:Hread;
    apply fs_readdir_run in Hread as [-> Hread]; cbv beta iota.
  2:{ intros (-> & Hd & Hc & Hg & _)%tgs_catch_run. right.
      repeat split; try done. by rewrite Hg, Hg3, Hg2, Hg1. }
  destruct Hread as (names & Hnames & ->).
  rewrite run_bind.
  destruct (for_of _ _ w3) as [[[]|e] w4] eqn:Hdel;
    apply unlink_all_run in Hdel as (Hret & Ht4 & Hg4 & Hd4 & Hl4); [|done].
  cbv beta iota. rewrite run_bind.
  destruct (catch_with (fs_rmdir d) tt w4) as [[[]|e] w5] eqn:Hrm;
    [|by apply catch_with_returns in Hrm].
  apply rmdir_quiet_run in Hrm as (Ht5 & Hg5 & _ & Hf5 & _ & Hgone).
  cbv beta iota. rewrite run_bind, delete_globals_run. cbv beta iota.
  rewrite run_ret. intros [= <- <-]. left. exists doc, total.
  destruct (loop_count (tgs_step doc) total k) as [Hk Hiff].
  { apply tgs_step_pos. }
  { intros j Hj. destruct (Hall j Hj) as [Hlt _]. lia. }
  { destruct Hexit as [_ [Hx|Hx]]; [by left | right; lia]. }
  cbv zeta. rewrite <- Hk.
  split; [done|]. split; [done|]. split; [done|]. split; [done|]. split.
  { split; [done|]. split.
    - intros j Hj. destruct (Hall j Hj) as [_ Hok].
      by rewrite Z.add_0_l in Hok.
    - simpl. rewrite Ht5, Ht4, Ht3, Ht2, Ht1. subst wi. simpl.
      by rewrite <- !app_assoc. }
  split.
  { simpl. rewrite Hg5, Hg4, Hg3, Hg2, Hg1. subst wi. simpl.
    set_solver. }
  split.
  { simpl. apply Hgone. rewrite Hl4, Hnames. simpl. f_equal.
    rewrite list_to_set_elements_L. set_solver. }
  change (file_exists c w5 = true). rewrite Hf5.
  rewrite (only_dir_file d c w3 w4); [done | done |].
  apply cacheDir_not_below_tempDir.
Qed.

(** ** Cache hits *)

Lemma convert_hit this env kind sourceUrl stableId w :
  file_exists (cache_path this kind sourceUrl stableId) w = true ->
  convert this env kind sourceUrl stableId w
  = (Returned (Some (path_str (cache_path this kind sourceUrl stableId))), w).
Proof.
  intros Hhit. destruct kind; simpl in *.
  - rewrite run_bind, resizeStaticImage_hit by done. reflexivity.
  - rewrite run_bind, convertWebmToGif_hit by done. reflexivity.
  - by apply convertTgsToGif_hit.
Qed.

(** A conversion that returns a path returns the cache path, and the
    file is there. *)
Lemma convert_returns_cached root env kind sourceUrl stableId w p w' :
  let this := new_Handler root in
  convert this env kind sourceUrl stableId w = (Returned (Some p), w') ->
  p = path_str (cache_path this kind sourceUrl stableId)
  /\ file_exists (cache_path this kind sourceUrl stableId) w' = true.
Proof.
  intros this.
  destruct (file_exists (cache_path this kind sourceUrl stableId) w) eqn:Hc.
  { rewrite convert_hit by done. by intros [= <- <-]. }
  destruct kind; simpl in *.
  - rewrite run_bind.
    destruct (resizeStaticImage this env sourceUrl w) as [[q|e] w1] eqn:Hrun;
      [|done].
    apply resizeStaticImage_miss_run in Hrun as (_ & -> & Hex & _); [|done].
    rewrite run_ret. by intros [= <- <-].
  - rewrite run_bind.
    destruct (convertWebmToGif this env sourceUrl stableId w) as [[q|e] w1] eqn:Hrun;
      [|done].
    apply convertWebmToGif_miss_run in Hrun as (-> & Hex & _); [|done].
    rewrite run_ret. by intros [= <- <-].
  - intros Hrun.
    apply convertTgsToGif_miss_run in Hrun as [(doc & total & Hr & H)|(Hr & _)];
      [|done|done].
    injection Hr as ->. split; [done|]. apply H.
Qed.

(** C1. Cache idempotence: when a conversion request has returned a path,
    the cache probe for that request succeeds, and repeating the request
    returns the same path from the probe alone, whatever the outside
    world now does: the world is left as it was, so the second call logs
    no download and no external command. *)
Theorem cache_idempotence root env env' kind sourceUrl stableId w p w1 :
  let this := new_Handler root in
  convert this env kind sourceUrl stableId w = (Returned (Some p), w1) ->
  p = path_str (cache_path this kind sourceUrl stableId)
  /\ cache_hit (cache_path this kind sourceUrl stableId) w1 = (Returned true, w1)
  /\ convert this env' kind sourceUrl stableId w1 = (Returned (Some p), w1)
  /\ download_count (snd (convert this env' kind sourceUrl stableId w1))
     = download_count w1
  /\ exec_count (snd (convert this env' kind sourceUrl stableId w1))
     = exec_count w1.
Proof.
  intros this Hrun.
  apply convert_returns_cached in Hrun as [-> Hex].
  fold this in Hex |- *.
  split; [done|]. split; [by rewrite cache_hit_run, Hex|].
  rewrite convert_hit by done. done.
Qed.

Lemma cache_idempotence_witness :
  let w1 := snd (convert Demo.handler Demo.env_ok Webm Demo.webm_url
                   (Some "abc123") Demo.world0) in
  let p := "/app/gif-cache/e99a18c428cb38d5f260853678922e03.gif" in
  convert Demo.handler Demo.env_ok Webm Demo.webm_url (Some "abc123") Demo.world0
  = (Returned (Some p), w1)
  /\ convert Demo.handler Demo.env_down Webm Demo.webm_url (Some "abc123") w1
     = (Returned (Some p), w1)
  /\ download_count w1 = 1%nat
  /\ exec_count w1 = 2%nat.
Proof.
  intros w1 p.
  assert (convert Demo.handler Demo.env_ok Webm Demo.webm_url
            (Some "abc123") Demo.world0 = (Returned (Some p), w1)) as Hfirst
    by (vm_compute; reflexivity).
  split; [exact Hfirst|]. split.
  - exact (proj1 (proj2 (proj2
      (cache_idempotence "/app" Demo.env_ok Demo.env_down Webm Demo.webm_url
         (Some "abc123") Demo.world0 p w1 Hfirst)))).
  - split; vm_compute; reflexivity.
Defined.

(** With a stable identifier the two animated converters key the cache on
    it alone, so the hit survives a rotated source URL. *)
Lemma animated_hit_after_url_rotation root env env' kind url url' fileId w p w1 :
  let this := new_Handler root in
  kind <> Static ->
  fileId <> "" ->
  convert this env kind url (Some fileId) w = (Returned (Some p), w1) ->
  convert this env' kind url' (Some fileId) w1 = (Returned (Some p), w1).
Proof.
  intros this Hkind Hid Hrun.
  apply convert_returns_cached in Hrun as [-> Hex]. fold this in Hex |- *.
  assert (cache_path this kind url' (Some fileId)
          = cache_path this kind url (Some fileId)) as Heq.
  { destruct kind; [done| |]; unfold cache_path, webm_hash, tgs_hash;
      destruct fileId; done. }
  rewrite <- Heq in Hex |- *. by apply convert_hit.
Qed.

(** ** TGS conversion: failure, globals, frame stride *)

(** C3. Whatever fails during a TGS conversion, [convertTgsToGif] returns
    (it never throws), and when it returns the null result the frames
    directory of the workspace and the cache file for the key are gone.
    Every failure the specification names (download error, payload that
    is not gzip or not JSON, animation or rasterization error, encoder
    failure) makes a conversion that missed the cache return null. *)
Theorem tgs_failure_returns_null root env tgsUrl fileId w :
  let this := new_Handler root in
  let hash := tgs_hash tgsUrl fileId in
  let cachedGif := path_join (cacheDir this) (hash ++ ".gif") in
  let framesDir := path_str (path_join (tempDir this) ("tgs_" ++ hash)) in
  let cmd := gifski_cmd "50" cachedGif framesDir in
  (exists r w',
      convertTgsToGif this env tgsUrl fileId w = (Returned r, w')
      /\ (r = None ->
          fs w' !! framesDir = None /\ file_exists cachedGif w' = false))
  /\ (file_exists cachedGif w = false ->
      tgs_failure env tgsUrl cmd ->
      fst (convertTgsToGif this env tgsUrl fileId w) = Returned None).
Proof.
  intros this h c d cmd.
  destruct (file_exists c w) eqn:Hc.
  { rewrite convertTgsToGif_hit by done. split; [|done].
    eexists _, _. split; [reflexivity | done]. }
  destruct (convertTgsToGif this env tgsUrl fileId w) as [r w'] eqn:Hrun.
  apply convertTgsToGif_miss_run in Hrun
    as [(doc & total & -> & Hdoc & Hanim & Hdone & (Hiff & Hok & _) & _)
       |(-> & Hd & Hgone & _)]; [| |done].
  - split; [eexists _, _; split; [reflexivity | done]|].
    intros _ Hfail. exfalso. unfold tgs_document in Hdoc.
    destruct Hfail as [Hget|body Hget Hzip|body json Hget Hzip Hjs
                      |doc' Hdoc' Hanim'|doc' total' j Hdoc' Hanim' Hj Hbad
                      |leftover Henc].
    + by rewrite Hget in Hdoc.
    + rewrite Hget in Hdoc. simpl in Hdoc. by rewrite Hzip in Hdoc.
    + rewrite Hget in Hdoc. simpl in Hdoc. rewrite Hzip in Hdoc. simpl in Hdoc.
      congruence.
    + unfold tgs_document in Hdoc'. congruence.
    + unfold tgs_document in Hdoc'.
      assert (doc' = doc) as -> by congruence.
      assert (total' = total) as -> by congruence.
      apply Hiff in Hj. apply Hok in Hj. congruence.
    + fold this h c d cmd in Hdone. congruence.
  - split; [|done]. eexists _, _. split; [reflexivity | done].
Qed.

Lemma tgs_failure_returns_null_witness :
  file_exists
    (path_join "/app/gif-cache" "e99a18c428cb38d5f260853678922e03.gif")
    (snd (convertTgsToGif Demo.handler Demo.env_not_gzip Demo.tgs_url
            (Some "abc123") Demo.world0)) = false
  /\ fst (convertTgsToGif Demo.handler Demo.env_not_gzip Demo.tgs_url
            (Some "abc123") Demo.world0) = Returned None.
Proof.
  split; [vm_compute; reflexivity|].
  refine (proj2 (tgs_failure_returns_null "/app" Demo.env_not_gzip Demo.tgs_url
                   (Some "abc123") Demo.world0) _ _).
  - vm_compute; reflexivity.
  - apply (not_gzip _ _ _ "payload"); reflexivity.
Defined.

(** C10. The TGS converter binds [window], [document], [navigator],
    [requestAnimationFrame] and [cancelAnimationFrame] on the process-wide
    [global] object once the document is downloaded and parsed, and
    deletes them on the success path only: a conversion that fails after
    that point returns null with the five names still bound; one that
    fails before leaves [global] as it was. *)
Theorem tgs_globals_left_on_failure root env tgsUrl fileId w :
  let this := new_Handler root in
  let hash := tgs_hash tgsUrl fileId in
  let cachedGif := path_join (cacheDir this) (hash ++ ".gif") in
  file_exists cachedGif w = false ->
  dom_globals = ["window"; "document"; "navigator";
                 "requestAnimationFrame"; "cancelAnimationFrame"]
  /\ match convertTgsToGif this env tgsUrl fileId w with
     | (Returned (Some _), w') =>
         globals w' = globals w ∖ list_to_set dom_globals
     | (Returned None, w') =>
         match tgs_document env tgsUrl with
         | Some _ =>
             globals w' = list_to_set dom_globals ∪ globals w
             /\ (forall g, g ∈ dom_globals -> g ∈ globals w')
         | None => globals w' = globals w
         end
     | (Thrown _, _) => False
     end.
Proof.
  intros this h c Hmiss. split; [reflexivity|].
  destruct (convertTgsToGif this env tgsUrl fileId w) as [r w'] eqn:Hrun.
  apply convertTgsToGif_miss_run in Hrun
    as [(doc & total & -> & _ & _ & _ & _ & Hg & _)|(-> & _ & _ & Hg)];
    [done| |done].
  destruct (tgs_document env tgsUrl); [|done].
  split; [done|]. intros g Hin. rewrite Hg. set_solver.
Qed.

Lemma tgs_globals_left_on_failure_witness :
  fst (convertTgsToGif Demo.handler Demo.env_gifski_fails Demo.tgs_url
         (Some "abc123") Demo.world0) = Returned None
  /\ globals Demo.world0 = ∅
  /\ forall g, g ∈ dom_globals ->
       g ∈ globals (snd (convertTgsToGif Demo.handler Demo.env_gifski_fails
                           Demo.tgs_url (Some "abc123") Demo.world0)).
Proof.
  pose proof (tgs_globals_left_on_failure "/app" Demo.env_gifski_fails
                Demo.tgs_url (Some "abc123") Demo.world0
                ltac:(vm_compute; reflexivity)) as [_ H].
  change (new_Handler "/app") with Demo.handler in H.
  assert (fst (convertTgsToGif Demo.handler Demo.env_gifski_fails Demo.tgs_url
                 (Some "abc123") Demo.world0) = Returned None) as Hr
    by (vm_compute; reflexivity).
  split; [exact Hr|]. split; [vm_compute; reflexivity|].
  destruct (convertTgsToGif Demo.handler Demo.env_gifski_fails Demo.tgs_url
              (Some "abc123") Demo.world0) as [r w'].
  simpl in Hr. subst r.
  change (tgs_document Demo.env_gifski_fails Demo.tgs_url)
    with (Some (mkAnimData (Some (150 # 1)))) in H.
  exact (proj2 H).
Defined.

Lemma rendered_from_zero d step n :
  rendered d step 0 0 n
  = (fun j => EvRender (Z.of_nat j * step)
                (path_str (path_join d (frame_name j)))) <$> seq 0 n.
Proof. unfold rendered. apply list_fmap_ext. intros _ j _. by rewrite Z.add_0_l. Qed.

Lemma tgs_step_declared (q : Q) :
  tgs_step (mkAnimData (Some q))
  = Z.max 1 (Math_round (binary64 (Qdiv q (50 # 1)))).
Proof.
  unfold tgs_step, fr_or, fr, targetFps.
  destruct (Qeq_bool q 0) eqn:Hq; [|reflexivity].
  apply Qeq_bool_iff in Hq. destruct q as [n d].
  unfold Qeq in Hq. simpl in Hq. rewrite Z.mul_1_r in Hq. subst n.
  reflexivity.
Qed.

(** The files of a world after one more file is written. *)
Lemma put_file_files p w w' q :
  put_file p w = Some w' ->
  file_exists q w' = bool_decide (q = p) || file_exists q w.
Proof.
  unfold put_file. destruct (fs w !! dir p) as [names|] eqn:Hd; [|done].
  intros [= <-]. unfold file_exists. simpl.
  destruct (decide (dir q = dir p)) as [Heq|Hne].
  - rewrite Heq, lookup_insert_eq, Hd.
    destruct (decide (base q = base p)) as [Hb|Hb].
    + assert (q = p) as -> by (destruct q, p; simpl in *; congruence).
      rewrite (bool_decide_eq_true_2 (p = p)) by done.
      simpl. apply bool_decide_eq_true. set_solver.
    + rewrite (bool_decide_eq_false_2 (q = p)) by congruence.
      simpl. apply bool_decide_ext. set_solver.
  - rewrite lookup_insert_ne by done.
    rewrite (bool_decide_eq_false_2 (q = p)) by congruence. done.
Qed.

(** When the loop returns, every number it has handed out names a file
    that is there, and the loop has made no other file and removed
    none. *)
Lemma render_loop_files env d total step fuel i n w n' w' :
  render_loop env d total step fuel i n w = (Returned n', w') ->
  forall q,
    file_exists q w' = true
    <-> file_exists q w = true
        \/ exists j : nat, (n <= j < n')%nat /\ q = path_join d (frame_name j).
Proof.
  revert i n w. induction fuel as [|fuel IH]; intros i n w; simpl.
  - rewrite run_ret. intros [= <- <-] q. split; [by left|].
    intros [H|(j & Hj & _)]; [done | lia].
  - destruct (i <? total).
    2:{ rewrite run_ret. intros [= <- <-] q. split; [by left|].
        intros [H|(j & Hj & _)]; [done | lia]. }
    rewrite run_bind. unfold render_frame at 1.
    destruct (render_ok env i); [|by rewrite run_throw].
    rewrite run_ret. cbv beta iota. rewrite run_bind.
    destruct (fs_writeFile _ _ w) as [[[]|e] w1] eqn:Hw; cbv beta iota; [|done].
    assert (forall q,
              file_exists q w1
              = bool_decide (q = path_join d (frame_name n)) || file_exists q w)
      as Hfiles.
    { intros q. revert Hw. unfold fs_writeFile.
      destruct (disk_ok env _); [|done].
      destruct (put_file _ w) as [w2|] eqn:Hput; [|done].
      intros [= <-]. by apply put_file_files. }
    rewrite run_bind, log_event_run. cbv beta iota.
    intros Hloop q.
    assert (n < n')%nat as Hlt.
    { apply render_loop_run in Hloop as (_ & _ & _ & k & _ & _ & -> & _). lia. }
    rewrite (IH _ _ _ Hloop q).
    change (file_exists q (log (EvRender i (path_str (path_join d (frame_name n))))
                             w1))
      with (file_exists q w1).
    rewrite Hfiles. split.
    + intros [[Hq%bool_decide_eq_true|Hq]%orb_true_iff | (j & Hj & Hq)].
      * right. exists n. split; [lia | done].
      * by left.
      * right. exists j. split; [lia | done].
    + intros [Hq | (j & Hj & Hq)].
      * left. apply orb_true_iff. by right.
      * destruct (decide (j = n)) as [->|Hne].
        -- left. apply orb_true_iff. left. by apply bool_decide_eq_true.
        -- right. exists j. split; [lia | done].
Qed.

(** The world in which the rasterization loop of a conversion starts
    is the one the download, the binding of the globals and the making of
    the frames directory leave; the encoder is the next thing to run
    after the loop. *)
Lemma convertTgsToGif_miss_loop root env tgsUrl fileId w p w' :
  let this := new_Handler root in
  let hash := tgs_hash tgsUrl fileId in
  let cachedGif := path_join (cacheDir this) (hash ++ ".gif") in
  let framesDir := path_str (path_join (tempDir this) ("tgs_" ++ hash)) in
  let entered :=
    snd ((axios_get env tgsUrl ;; install_globals ;;
          fs_mkdir (disk_ok env framesDir) framesDir) w) in
  file_exists cachedGif w = false ->
  convertTgsToGif this env tgsUrl fileId w = (Returned (Some p), w') ->
  exists doc total frameNum w2,
    tgs_document env tgsUrl = Some doc
    /\ loadAnimation env doc = Some total
    /\ render_loop env framesDir total (tgs_step doc) (Z.to_nat total) 0 0 entered
       = (Returned frameNum, w2)
    /\ (forall q, file_exists q entered = file_exists q w)
    /\ trace w' = (trace w2 ++ [EvExec (gifski_cmd "50" cachedGif framesDir)])%list.
Proof.
  intros this h c d entered Hmiss. subst entered. unfold convertTgsToGif.
  rewrite run_bind, cache_hit_run. fold this h c d. rewrite Hmiss.
  cbv beta iota. rewrite run_try_catch.
  rewrite (run_bind (axios_get env tgsUrl) (fun _ => install_globals ;; _)).
  rewrite run_bind.
  destruct (axios_get env tgsUrl w) as [[body|e] w0] eqn:Hget;
    apply axios_get_run in Hget as [-> Hget]; cbv beta iota.
  2:{ by intros (? & _)%tgs_catch_run. }
  rewrite run_bind.
  destruct (of_option (ungzip env body) GzipError _) as [[json|e] w1] eqn:Hzip;
    apply of_option_run in Hzip as [-> Hzip]; cbv beta iota.
  2:{ by intros (? & _)%tgs_catch_run. }
  rewrite run_bind.
  destruct (of_option (JSON_parse env json) JsonError _) as [[doc|e] w1] eqn:Hjs;
    apply of_option_run in Hjs as [-> Hjs]; cbv beta iota.
  2:{ by intros (? & _)%tgs_catch_run. }
  assert (tgs_document env tgsUrl = Some doc) as Hdoc.
  { unfold tgs_document. rewrite Hget. simpl. rewrite Hzip. done. }
  rewrite !(run_bind install_globals), install_globals_run. cbv beta iota.
  set (wi := set_globals _ _).
  rewrite run_bind.
  destruct (of_option (loadAnimation env doc) LottieError wi) as [[total|e] w1] eqn:Hanim;
    apply of_option_run in Hanim as [-> Hanim]; cbv beta iota.
  2:{ by intros (? & _)%tgs_catch_run. }
  rewrite run_bind.
  destruct (fs_mkdir _ d wi) as [[[]|e] w1] eqn:Hmk; cbv beta iota.
  2:{ by intros (? & _)%tgs_catch_run. }
  pose proof Hmk as (_ & _ & _ & Hf1 & _)%fs_mkdir_run.
  rewrite run_bind. cbn [snd].
  destruct (render_loop _ _ _ _ _ _ _ w1) as [[frameNum|e] w2] eqn:Hloop;
    cbv beta iota.
  2:{ by intros (? & _)%tgs_catch_run. }
  rewrite run_bind.
  destruct (exec_writing _ _ _ w2) as [[[]|e] w3] eqn:Henc;
    apply exec_writing_run in Henc as (Ht3 & _ & _ & Henc); cbv beta iota.
  2:{ by intros (? & _)%tgs_catch_run. }
  rewrite run_bind.
  destruct (fs_readdir d w3) as [[files|e] w4] eqn:Hread;
    apply fs_readdir_run in Hread as [-> Hread]; cbv beta iota.
  2:{ by intros (? & _)%tgs_catch_run. }
  destruct Hread as (names & Hnames & ->).
  rewrite run_bind.
  destruct (for_of _ _ w3) as [[[]|e] w4] eqn:Hdel;
    apply unlink_all_run in Hdel as (Hret & Ht4 & _); [|done].
  cbv beta iota. rewrite run_bind.
  destruct (catch_with (fs_rmdir d) tt w4) as [[[]|e] w5] eqn:Hrm;
    [|by apply catch_with_returns in Hrm].
  apply rmdir_quiet_run in Hrm as (Ht5 & _).
  cbv beta iota. rewrite run_bind, delete_globals_run. cbv beta iota.
  rewrite run_ret. intros [= _ <-].
  exists doc, total, frameNum, w2.
  split; [done|]. split; [done|]. split; [done|].
  split; [exact Hf1|].
  simpl. by rewrite Ht5, Ht4, Ht3.
Qed.

(** The loop, entered at index 0 and file number 0 with [totalFrames]
    iterations to spend. *)
Lemma render_loop_frames env framesDir totalFrames stride w frameNum w' :
  1 <= stride ->
  render_loop env framesDir totalFrames stride (Z.to_nat totalFrames) 0 0 w
  = (Returned frameNum, w') ->
  let n := Z.to_nat (ceil_div totalFrames stride) in
  frameNum = n
  /\ (forall j : nat, Z.of_nat j * stride < totalFrames <-> (j < n)%nat)
  /\ (forall q,
        file_exists q w' = true
        <-> file_exists q w = true
            \/ exists j : nat,
                 (j < n)%nat /\ q = path_join framesDir (frame_name j))
  /\ trace w'
     = (trace w
        ++ ((fun j => EvRender (Z.of_nat j * stride)
                        (path_str (path_join framesDir (frame_name j))))
              <$> seq 0 n))%list.
Proof.
  intros Hstride Hloop n.
  pose proof (render_loop_files _ _ _ _ _ _ _ _ _ _ Hloop) as Hfiles.
  apply render_loop_run in Hloop as (_ & _ & _ & k & Ht & Hall & Hk & Hexit).
  destruct (loop_count stride totalFrames k) as [Hn Hiff].
  { exact Hstride. }
  { intros j Hj. destruct (Hall j Hj) as [Hlt _]. lia. }
  { destruct Hexit as [Hx|Hx]; [by left | right; lia]. }
  simpl in Hk. subst frameNum. fold n in Hn. subst k.
  split; [done|]. split; [done|]. split.
  - intros q. rewrite Hfiles. split; (intros [H|(j & Hj & Hq)]; [by left|]);
      right; exists j; (split; [lia | done]).
  - by rewrite Ht, rendered_from_zero.
Qed.
(** The loop returns when its directory is there and every frame it
    comes to renders and is taken by the disk. *)
Lemma render_loop_returns env d total step fuel i n w :
  dir_exists d w = true ->
  (forall j : nat,
      i + Z.of_nat j * step < total ->
      render_ok env (i + Z.of_nat j * step) = true
      /\ disk_ok env (path_str (path_join d (frame_name (n + j)))) = true) ->
  exists n' w', render_loop env d total step fuel i n w = (Returned n', w').
Proof.
  revert i n w. induction fuel as [|fuel IH]; intros i n w Hd Hok; simpl.
  { by exists n, w. }
  destruct (Z.ltb_spec i total) as [Hlt|Hge]; [|by exists n, w].
  destruct (Hok 0%nat) as [Hr Hw]; [lia|].
  rewrite Z.mul_0_l, Z.add_0_r in Hr. rewrite Nat.add_0_r in Hw.
  rewrite run_bind. unfold render_frame at 1. rewrite Hr, run_ret.
  cbv beta iota. rewrite run_bind. unfold fs_writeFile at 1. rewrite Hw.
  unfold dir_exists in Hd. apply bool_decide_eq_true in Hd as [names Hnames].
  unfold put_file. cbn [dir path_join]. rewrite Hnames. cbv beta iota.
  rewrite run_bind, log_event_run. cbv beta iota.
  apply IH.
  - unfold dir_exists. apply bool_decide_eq_true. simpl.
    rewrite lookup_insert_eq. done.
  - intros j Hj. destruct (Hok (S j)) as [H1 H2]; [lia|].
    rewrite Nat.add_succ_r in H2.
    replace (i + step + Z.of_nat j * step) with (i + Z.of_nat (S j) * step)
      by lia.
    done.
Qed.

(** Whole frame rates up to 1000: the stride computed on doubles is the
    one integer arithmetic gives for the nearest integer to a fiftieth of
    the rate, halves up, or 1 when that is less. *)
Lemma tgs_step_whole_rates :
  forallb (fun k : nat =>
             tgs_step (mkAnimData (Some (inject_Z (Z.of_nat k))))
             =? Z.max 1 ((2 * Z.of_nat k + 50) / 100))
    (seq 0 (Z.to_nat 1001))
  = true.
Proof. vm_compute. reflexivity. Qed.

(** C5. The stride of the TGS rasterization loop is
    max(1, round(nativeFrameRate / 50)), the quotient being the double
    JavaScript computes and round taking halves up: rates of 60 and of 24
    both give stride 1 (as does a document that declares none, taken at
    60), 74 gives 1 and 75 gives 2, 120 gives 2 and 125 gives 3, and for
    every whole rate up to 1000 the stride is the integer nearest to a
    fiftieth of the rate, or 1; a rate of 1000000000000000128 gives
    20000000000000004, the rounded quotient of doubles.  The stride is
    never below 1.  Whenever the loop returns, it has visited exactly the
    frame indices 0, stride, 2*stride, ... below [totalFrames], in that
    order, and has written one file per index, numbered in that order
    (distinct numbers name distinct files): ceil(totalFrames / stride)
    files, every one of them there when the loop ends, and no other file
    made or removed; and it does return when the frames directory is
    there and every frame renders and is taken by the disk.  In a
    conversion that succeeds from a cache miss the
    loop starts after the download, with the frames directory made, it
    returns, and the encoder is the next thing to run, on those files. *)
Theorem tgs_frame_stride :
  (forall q : Q,
      tgs_step (mkAnimData (Some q))
      = Z.max 1 (Math_round (binary64 (Qdiv q (50 # 1)))))
  /\ tgs_step (mkAnimData (Some (60 # 1))) = 1
  /\ tgs_step (mkAnimData (Some (24 # 1))) = 1
  /\ tgs_step (mkAnimData None) = 1
  /\ (tgs_step (mkAnimData (Some (74 # 1))) = 1
      /\ tgs_step (mkAnimData (Some (75 # 1))) = 2
      /\ tgs_step (mkAnimData (Some (120 # 1))) = 2
      /\ tgs_step (mkAnimData (Some (125 # 1))) = 3
      /\ tgs_step (mkAnimData (Some (1000000000000000128 # 1)))
         = 20000000000000004)
  /\ (forall k : Z,
        0 <= k <= 1000 ->
        tgs_step (mkAnimData (Some (inject_Z k))) = Z.max 1 ((2 * k + 50) / 100))
  /\ (forall doc, 1 <= tgs_step doc)
  /\ (forall i j : nat, frame_name i = frame_name j -> i = j)
  /\ (forall env framesDir totalFrames stride w frameNum w',
        1 <= stride ->
        render_loop env framesDir totalFrames stride (Z.to_nat totalFrames) 0 0 w
        = (Returned frameNum, w') ->
        let n := Z.to_nat (ceil_div totalFrames stride) in
        frameNum = n
        /\ (forall j : nat, Z.of_nat j * stride < totalFrames <-> (j < n)%nat)
        /\ (forall q,
              file_exists q w' = true
              <-> file_exists q w = true
                  \/ exists j : nat,
                       (j < n)%nat /\ q = path_join framesDir (frame_name j))
        /\ trace w'
           = (trace w
              ++ ((fun j => EvRender (Z.of_nat j * stride)
                              (path_str (path_join framesDir (frame_name j))))
                    <$> seq 0 n))%list)
  /\ (forall env framesDir totalFrames stride w,
        1 <= stride ->
        dir_exists framesDir w = true ->
        (forall j : nat,
            Z.of_nat j * stride < totalFrames ->
            render_ok env (Z.of_nat j * stride) = true
            /\ disk_ok env (path_str (path_join framesDir (frame_name j)))
               = true) ->
        exists w',
          render_loop env framesDir totalFrames stride (Z.to_nat totalFrames)
            0 0 w
          = (Returned (Z.to_nat (ceil_div totalFrames stride)), w'))
  /\ (forall root env tgsUrl fileId w p w',
        let this := new_Handler root in
        let hash := tgs_hash tgsUrl fileId in
        let cachedGif := path_join (cacheDir this) (hash ++ ".gif") in
        let framesDir := path_str (path_join (tempDir this) ("tgs_" ++ hash)) in
        let entered :=
          snd ((axios_get env tgsUrl ;; install_globals ;;
                fs_mkdir (disk_ok env framesDir) framesDir) w) in
        file_exists cachedGif w = false ->
        convertTgsToGif this env tgsUrl fileId w = (Returned (Some p), w') ->
        exists doc totalFrames,
          tgs_document env tgsUrl = Some doc
          /\ loadAnimation env doc = Some totalFrames
          /\ let stride := tgs_step doc in
             let n := Z.to_nat (ceil_div totalFrames stride) in
             let loop :=
               render_loop env framesDir totalFrames stride
                 (Z.to_nat totalFrames) 0 0 entered in
             1 <= stride
             /\ (forall j : nat, Z.of_nat j * stride < totalFrames <-> (j < n)%nat)
             /\ fst loop = Returned n
             /\ (forall q,
                   file_exists q (snd loop) = true
                   <-> file_exists q w = true
                       \/ exists j : nat,
                            (j < n)%nat
                            /\ q = path_join framesDir (frame_name j))
             /\ trace w'
                = (trace (snd loop)
                   ++ [EvExec (gifski_cmd "50" cachedGif framesDir)])%list
             /\ trace w'
                = (trace w ++ [EvDownload tgsUrl]
                   ++ ((fun j => EvRender (Z.of_nat j * stride)
                                   (path_str (path_join framesDir (frame_name j))))
                         <$> seq 0 n)
                   ++ [EvExec (gifski_cmd "50" cachedGif framesDir)])%list).
Proof.
  split; [exact tgs_step_declared|]. split; [reflexivity|].
  split; [reflexivity|]. split; [reflexivity|].
  split; [by vm_compute|].
  split.
  { intros k Hk. pose proof tgs_step_whole_rates as H.
    rewrite forallb_forall in H. specialize (H (Z.to_nat k)).
    rewrite Z2Nat.id in H by lia. apply Z.eqb_eq, H, in_seq. lia. }
  split; [exact tgs_step_pos|].
  split; [exact frame_name_inj|].
  split; [exact render_loop_frames|].
  split.
  { intros env d total stride w Hstride Hd Hok.
    destruct (render_loop_returns env d total stride (Z.to_nat total) 0 0 w Hd)
      as (n' & w' & Hrun).
    { intros j Hj. rewrite Z.add_0_l in *. by apply Hok. }
    exists w'. rewrite Hrun.
    by destruct (render_loop_frames _ _ _ _ _ _ _ Hstride Hrun) as [-> _]. }
  intros root env tgsUrl fileId w p w' this h c d entered Hmiss Hrun.
  pose proof Hrun as Hloop.
  apply convertTgsToGif_miss_loop in Hloop
    as (doc & total & frameNum & w2 & Hdoc & Hanim & Hloop & Hsame & Ht);
    [|done].
  fold this h c d entered in Hloop, Hsame, Ht.
  apply convertTgsToGif_miss_run in Hrun
    as [(doc' & total' & _ & Hdoc' & Hanim' & _ & (_ & _ & Ht') & _)|(? & _)];
    [|done|done].
  assert (doc' = doc) as -> by congruence.
  assert (total' = total) as -> by congruence.
  exists doc, total. split; [done|]. split; [done|].
  cbv zeta. rewrite Hloop.
  destruct (render_loop_frames env d total (tgs_step doc) entered frameNum w2
              (tgs_step_pos doc) Hloop) as (-> & Hiff & Hfiles & _).
  split; [apply tgs_step_pos|]. split; [done|]. split; [done|].
  split.
  { intros q. cbn [snd]. rewrite Hfiles, Hsame. done. }
  split; [done|].
  fold this h c d in Ht'. by rewrite <- rendered_from_zero.
Qed.

Lemma tgs_frame_stride_witness :
  tgs_document Demo.env_ok Demo.tgs_url = Some (mkAnimData (Some (150 # 1)))
  /\ tgs_step (mkAnimData (Some (150 # 1))) = 3
  /\ loadAnimation Demo.env_ok (mkAnimData (Some (150 # 1))) = Some 7
  /\ let framesDir := "/app/temp/tgs_e99a18c428cb38d5f260853678922e03" in
     let entered :=
       snd ((axios_get Demo.env_ok Demo.tgs_url ;; install_globals ;;
             fs_mkdir (disk_ok Demo.env_ok framesDir) framesDir) Demo.world0) in
     let loop := render_loop Demo.env_ok framesDir 7 3 (Z.to_nat 7) 0 0 entered in
     fst loop = Returned 3%nat
     /\ file_exists (path_join framesDir "frame_0000.png") (snd loop) = true
     /\ file_exists (path_join framesDir "frame_0001.png") (snd loop) = true
     /\ file_exists (path_join framesDir "frame_0002.png") (snd loop) = true
     /\ file_exists (path_join framesDir "frame_0003.png") (snd loop) = false
     /\ trace (snd (convertTgsToGif Demo.handler Demo.env_ok Demo.tgs_url
                      (Some "abc123") Demo.world0))
        = [EvDownload Demo.tgs_url;
           EvRender 0 (framesDir ++ "/frame_0000.png");
           EvRender 3 (framesDir ++ "/frame_0001.png");
           EvRender 6 (framesDir ++ "/frame_0002.png");
           EvExec (gifski_cmd "50"
                     (path_join "/app/gif-cache" "e99a18c428cb38d5f260853678922e03.gif")
                     framesDir)].
Proof.
  split; [reflexivity|]. split; [reflexivity|]. split; [reflexivity|].
  intros framesDir entered loop.
  destruct tgs_frame_stride as (_ & _ & _ & _ & _ & _ & _ & _ & _ & _ & H).
  destruct (convertTgsToGif Demo.handler Demo.env_ok Demo.tgs_url
              (Some "abc123") Demo.world0) as [r w'] eqn:Hrun.
  assert (r = Returned (Some "/app/gif-cache/e99a18c428cb38d5f260853678922e03.gif"))
    as ->.
  { change r with (fst (r, w')). rewrite <- Hrun. vm_compute. reflexivity. }
  destruct (H "/app" Demo.env_ok Demo.tgs_url (Some "abc123") Demo.world0 _ w'
              ltac:(vm_compute; reflexivity) Hrun)
    as (doc & total & Hdoc & Hanim & _ & _ & Hn & Hfiles & _ & Ht).
  injection Hdoc as <-. injection Hanim as <-.
  change (tgs_step (mkAnimData (Some (150 # 1)))) with 3 in Hn, Hfiles, Ht.
  change (Z.to_nat (ceil_div 7 3)) with 3%nat in Hn, Hfiles, Ht.
  change (tgs_hash Demo.tgs_url (Some "abc123"))
    with "e99a18c428cb38d5f260853678922e03" in Hn, Hfiles, Ht.
  split; [exact Hn|].
  split; [apply Hfiles; right; exists 0%nat; split; [lia | reflexivity]|].
  split; [apply Hfiles; right; exists 1%nat; split; [lia | reflexivity]|].
  split; [apply Hfiles; right; exists 2%nat; split; [lia | reflexivity]|].
  split.
  { apply not_true_is_false. intros [Hold | (j & Hj & Hq)]%Hfiles.
    - revert Hold. vm_compute. discriminate.
    - destruct j as [|[|[|j]]]; try lia; vm_compute in Hq; discriminate. }
  simpl snd. rewrite Ht. vm_compute. reflexivity.
Defined.

(** ** Static conversion: output format and cleanup *)

(** C8. In the static converter the format read off the URL (png,
    jpg/jpeg, else webp) names the temporary download only.  A conversion
    that succeeds from a cache miss has downloaded the URL, run one
    command (ffmpeg reading the temporary file, scaling to width 256 with
    the height following, writing the .webp cache file) and returns that
    .webp path, whatever format was read off the URL. *)
Theorem static_output_format this env imageUrl w p w' :
  let hash := generateHash imageUrl in
  let cachedImage := path_join (cacheDir this) (hash ++ ".webp") in
  let urlLower := toLowerCase imageUrl in
  let ext :=
    if includes urlLower ".png" then "png"
    else if includes urlLower ".jpg" || includes urlLower ".jpeg" then "jpg"
    else "webp" in
  let tempImage := path_join (tempDir this) (hash ++ "_orig." ++ ext) in
  file_exists cachedImage w = false ->
  resizeStaticImage this env imageUrl w = (Returned p, w') ->
  p = cacheDir this ++ "/" ++ hash ++ ".webp"
  /\ file_exists cachedImage w' = true
  /\ file_exists tempImage w' = false
  /\ trace w'
     = (trace w ++
        [EvDownload imageUrl;
         EvExec ("ffmpeg -i " ++ dq ++ path_str tempImage ++ dq
                 ++ " -vf " ++ dq ++ "scale=256:-1" ++ dq
                 ++ " -y " ++ dq ++ path_str cachedImage ++ dq)])%list.
Proof.
  intros h c lower ext t Hmiss Hrun.
  apply resizeStaticImage_miss_run in Hrun as (Ht & -> & Hc & Htrace); [|done].
  done.
Qed.

Lemma static_output_format_witness :
  static_ext Demo.png_url = "png"
  /\ fst (resizeStaticImage Demo.handler Demo.env_ok Demo.png_url Demo.world0)
     = Returned "/app/gif-cache/8f7070ced956da56047fa4800e682321.webp"
  /\ file_exists
       (path_join "/app/gif-cache" "8f7070ced956da56047fa4800e682321.webp")
       (snd (resizeStaticImage Demo.handler Demo.env_ok Demo.png_url Demo.world0))
     = true
  /\ file_exists
       (path_join "/app/temp" "8f7070ced956da56047fa4800e682321_orig.png")
       (snd (resizeStaticImage Demo.handler Demo.env_ok Demo.png_url Demo.world0))
     = false.
Proof.
  split; [vm_compute; reflexivity|].
  destruct (resizeStaticImage Demo.handler Demo.env_ok Demo.png_url Demo.world0)
    as [r w'] eqn:Hrun.
  assert (r = Returned "/app/gif-cache/8f7070ced956da56047fa4800e682321.webp")
    as ->.
  { change r with (fst (r, w')). rewrite <- Hrun. vm_compute. reflexivity. }
  split; [reflexivity|].
  destruct (static_output_format Demo.handler Demo.env_ok Demo.png_url
              Demo.world0 _ w' ltac:(vm_compute; reflexivity) Hrun)
    as (_ & Hc & Ht & _).
  split; [exact Hc | exact Ht].
Defined.

(** C9. From a cache miss the static converter leaves no temporary
    download behind, whether it returns or throws; when it throws, the
    error is the one of the step that failed (download, or the resize
    command) and the cache file for the key is gone. *)
Theorem static_cleanup this env imageUrl w :
  let hash := generateHash imageUrl in
  let cachedImage := path_join (cacheDir this) (hash ++ ".webp") in
  let tempImage :=
    path_join (tempDir this) (hash ++ "_orig." ++ static_ext imageUrl) in
  file_exists cachedImage w = false ->
  match resizeStaticImage this env imageUrl w with
  | (Returned p, w') =>
      p = path_str cachedImage /\ file_exists tempImage w' = false
  | (Thrown e, w') =>
      (e = HttpError \/ e = EIO
       \/ e = ExecError (resize_cmd tempImage cachedImage))
      /\ file_exists tempImage w' = false
      /\ file_exists cachedImage w' = false
  end.
Proof.
  intros h c t Hmiss.
  destruct (resizeStaticImage this env imageUrl w) as [r w'] eqn:Hrun.
  apply resizeStaticImage_miss_run in Hrun as (Ht & Hr); [|done].
  destruct r as [p|e]; naive_solver.
Qed.

Lemma static_cleanup_witness :
  (exists cmd,
      fst (resizeStaticImage Demo.handler Demo.env_resize_fails Demo.png_url
             Demo.world0) = Thrown (ExecError cmd))
  /\ file_exists
       (path_join "/app/temp" "8f7070ced956da56047fa4800e682321_orig.png")
       (snd (resizeStaticImage Demo.handler Demo.env_resize_fails Demo.png_url
               Demo.world0)) = false
  /\ file_exists
       (path_join "/app/gif-cache" "8f7070ced956da56047fa4800e682321.webp")
       (snd (resizeStaticImage Demo.handler Demo.env_resize_fails Demo.png_url
               Demo.world0)) = false.
Proof.
  pose proof (static_cleanup Demo.handler Demo.env_resize_fails Demo.png_url
                Demo.world0 ltac:(vm_compute; reflexivity)) as H.
  destruct (resizeStaticImage Demo.handler Demo.env_resize_fails Demo.png_url
              Demo.world0) as [r w'] eqn:Hrun.
  assert (exists cmd, r = Thrown (ExecError cmd)) as [cmd ->].
  { change r with (fst (r, w')). rewrite <- Hrun. vm_compute. eauto. }
  destruct H as (_ & Ht & Hc).
  split; [by exists cmd|]. split; [exact Ht | exact Hc].
Defined.

(** ** Where the code departs from the specification *)

(** The two animated converters hash the stable identifier when one is
    supplied (a non-empty string), and the source URL otherwise. *)
Lemma animated_key_prefers_stableId kind sourceUrl fileId :
  kind <> Static ->
  fileId <> "" ->
  hashed_identifier kind sourceUrl (Some fileId) = fileId
  /\ hashed_identifier kind sourceUrl None = sourceUrl
  /\ hashed_identifier kind sourceUrl (Some "") = sourceUrl.
Proof. intros Hk Hid. destruct kind, fileId; done. Qed.

(** Every path a conversion returns is the cache directory, a slash, the
    hex MD5 digest of the identifier the converter hashes, and ".gif" or
    ".webp". *)
Lemma cache_layout root env kind sourceUrl stableId w p w' :
  let this := new_Handler root in
  convert this env kind sourceUrl stableId w = (Returned (Some p), w') ->
  exists ext,
    p = cacheDir this ++ "/"
        ++ MD5.md5_hex (hashed_identifier kind sourceUrl stableId) ++ ext
    /\ (ext = ".gif" \/ ext = ".webp").
Proof.
  intros this Hrun. apply convert_returns_cached in Hrun as [-> _].
  destruct kind; [exists ".webp" | exists ".gif" | exists ".gif"]; auto.
Qed.

(** The end-to-end scenario of the specification: a .webm URL with stable
    identifier abc123, from an empty cache. *)
Lemma webm_abc123_scenario :
  MD5.md5_hex "abc123" = "e99a18c428cb38d5f260853678922e03"
  /\ fst (convert Demo.handler Demo.env_ok Webm Demo.webm_url (Some "abc123")
            Demo.world0)
     = Returned (Some "/app/gif-cache/e99a18c428cb38d5f260853678922e03.gif").
Proof. split; vm_compute; reflexivity. Qed.

(** The static conversion does not depend on the stable identifier it is
    called with. *)
Lemma static_ignores_stableId this env sourceUrl stableId stableId' w :
  convert this env Static sourceUrl stableId w
  = convert this env Static sourceUrl stableId' w.
Proof. reflexivity. Qed.

(** C2. The static converter hashes the source URL although a stable
    identifier is supplied: the picker passes [fileId] as a second
    argument, which [resizeStaticImage] does not declare.  Two requests
    for the sticker abc123 whose URL rotated in between land on two cache
    files, neither named after abc123, and download twice. *)
Theorem static_key_ignores_stableId :
  let run1 := convert Demo.handler Demo.env_ok Static Demo.png_url
                (Some "abc123") Demo.world0 in
  let run2 := convert Demo.handler Demo.env_ok Static Demo.rotated_png_url
                (Some "abc123") (snd run1) in
  hashed_identifier Static Demo.png_url (Some "abc123") = Demo.png_url
  /\ fst run1
     = Returned (Some "/app/gif-cache/8f7070ced956da56047fa4800e682321.webp")
  /\ fst run2
     = Returned (Some "/app/gif-cache/fa4d7735041f205008baa35b57b1fb14.webp")
  /\ generateHash "abc123" = "e99a18c428cb38d5f260853678922e03"
  /\ download_count (snd run2) = 2%nat.
Proof. repeat split; vm_compute; reflexivity. Qed.

(** C7. A static artifact is named after the MD5 digest of the source
    URL, not of the stable identifier the request carries. *)
Theorem static_artifact_named_after_url :
  MD5.md5_hex Demo.png_url = "8f7070ced956da56047fa4800e682321"
  /\ MD5.md5_hex "abc123" = "e99a18c428cb38d5f260853678922e03"
  /\ cache_path Demo.handler Static Demo.png_url (Some "abc123")
     = path_join "/app/gif-cache" "8f7070ced956da56047fa4800e682321.webp"
  /\ file_exists
       (path_join "/app/gif-cache" "8f7070ced956da56047fa4800e682321.webp")
       (snd (convert Demo.handler Demo.env_ok Static Demo.png_url
               (Some "abc123") Demo.world0)) = true
  /\ file_exists
       (path_join "/app/gif-cache" "e99a18c428cb38d5f260853678922e03.webp")
       (snd (convert Demo.handler Demo.env_ok Static Demo.png_url
               (Some "abc123") Demo.world0)) = false.
Proof. repeat split; vm_compute; reflexivity. Qed.

(** The [catch] block of the WebM converter removes the download and the
    cache file and rethrows, but leaves every other directory as the
    failed steps left it. *)
Lemma webm_failure_cleanup root env webmUrl fileId w e w' :
  let this := new_Handler root in
  let hash := webm_hash webmUrl fileId in
  let cachedGif := path_join (cacheDir this) (hash ++ ".gif") in
  let tempWebm := path_join (tempDir this) (hash ++ ".webm") in
  file_exists cachedGif w = false ->
  convertWebmToGif this env webmUrl fileId w = (Thrown e, w') ->
  file_exists tempWebm w' = false /\ file_exists cachedGif w' = false.
Proof.
  intros this h c t Hmiss Hrun.
  by apply convertWebmToGif_miss_run in Hrun.
Qed.

(** C4. When the GIF encoder fails, [convertWebmToGif] rethrows with the
    download and the partial cache file removed, but the frames directory
    and the frames ffmpeg extracted into it are still in the workspace. *)
Theorem webm_failure_leaves_frames :
  let run := convertWebmToGif Demo.handler Demo.env_gifski_fails Demo.webm_url
               (Some "abc123") Demo.world0 in
  let framesDir := "/app/temp/webm_e99a18c428cb38d5f260853678922e03" in
  fst run
  = Thrown (ExecError
      (gifski_cmd "50"
         (path_join "/app/gif-cache" "e99a18c428cb38d5f260853678922e03.gif")
         framesDir))
  /\ file_exists
       (path_join "/app/temp" "e99a18c428cb38d5f260853678922e03.webm")
       (snd run) = false
  /\ file_exists
       (path_join "/app/gif-cache" "e99a18c428cb38d5f260853678922e03.gif")
       (snd run) = false
  /\ dir_exists framesDir (snd run) = true
  /\ file_exists (path_join framesDir "frame_0001.png") (snd run) = true
  /\ file_exists (path_join framesDir "frame_0002.png") (snd run) = true.
Proof. repeat split; vm_compute; reflexivity. Qed.

(** ** The eviction sweep *)

Module SweeperFacts.
Import Sweeper.

#[global] Instance older_eq_total : Total older_eq.
Proof. intros a b. unfold older_eq. lia. Qed.

#[global] Instance older_eq_trans : Transitive older_eq.
Proof. intros a b c. unfold older_eq. lia. Qed.

Lemma total_size_Permutation l1 l2 : l1 ≡ₚ l2 -> total_size l1 = total_size l2.
Proof.
  induction 1 as [|a l1 l2 _ IH|a b l|l1 l2 l3 _ IH1 _ IH2]; simpl;
    [done | by rewrite IH | lia | congruence].
Qed.

(** The deletion loop splits the listing it walks, stops at or below the
    budget, and has stopped as early as it could. *)
Lemma evict_spec budget sorted :
  let '(deleted, kept) := evict budget (total_size sorted) sorted in
  sorted = (deleted ++ kept)%list
  /\ (total_size kept <= budget)%N
  /\ (forall k, (k < length deleted)%nat ->
        (budget < total_size sorted - total_size (take k deleted))%N).
Proof.
  induction sorted as [|a rest IH]; simpl.
  - repeat split; [lia | intros k Hk; simpl in Hk; lia].
  - destruct (N.leb_spec (sizeBytes a + total_size rest) budget) as [Hle|Hgt].
    + repeat split; [done | intros k Hk; simpl in Hk; lia].
    + replace (sizeBytes a + total_size rest - sizeBytes a)%N
        with (total_size rest) by lia.
      destruct (evict budget (total_size rest) rest) as [deleted kept].
      destruct IH as (-> & Hkept & Hmin).
      split; [done|]. split; [done|].
      intros [|k] Hk; simpl in *; [lia|].
      specialize (Hmin k ltac:(lia)). lia.
Qed.

End SweeperFacts.

(** C6. When the artifacts of the cache directory sum to more than the
    budget, one sweep leaves at most the budget, deletes oldest first (the
    deleted artifacts followed by the kept ones are the listing sorted by
    last-modified time, so no kept artifact is older than a deleted one),
    stops as soon as the total is at or below the budget (after any fewer
    of these deletions the total is still above it), and a second sweep
    right after deletes nothing. *)
Theorem sweep_evicts_oldest_first budget entries :
  (budget < Sweeper.total_size entries)%N ->
  let '(deleted, kept) := Sweeper.sweep budget entries in
  (Sweeper.total_size kept <= budget)%N
  /\ (deleted ++ kept)%list ≡ₚ entries
  /\ StronglySorted Sweeper.older_eq (deleted ++ kept)%list
  /\ (forall a b, a ∈ deleted -> b ∈ kept ->
        (Sweeper.lastModifiedTime a <= Sweeper.lastModifiedTime b)%Z)
  /\ (forall k, (k < length deleted)%nat ->
        (budget < Sweeper.total_size entries
                  - Sweeper.total_size (take k deleted))%N)
  /\ Sweeper.sweep budget kept = ([], kept).
Proof.
  intros Hover. unfold Sweeper.sweep at 1.
  destruct (N.ltb_spec budget (Sweeper.total_size entries)) as [_|?]; [|lia].
  pose proof (merge_sort_Permutation Sweeper.older_eq entries) as Hperm.
  pose proof (StronglySorted_merge_sort Sweeper.older_eq entries) as Hsorted.
  rewrite <- (SweeperFacts.total_size_Permutation _ _ Hperm).
  pose proof (SweeperFacts.evict_spec budget
                (merge_sort Sweeper.older_eq entries)) as Hev.
  destruct (Sweeper.evict budget _ _) as [deleted kept].
  destruct Hev as (Heq & Hkept & Hmin).
  rewrite Heq in Hperm, Hsorted.
  split; [done|]. split; [done|]. split; [done|]. split.
  { intros a b Ha Hb.
    by apply (StronglySorted_app_1_elem_of _ _ _ _ _ Hsorted). }
  split; [exact Hmin|].
  unfold Sweeper.sweep.
  destruct (N.ltb_spec budget (Sweeper.total_size kept)) as [?|_]; [lia|done].
Qed.

Lemma sweep_evicts_oldest_first_witness :
  let a := Sweeper.mkArtifact "a.gif" 40 300 in
  let b := Sweeper.mkArtifact "b.gif" 30 100 in
  let c := Sweeper.mkArtifact "c.webp" 50 200 in
  (100 < Sweeper.total_size [a; b; c])%N
  /\ Sweeper.sweep 100 [a; b; c] = ([b], [c; a])
  /\ Sweeper.sweep 100 [c; a] = ([], [c; a]).
Proof.
  intros a b c.
  assert (100 < Sweeper.total_size [a; b; c])%N as Hover
    by (vm_compute; reflexivity).
  split; [exact Hover|].
  pose proof (sweep_evicts_oldest_first 100 [a; b; c] Hover) as H.
  assert (Sweeper.sweep 100 [a; b; c] = ([b], [c; a])) as Hrun
    by (vm_compute; reflexivity).
  rewrite Hrun in H. split; [reflexivity|].
  exact (proj2 (proj2 (proj2 (proj2 (proj2 H))))).
Defined.

(** ** The footprint of a run *)

#[export] Instance touches_po P D : PreOrder (touches P D).
Proof.
  split.
  - by intros w.
  - intros a b c [Hf1 Hd1] [Hf2 Hd2]. split.
    + intros q Hq. by rewrite Hf2, Hf1.
    + intros d Hd. by rewrite Hd2, Hd1.
Qed.

Lemma touches_weaken (P P' : Path -> Prop) (D D' : string -> Prop) w w' :
  (forall q, P q -> P' q) -> (forall d, D d -> D' d) ->
  touches P D w w' -> touches P' D' w w'.
Proof. intros HP HD [Hf Hd]. split; intros x Hx; [apply Hf | apply Hd]; auto. Qed.

Lemma steps_weaken {A} (P P' : Path -> Prop) (D D' : string -> Prop) (m : M A) :
  steps (touches P D) m ->
  (forall q, P q -> P' q) -> (forall d, D d -> D' d) ->
  steps (touches P' D') m.
Proof. intros Hm HP HD w. eapply touches_weaken; [exact HP | exact HD | apply Hm]. Qed.

Lemma steps_ret {A} (R : relation World) `{!Reflexive R} (a : A) :
  steps R (mret a).
Proof. intros w. simpl. reflexivity. Qed.

Lemma steps_throw {A} (R : relation World) `{!Reflexive R} (e : Error) :
  steps R (throw e : M A).
Proof. intros w. simpl. reflexivity. Qed.

Lemma steps_bind {A B} (R : relation World) `{!PreOrder R}
    (m : M A) (k : A -> M B) :
  steps R m -> (forall a, steps R (k a)) -> steps R (m ≫= k).
Proof.
  intros Hm Hk w. rewrite run_bind. specialize (Hm w).
  destruct (m w) as [[a|e] w1]; simpl in *; [|done].
  etrans; [exact Hm | apply Hk].
Qed.

Lemma steps_try_catch {A} (R : relation World) `{!PreOrder R}
    (body : M A) (handler : Error -> M A) :
  steps R body -> (forall e, steps R (handler e)) ->
  steps R (try_catch body handler).
Proof.
  intros Hm Hk w. rewrite run_try_catch. specialize (Hm w).
  destruct (body w) as [[a|e] w1]; simpl in *; [done|].
  etrans; [exact Hm | apply Hk].
Qed.

Lemma steps_catch_with {A} (R : relation World) `{!PreOrder R} (m : M A) (v : A) :
  steps R m -> steps R (catch_with m v).
Proof.
  intros Hm. apply steps_try_catch; [apply _ | done |].
  intros _. apply steps_ret. apply _.
Qed.

Lemma steps_for_of {A} (R : relation World) `{!PreOrder R}
    (l : list A) (body : A -> M unit) :
  (forall x, steps R (body x)) -> steps R (for_of l body).
Proof.
  intros Hb. induction l as [|x l IH]; simpl.
  - apply steps_ret. apply _.
  - apply steps_bind; [apply _ | apply Hb | by intros _].
Qed.

(** *** The footprint of each step *)

Lemma put_file_touches p w w' :
  put_file p w = Some w' -> touches (eq p) nowhere w w'.
Proof.
  intros Hput. split; [|intros d _; by apply (put_file_dirs p w)].
  revert Hput. unfold put_file.
  destruct (fs w !! dir p) as [names|] eqn:Hd; [|done].
  intros [= <-] q Hq. unfold file_exists. simpl.
  destruct (decide (dir p = dir q)) as [Heq|Hne].
  - rewrite Heq, lookup_insert_eq. rewrite Heq in Hd. rewrite Hd.
    apply bool_decide_ext. split; [|set_solver].
    intros [Hb%elem_of_singleton|Hin]%elem_of_union; [|done].
    destruct Hq. destruct p, q; simpl in *; congruence.
  - by rewrite lookup_insert_ne.
Qed.

Lemma produce_touches o p e : steps (touches (eq p) nowhere) (produce o p e).
Proof.
  intros w. unfold produce.
  destruct o as [|[|]]; try destruct (put_file p w) as [w1|] eqn:Hput; simpl;
    try reflexivity; by apply put_file_touches.
Qed.

Lemma log_touches e w : touches nowhere nowhere w (log e w).
Proof. split; intros; reflexivity. Qed.

Lemma log_event_touches e : steps (touches nowhere nowhere) (log_event e).
Proof. intros w. apply log_touches. Qed.


Lemma fs_mkdir_touches ok d : steps (touches nowhere (eq d)) (fs_mkdir ok d).
Proof.
  intros w. split.
  - intros q _. apply fs_mkdir_files.
  - intros d' Hd'. unfold fs_mkdir.
    destruct (fs w !! d) as [names|]; simpl; [done|].
    destruct ok; simpl; [|done]. rewrite lookup_insert_ne; [done | congruence].
Qed.



Lemma fs_writeFile_touches ok p : steps (touches (eq p) nowhere) (fs_writeFile ok p).
Proof.
  intros w. unfold fs_writeFile. destruct ok; [|done].
  destruct (put_file p w) as [w1|] eqn:Hput; simpl; [|done].
  by apply put_file_touches.
Qed.


Lemma run_extract_touches env cmd d :
  steps (touches (fun q => dir q = d) nowhere) (run_extract env cmd d).
Proof.
  intros w. unfold run_extract. destruct (ffmpeg_extract env cmd) as [frames ok].
  simpl. clear ok. revert w. induction frames as [|f frames IH]; intros w; simpl.
  - done.
  - destruct (put_file (path_join d f) w) as [w1|] eqn:Hput; simpl; [|apply IH].
    etrans; [|apply IH].
    eapply touches_weaken; [| |by apply put_file_touches]; [by intros q <- | done].
Qed.


(** One structural step of a footprint proof. *)
Ltac footprint_step :=
  first
    [ apply steps_bind; [apply _ | | intros ?]
    | apply steps_catch_with; [apply _ |]
    | apply steps_try_catch; [apply _ | | intros ?]
    | apply steps_for_of; [apply _ | intros ?]
    | apply steps_ret; apply _
    | apply steps_throw; apply _ ].


(** A step whose footprint [H] is within the one asked for. *)
Ltac footprint_by H :=
  eapply steps_weaken; [apply H | |];
  unfold nowhere; intros; subst; try done; auto.

Lemma downloadFile_touches env url out :
  steps (touches (eq out) nowhere) (downloadFile env url out).
Proof.
  unfold downloadFile. footprint_step; [footprint_by log_event_touches|].
  destruct (http_get env url); [apply produce_touches | footprint_step].
Qed.

Lemma exec_writing_touches o cmd out :
  steps (touches (eq out) nowhere) (exec_writing o cmd out).
Proof.
  unfold exec_writing. footprint_step; [footprint_by log_event_touches|].
  apply produce_touches.
Qed.

Lemma exec_extract_touches env cmd d :
  steps (touches (fun q => dir q = d) nowhere) (exec_extract env cmd d).
Proof.
  unfold exec_extract. footprint_step; [footprint_by log_event_touches|].
  apply run_extract_touches.
Qed.

Lemma render_loop_touches env d total step fuel i n :
  steps (touches (fun q => dir q = d) nowhere)
    (render_loop env d total step fuel i n).
Proof.
  revert i n. induction fuel as [|fuel IH]; intros i n; simpl.
  - footprint_step.
  - destruct (i <? total); [|footprint_step].
    footprint_step.
    { unfold render_frame. destruct (render_ok env i); footprint_step. }
    footprint_step; [footprint_by fs_writeFile_touches|].
    footprint_step; [footprint_by log_event_touches | apply IH].
Qed.





(** ** Why a step throws *)

Lemma dir_exists_false d w : dir_exists d w = false <-> fs w !! d = None.
Proof.
  unfold dir_exists. rewrite bool_decide_eq_false, <- eq_None_not_Some. done.
Qed.

Lemma dir_exists_true d w : dir_exists d w = true <-> is_Some (fs w !! d).
Proof. unfold dir_exists. by rewrite bool_decide_eq_true. Qed.

Lemma touches_dir_exists P D w w' d :
  touches P D w w' -> ~ D d -> dir_exists d w' = dir_exists d w.
Proof.
  intros [_ Hd] Hn. specialize (Hd d Hn). unfold dir_exists.
  apply bool_decide_ext. rewrite <- !not_eq_None_Some. by rewrite Hd.
Qed.

Lemma touches_dirs_same P w w' d :
  touches P nowhere w w' -> dir_exists d w' = dir_exists d w.
Proof. intros H. eapply touches_dir_exists; [exact H | by intros []]. Qed.

Lemma produce_thrown o p e w e' w' :
  produce o p e w = (Thrown e', w') ->
  e' = e /\ (o <> Done \/ dir_exists (dir p) w = false).
Proof.
  unfold produce. destruct o as [|leftover].
  - unfold put_file. destruct (fs w !! dir p) as [names|] eqn:Hd; [done|].
    intros [= <- <-]. split; [done|]. right. by apply dir_exists_false.
  - intros [= <- <-]. split; [done | by left].
Qed.

Lemma downloadFile_thrown env url out w e w' :
  downloadFile env url out w = (Thrown e, w') ->
  (e = HttpError /\ http_get env url = None)
  \/ (e = EIO
      /\ (stream_write env (path_str out) <> Done
          \/ dir_exists (dir out) w = false)).
Proof.
  unfold downloadFile. rewrite run_bind, log_event_run. cbv beta iota.
  destruct (http_get env url) as [body|].
  - intros [-> H]%produce_thrown. right. split; [done|]. exact H.
  - intros [= <- <-]. by left.
Qed.

Lemma exec_writing_thrown o cmd out w e w' :
  exec_writing o cmd out w = (Thrown e, w') ->
  e = ExecError cmd /\ (o cmd <> Done \/ dir_exists (dir out) w = false).
Proof.
  unfold exec_writing. rewrite run_bind, log_event_run. cbv beta iota.
  intros [-> H]%produce_thrown. split; [done|]. exact H.
Qed.

Lemma exec_extract_thrown env cmd d w e w' :
  exec_extract env cmd d w = (Thrown e, w') ->
  e = ExecError cmd /\ snd (ffmpeg_extract env cmd) = false.
Proof.
  unfold exec_extract. rewrite run_bind, log_event_run. cbv beta iota.
  unfold run_extract. destruct (ffmpeg_extract env cmd) as [frames []];
    intros [= <- <-]; done.
Qed.

Lemma fs_mkdir_thrown ok d w e w' :
  fs_mkdir ok d w = (Thrown e, w') ->
  e = EIO /\ ok = false /\ dir_exists d w = false.
Proof.
  unfold fs_mkdir. destruct (fs w !! d) as [names|] eqn:Hd; [done|].
  destruct ok; [done|]. intros [= <- <-].
  split; [done|]. split; [done|]. by apply dir_exists_false.
Qed.

Lemma fs_readdir_thrown d w e w' :
  fs_readdir d w = (Thrown e, w') -> dir_exists d w = false.
Proof.
  unfold fs_readdir. destruct (fs w !! d) as [names|] eqn:Hd; [done|].
  intros _. by apply dir_exists_false.
Qed.

(** ** WebmHandler: the step that failed *)

Lemma convertWebmToGif_thrown root env webmUrl fileId w e w' :
  let this := new_Handler root in
  let hash := webm_hash webmUrl fileId in
  let cachedGif := path_join (cacheDir this) (hash ++ ".gif") in
  let tempWebm := path_join (tempDir this) (hash ++ ".webm") in
  let framesDir := path_str (path_join (tempDir this) ("webm_" ++ hash)) in
  let extract := webm_extract_cmd tempWebm framesDir in
  let encode := gifski_cmd "50" cachedGif framesDir in
  file_exists cachedGif w = false ->
  convertWebmToGif this env webmUrl fileId w = (Thrown e, w') ->
  (e = HttpError /\ http_get env webmUrl = None
   /\ trace w' = (trace w ++ [EvDownload webmUrl])%list)
  \/ (e = EIO
      /\ (stream_write env (path_str tempWebm) <> Done
          \/ dir_exists (tempDir this) w = false
          \/ (disk_ok env framesDir = false /\ dir_exists framesDir w = false))
      /\ trace w' = (trace w ++ [EvDownload webmUrl])%list)
  \/ (e = ExecError extract /\ snd (ffmpeg_extract env extract) = false
      /\ trace w' = (trace w ++ [EvDownload webmUrl; EvExec extract])%list)
  \/ (e = ExecError encode
      /\ (gifski env encode <> Done \/ dir_exists (cacheDir this) w = false)
      /\ trace w'
         = (trace w ++ [EvDownload webmUrl; EvExec extract; EvExec encode])%list).
Proof.
  intros this h c t d extract encode Hmiss. unfold convertWebmToGif.
  rewrite run_bind, cache_hit_run. fold this h c t. rewrite Hmiss.
  cbv beta iota. rewrite run_try_catch. fold d extract encode.
  rewrite run_bind.
  pose proof (downloadFile_touches env webmUrl t w) as Hf1.
  destruct (downloadFile env webmUrl t w) as [[[]|e1] w1] eqn:Hdl;
    cbv beta iota.
  2:{ pose proof Hdl as (Ht1 & _)%downloadFile_run.
      apply downloadFile_thrown in Hdl.
      intros (Hr & _ & _ & _ & _ & _ & Ht)%webm_catch_run.
      injection Hr as <-. rewrite Ht, Ht1.
      destruct Hdl as [[-> Hget]|[-> Hwhy]]; [by left|].
      right; left. split; [done|]. split; [|done].
      destruct Hwhy as [?|?]; [by left | right; by left]. }
  apply downloadFile_run in Hdl as (Ht1 & _). simpl in Hf1.
  rewrite run_bind.
  pose proof (fs_mkdir_touches (disk_ok env d) d w1) as Hf2.
  destruct (fs_mkdir _ d w1) as [[[]|e2] w2] eqn:Hmk; cbv beta iota.
  2:{ pose proof Hmk as (Ht2 & _)%fs_mkdir_run.
      apply fs_mkdir_thrown in Hmk as (-> & Hok & Hno).
      intros (Hr & _ & _ & _ & _ & _ & Ht)%webm_catch_run.
      injection Hr as <-. rewrite Ht, Ht2, Ht1.
      right; left. split; [done|]. split; [|done]. right; right.
      split; [done|].
      by rewrite <- (touches_dirs_same _ _ _ d Hf1). }
  apply fs_mkdir_run in Hmk as (Ht2 & _ & _ & _ & Hd2). simpl in Hf2.
  rewrite run_bind.
  pose proof (exec_extract_touches env extract d w2) as Hf3.
  destruct (exec_extract env _ d w2) as [[[]|e3] w3] eqn:Hex; cbv beta iota.
  2:{ pose proof Hex as (Ht3 & _)%exec_extract_run.
      apply exec_extract_thrown in Hex as (-> & Hbad).
      intros (Hr & _ & _ & _ & _ & _ & Ht)%webm_catch_run.
      injection Hr as <-. rewrite Ht, Ht3, Ht2, Ht1, <- app_assoc.
      right; right; left. done. }
  apply exec_extract_run in Hex as (Ht3 & _ & _ & Hdirs3 & _). simpl in Hf3.
  rewrite run_bind.
  pose proof (exec_writing_touches (gifski env) encode c w3) as Hf4.
  destruct (exec_writing _ _ c w3) as [[[]|e4] w4] eqn:Henc; cbv beta iota.
  2:{ pose proof Henc as (Ht4 & _)%exec_writing_run.
      apply exec_writing_thrown in Henc as (-> & Hwhy).
      intros (Hr & _ & _ & _ & _ & _ & Ht)%webm_catch_run.
      injection Hr as <-. rewrite Ht, Ht4, Ht3, Ht2, Ht1, <- !app_assoc.
      right; right; right. split; [done|]. split; [|done].
      destruct Hwhy as [?|Hno]; [by left | right].
      assert (cacheDir this <> d) as Hcd by apply cacheDir_not_below_tempDir.
      simpl in Hno.
      rewrite (touches_dirs_same _ _ _ _ Hf3) in Hno.
      rewrite (touches_dir_exists _ _ _ _ _ Hf2) in Hno
        by (intros Heq; by apply Hcd).
      by rewrite (touches_dirs_same _ _ _ _ Hf1) in Hno. }
  pose proof Henc as (Ht4 & _)%exec_writing_run. simpl in Hf4.
  rewrite run_bind.
  destruct (fs_readdir d w4) as [[files|e5] w5] eqn:Hread; cbv beta iota.
  2:{ exfalso. apply fs_readdir_thrown in Hread.
      rewrite (touches_dirs_same _ _ _ _ Hf4) in Hread.
      rewrite (touches_dirs_same _ _ _ _ Hf3) in Hread.
      apply dir_exists_true in Hd2. congruence. }
  apply fs_readdir_run in Hread as [-> _].
  rewrite run_bind.
  destruct (for_of _ _ w4) as [[[]|e6] w6] eqn:Hdel;
    apply unlink_all_run in Hdel as (Hret & _); [|done].
  cbv beta iota. rewrite run_bind.
  destruct (catch_with (fs_rmdir d) tt w6) as [[[]|e7] w7] eqn:Hrm;
    [|by apply catch_with_returns in Hrm].
  cbv beta iota. rewrite run_bind.
  destruct (catch_with (fs_unlink t) tt w7) as [[[]|e8] w8] eqn:Hun;
    [|by apply catch_with_returns in Hun].
  cbv beta iota. rewrite run_ret. done.
Qed.

(** ** StaticHandler: the step that failed *)

Lemma resizeStaticImage_thrown this env imageUrl w e w' :
  let hash := generateHash imageUrl in
  let cachedImage := path_join (cacheDir this) (hash ++ ".webp") in
  let tempImage :=
    path_join (tempDir this) (hash ++ "_orig." ++ static_ext imageUrl) in
  let cmd := resize_cmd tempImage cachedImage in
  file_exists cachedImage w = false ->
  resizeStaticImage this env imageUrl w = (Thrown e, w') ->
  (e = HttpError /\ http_get env imageUrl = None)
  \/ (e = EIO
      /\ (stream_write env (path_str tempImage) <> Done
          \/ dir_exists (tempDir this) w = false))
  \/ (e = ExecError cmd
      /\ (ffmpeg_resize env cmd <> Done \/ dir_exists (cacheDir this) w = false)).
Proof.
  intros h c t cmd Hmiss. rewrite resizeStaticImage_miss by done. fold h c t cmd.
  assert (forall (error : Error) w0 r w1,
            (catch_with (fs_unlink t) tt ;; catch_with (fs_unlink c) tt ;;
             (throw error : M string)) w0 = (r, w1) -> r = Thrown error) as Hcatch.
  { intros error w0 r w1. rewrite run_bind.
    destruct (catch_with (fs_unlink t) tt w0) as [[[]|e1] w2] eqn:H1;
      [|by apply catch_with_returns in H1].
    cbv beta iota. rewrite run_bind.
    destruct (catch_with (fs_unlink c) tt w2) as [[[]|e2] w3] eqn:H2;
      [|by apply catch_with_returns in H2].
    cbv beta iota. rewrite run_throw. by intros [= <- _]. }
  rewrite run_try_catch, run_bind.
  pose proof (downloadFile_touches env imageUrl t w) as Hf1.
  destruct (downloadFile env imageUrl t w) as [[[]|e1] w1] eqn:Hdl;
    cbv beta iota.
  2:{ apply downloadFile_thrown in Hdl. intros Hr%Hcatch. injection Hr as <-.
      destruct Hdl as [[-> Hget]|[-> Hwhy]]; [by left | right; by left]. }
  simpl in Hf1. rewrite run_bind.
  destruct (exec_writing _ _ c w1) as [[[]|e2] w2] eqn:Henc; cbv beta iota.
  2:{ apply exec_writing_thrown in Henc as (-> & Hwhy).
      intros Hr%Hcatch. injection Hr as <-. right; right. split; [done|].
      destruct Hwhy as [?|Hno]; [by left | right].
      by rewrite (touches_dirs_same _ _ _ _ Hf1) in Hno. }
  rewrite run_bind.
  destruct (catch_with (fs_unlink t) tt w2) as [[[]|e3] w3] eqn:Hun;
    [|by apply catch_with_returns in Hun].
  cbv beta iota. rewrite run_ret. done.
Qed.

(** ** TgsHandler: why the result is null *)

Lemma render_loop_thrown env d total step fuel i n w e w' :
  render_loop env d total step fuel i n w = (Thrown e, w') ->
  dir_exists d w = true ->
  exists j : nat,
    i + Z.of_nat j * step < total
    /\ (render_ok env (i + Z.of_nat j * step) = false
        \/ disk_ok env (path_str (path_join d (frame_name (n + j)))) = false).
Proof.
  revert i n w. induction fuel as [|fuel IH]; intros i n w; simpl; [done|].
  destruct (Z.ltb_spec i total) as [Hlt|Hge]; [|done].
  rewrite run_bind. unfold render_frame at 1.
  destruct (render_ok env i) eqn:Hok.
  2:{ intros _ _. exists 0%nat. rewrite Z.mul_0_l, Z.add_0_r. auto. }
  rewrite run_ret. cbv beta iota. rewrite run_bind.
  pose proof (fs_writeFile_touches
                (disk_ok env (path_str (path_join d (frame_name n))))
                (path_join d (frame_name n)) w) as Hf.
  destruct (fs_writeFile _ _ w) as [[[]|e1] w1] eqn:Hw; cbv beta iota.
  - rewrite run_bind, log_event_run. cbv beta iota. simpl in Hf.
    intros Hrun Hd.
    apply IH in Hrun as (j & Hj & Hwhy).
    + exists (S j). rewrite Nat.add_succ_r.
      replace (i + Z.of_nat (S j) * step) with (i + step + Z.of_nat j * step)
        by lia.
      done.
    + change (dir_exists d w1 = true).
      by rewrite (touches_dirs_same _ _ _ _ Hf).
  - intros _ Hd. exists 0%nat. rewrite Z.mul_0_l, Z.add_0_r, Nat.add_0_r.
    split; [done|]. right.
    revert Hw. unfold fs_writeFile, put_file. simpl.
    destruct (disk_ok env _); [|done].
    apply dir_exists_true in Hd as [names ->]. done.
Qed.

Lemma convertTgsToGif_null root env tgsUrl fileId w w' :
  let this := new_Handler root in
  let hash := tgs_hash tgsUrl fileId in
  let cachedGif := path_join (cacheDir this) (hash ++ ".gif") in
  let framesDir := path_str (path_join (tempDir this) ("tgs_" ++ hash)) in
  let cmd := gifski_cmd "50" cachedGif framesDir in
  file_exists cachedGif w = false ->
  convertTgsToGif this env tgsUrl fileId w = (Returned None, w') ->
  tgs_failure env tgsUrl cmd
  \/ (disk_ok env framesDir = false /\ dir_exists framesDir w = false)
  \/ (exists doc totalFrames (j : nat),
        tgs_document env tgsUrl = Some doc
        /\ loadAnimation env doc = Some totalFrames
        /\ Z.of_nat j * tgs_step doc < totalFrames
        /\ disk_ok env (path_str (path_join framesDir (frame_name j))) = false)
  \/ dir_exists (cacheDir this) w = false.
Proof.
  intros this h c d cmd Hmiss. unfold convertTgsToGif.
  rewrite run_bind, cache_hit_run. fold this h c d cmd. rewrite Hmiss.
  cbv beta iota. rewrite run_try_catch.
  rewrite run_bind.
  destruct (axios_get env tgsUrl w) as [[body|e] w0] eqn:Hget;
    apply axios_get_run in Hget as [-> Hget]; cbv beta iota.
  2:{ intros _. left. apply download_error. by destruct Hget. }
  rewrite run_bind.
  destruct (of_option (ungzip env body) GzipError _) as [[json|e] w1] eqn:Hzip;
    apply of_option_run in Hzip as [-> Hzip]; cbv beta iota.
  2:{ intros _. left. apply (not_gzip _ _ _ body); [done | by destruct Hzip]. }
  rewrite run_bind.
  destruct (of_option (JSON_parse env json) JsonError _) as [[doc|e] w1] eqn:Hjs;
    apply of_option_run in Hjs as [-> Hjs]; cbv beta iota.
  2:{ intros _. left. apply (not_json _ _ _ body json); [done | done |].
      by destruct Hjs. }
  assert (tgs_document env tgsUrl = Some doc) as Hdoc.
  { unfold tgs_document. rewrite Hget. simpl. rewrite Hzip. done. }
  rewrite run_bind, install_globals_run. cbv beta iota.
  set (wi := set_globals _ _).
  assert (forall x, dir_exists x wi = dir_exists x w) as Hwi by done.
  rewrite run_bind.
  destruct (of_option (loadAnimation env doc) LottieError wi) as [[total|e] w1] eqn:Hanim;
    apply of_option_run in Hanim as [-> Hanim]; cbv beta iota.
  2:{ intros _. left. apply (animation_error _ _ _ doc); [done | by destruct Hanim]. }
  rewrite run_bind.
  pose proof (fs_mkdir_touches (disk_ok env d) d wi) as Hf1.
  destruct (fs_mkdir _ d wi) as [[[]|e] w1] eqn:Hmk; cbv beta iota.
  2:{ intros _. apply fs_mkdir_thrown in Hmk as (_ & Hok & Hno).
      right; left. by rewrite <- Hwi. }
  apply fs_mkdir_run in Hmk as (_ & _ & _ & _ & Hd1%dir_exists_true).
  simpl in Hf1. rewrite run_bind.
  pose proof (render_loop_touches env d total (tgs_step doc) (Z.to_nat total)
                0 0%nat w1) as Hf2.
  destruct (render_loop _ _ _ _ _ _ _ w1) as [[frameNum|e] w2] eqn:Hloop;
    cbv beta iota.
  2:{ intros _. apply render_loop_thrown in Hloop as (j & Hj & Hwhy); [|done].
      rewrite Z.add_0_l in Hj, Hwhy. simpl in Hwhy.
      destruct Hwhy as [Hbad|Hbad].
      - left. by apply (rasterization_error _ _ _ doc total j).
      - right; right; left. by exists doc, total, j. }
  simpl in Hf2. rewrite run_bind.
  pose proof (exec_writing_touches (gifski env) cmd c w2) as Hf3.
  destruct (exec_writing _ _ _ w2) as [[[]|e] w3] eqn:Henc; cbv beta iota.
  2:{ intros _. apply exec_writing_thrown in Henc as (_ & [Hbad|Hno]).
      - left. destruct (gifski env cmd) as [|leftover] eqn:Hg; [done|].
        by apply (encoder_failure _ _ _ leftover).
      - right; right; right.
        assert (cacheDir this <> d) as Hcd by apply cacheDir_not_below_tempDir.
        simpl in Hno.
        rewrite (touches_dirs_same _ _ _ _ Hf2) in Hno.
        rewrite (touches_dir_exists _ _ _ _ _ Hf1) in Hno
          by (intros Heq; by apply Hcd).
        by rewrite Hwi in Hno. }
  simpl in Hf3. rewrite run_bind.
  destruct (fs_readdir d w3) as [[files|e] w4] eqn:Hread; cbv beta iota.
  2:{ exfalso. apply fs_readdir_thrown in Hread.
      rewrite (touches_dirs_same _ _ _ _ Hf3) in Hread.
      rewrite (touches_dirs_same _ _ _ _ Hf2) in Hread. congruence. }
  apply fs_readdir_run in Hread as [-> _].
  rewrite run_bind.
  destruct (for_of _ _ w3) as [[[]|e] w4] eqn:Hdel;
    apply unlink_all_run in Hdel as (Hret & _); [|done].
  cbv beta iota. rewrite run_bind.
  destruct (catch_with (fs_rmdir d) tt w4) as [[[]|e] w5] eqn:Hrm;
    [|by apply catch_with_returns in Hrm].
  cbv beta iota. rewrite run_bind, delete_globals_run. cbv beta iota.
  rewrite run_ret. done.
Qed.

(** ** Conversions that go through *)





(** * Further properties of the handlers *)

(** ** initDirs *)

(** [initDirs] never throws and never loses anything: every directory
    that was there keeps its listing.  When the disk lets both directories
    be created they exist afterwards.  When the cache directory is missing
    and cannot be created, the temp directory is not attempted: the world
    is left as it was.  Running it again changes nothing. *)
Theorem initDirs_best_effort this env w :
  exists w',
    initDirs this env w = (Returned tt, w')
    /\ (forall d names, fs w !! d = Some names -> fs w' !! d = Some names)
    /\ (forall d, d <> cacheDir this -> d <> tempDir this ->
          fs w' !! d = fs w !! d)
    /\ globals w' = globals w /\ trace w' = trace w
    /\ (disk_ok env (cacheDir this) = true ->
        disk_ok env (tempDir this) = true ->
        dir_exists (cacheDir this) w' = true
        /\ dir_exists (tempDir this) w' = true)
    /\ (dir_exists (cacheDir this) w = false ->
        disk_ok env (cacheDir this) = false -> w' = w)
    /\ initDirs this env w' = (Returned tt, w').
Proof.
  assert (forall ok d w0,
            is_Some (fs w0 !! d) -> fs_mkdir ok d w0 = (Returned tt, w0)) as Hagain.
  { intros ok d w0 [names Hd]. unfold fs_mkdir. by rewrite Hd. }
  assert (forall ok d w0 d' names,
            fs w0 !! d' = Some names ->
            fs (snd (fs_mkdir ok d w0)) !! d' = Some names) as Hkeep.
  { intros ok d w0 d' names Hd'. unfold fs_mkdir.
    destruct (fs w0 !! d) as [n|] eqn:Hd; [done|]. destruct ok; [|done].
    simpl. rewrite lookup_insert_ne; [done | congruence]. }
  assert (forall ok d w0 d',
            d' <> d -> fs (snd (fs_mkdir ok d w0)) !! d' = fs w0 !! d') as Hother.
  { intros ok d w0 d' Hne. unfold fs_mkdir.
    destruct (fs w0 !! d) as [n|] eqn:Hd; [done|]. destruct ok; [|done].
    simpl. by rewrite lookup_insert_ne. }
  unfold initDirs. rewrite run_try_catch, run_bind.
  pose proof (Hkeep (disk_ok env (cacheDir this)) (cacheDir this) w) as Hk1.
  pose proof (Hother (disk_ok env (cacheDir this)) (cacheDir this) w) as Ho1.
  destruct (fs_mkdir _ (cacheDir this) w) as [[[]|e1] w1] eqn:H1; simpl in Hk1, Ho1.
  - pose proof H1 as (Ht1 & Hg1 & _ & _ & Hc1)%fs_mkdir_run.
    pose proof (Hkeep (disk_ok env (tempDir this)) (tempDir this) w1) as Hk2.
    pose proof (Hother (disk_ok env (tempDir this)) (tempDir this) w1) as Ho2.
    destruct (fs_mkdir _ (tempDir this) w1) as [[[]|e2] w2] eqn:H2;
      simpl in Hk2, Ho2; cbv beta iota; rewrite ?run_ret; exists w2.
    + pose proof H2 as (Ht2 & Hg2 & _ & _ & Hc2)%fs_mkdir_run.
      assert (is_Some (fs w2 !! cacheDir this)) as Hc12.
      { destruct Hc1 as [n Hn]. exists n. by apply Hk2. }
      split; [done|]. split; [by auto|].
      split; [intros d Hd1 Hd2; by rewrite Ho2, Ho1|].
      split; [congruence|]. split; [congruence|].
      split; [by rewrite !dir_exists_true|].
      split.
      { intros Hno Hok. exfalso. revert H1. unfold fs_mkdir.
        apply dir_exists_false in Hno. by rewrite Hno, Hok. }
      rewrite run_try_catch, run_bind, (Hagain _ _ _ Hc12). cbv beta iota.
      by rewrite (Hagain _ _ _ Hc2).
    + pose proof H2 as (_ & Hok2 & Hno2)%fs_mkdir_thrown.
      pose proof H2 as (Ht2 & Hg2 & _ & _ & _ & -> & _)%fs_mkdir_run.
      split; [done|]. split; [by auto|].
      split; [intros d Hd1 Hd2; by rewrite Ho1|].
      split; [done|]. split; [done|].
      split; [intros _ Hok; congruence|].
      split.
      { intros Hno Hok. exfalso. revert H1. unfold fs_mkdir.
        apply dir_exists_false in Hno. by rewrite Hno, Hok. }
      rewrite run_try_catch, run_bind, (Hagain _ _ _ Hc1). cbv beta iota.
      by rewrite H2.
  - pose proof H1 as (_ & Hok1 & Hno1)%fs_mkdir_thrown.
    pose proof H1 as (_ & _ & _ & _ & _ & -> & _)%fs_mkdir_run.
    rewrite run_ret. exists w. split; [done|]. split; [by auto|].
    split; [done|]. split; [done|]. split; [done|].
    split; [intros Hok; congruence|]. split; [done|].
    by rewrite run_try_catch, run_bind, H1.
Qed.

(** ** generateHash *)

Lemma le_bytes_length n x : length (MD5.le_bytes n x) = n.
Proof. revert x. induction n as [|n IH]; intros x; simpl; [done | by rewrite IH]. Qed.

Lemma le_bytes_range n x : Forall (fun b => 0 <= b < 256) (MD5.le_bytes n x).
Proof.
  revert x. induction n as [|n IH]; intros x; simpl; constructor; [|done].
  apply Z.mod_pos_bound. lia.
Qed.

Lemma digest_bytes msg :
  length (MD5.digest msg) = 16%nat
  /\ Forall (fun b => 0 <= b < 256) (MD5.digest msg).
Proof.
  unfold MD5.digest. destruct (fold_left _ _ _) as [a b c d]. split.
  - by rewrite !length_app, !le_bytes_length.
  - rewrite !Forall_app. auto using le_bytes_range.
Qed.

Lemma hex_digit_lower n : 0 <= n < 16 -> is_lower_hex (MD5.hex_digit n) = true.
Proof.
  intros Hn. unfold MD5.hex_digit.
  assert (Z.to_nat n < 16)%nat as Hk by lia.
  destruct (Z.to_nat n) as [|k]; [reflexivity|].
  do 15 (destruct k as [|k]; [reflexivity|]). lia.
Qed.

Lemma hex_digits bs :
  Forall (fun b => 0 <= b < 256) bs ->
  String.length (MD5.hex bs) = (2 * length bs)%nat
  /\ forallb is_lower_hex (list_ascii_of_string (MD5.hex bs)) = true.
Proof.
  induction 1 as [|b bs Hb _ [IHl IHf]]; [done|].
  cbn [MD5.hex String.length list_ascii_of_string forallb length].
  rewrite IHl, IHf, !hex_digit_lower; [split; [lia | done] | |].
  - apply Z.mod_pos_bound. lia.
  - split; [apply Z.div_pos; lia | apply Z.div_lt_upper_bound; lia].
Qed.

(** The cache key [generateHash] returns is, for every input, 32
    characters long and made of the digits 0-9 and the letters a-f only;
    in particular it holds no path separator, dot or quote. *)
Theorem generateHash_is_32_hex_digits input :
  String.length (generateHash input) = 32%nat
  /\ forallb is_lower_hex (list_ascii_of_string (generateHash input)) = true
  /\ (forall c, In c (list_ascii_of_string (generateHash input)) ->
        In c (list_ascii_of_string "0123456789abcdef")).
Proof.
  unfold generateHash, MD5.md5_hex.
  destruct (digest_bytes (MD5.bytes_of_string input)) as [Hlen Hrange].
  destruct (hex_digits _ Hrange) as [Hl Hf].
  split; [by rewrite Hl, Hlen|]. split; [done|].
  intros c Hc. rewrite forallb_forall in Hf. specialize (Hf c Hc).
  unfold is_lower_hex in Hf. apply existsb_exists in Hf as (x & Hx & Heq).
  apply Ascii.eqb_eq in Heq. by subst x.
Qed.

(** ** What a conversion touches *)




(** ** Failures and their causes *)

(** When [convertWebmToGif] throws from a cache miss it throws the error
    of the first step that failed, and no later step has run: after a
    failed request or a failed write of the download (or an uncreatable
    frames directory) nothing but the download has happened; after a
    failed frame extraction the encoder has not run. *)
Theorem convertWebmToGif_stops_at_first_failure root env webmUrl fileId w e w' :
  let this := new_Handler root in
  let hash := webm_hash webmUrl fileId in
  let cachedGif := path_join (cacheDir this) (hash ++ ".gif") in
  let tempWebm := path_join (tempDir this) (hash ++ ".webm") in
  let framesDir := path_str (path_join (tempDir this) ("webm_" ++ hash)) in
  let extract := webm_extract_cmd tempWebm framesDir in
  let encode := gifski_cmd "50" cachedGif framesDir in
  file_exists cachedGif w = false ->
  convertWebmToGif this env webmUrl fileId w = (Thrown e, w') ->
  (e = HttpError /\ http_get env webmUrl = None
   /\ trace w' = (trace w ++ [EvDownload webmUrl])%list)
  \/ (e = EIO
      /\ (stream_write env (path_str tempWebm) <> Done
          \/ dir_exists (tempDir this) w = false
          \/ (disk_ok env framesDir = false /\ dir_exists framesDir w = false))
      /\ trace w' = (trace w ++ [EvDownload webmUrl])%list)
  \/ (e = ExecError extract /\ snd (ffmpeg_extract env extract) = false
      /\ trace w' = (trace w ++ [EvDownload webmUrl; EvExec extract])%list)
  \/ (e = ExecError encode
      /\ (gifski env encode <> Done \/ dir_exists (cacheDir this) w = false)
      /\ trace w'
         = (trace w ++ [EvDownload webmUrl; EvExec extract; EvExec encode])%list).
Proof. apply convertWebmToGif_thrown. Qed.

Lemma convertWebmToGif_stops_at_first_failure_witness :
  let run := convertWebmToGif Demo.handler Demo.env_down Demo.webm_url
               (Some "abc123") Demo.world0 in
  fst run = Thrown HttpError
  /\ trace (snd run) = [EvDownload Demo.webm_url].
Proof.
  intros run.
  assert (run = (Thrown HttpError, snd run)) as Hrun by (vm_compute; reflexivity).
  destruct (convertWebmToGif_stops_at_first_failure "/app" Demo.env_down
              Demo.webm_url (Some "abc123") Demo.world0 _ _
              ltac:(vm_compute; reflexivity) Hrun)
    as [(_ & _ & Ht)|[(He & _)|[(He & _)|(He & _)]]]; try discriminate He.
  split; [by rewrite Hrun | exact Ht].
Defined.

(** [convertTgsToGif] returns null from a cache miss only when something
    went wrong: one of the failures the converter guards against
    (download, gunzip, parse, animation load, rasterization, encoder), or
    the disk refusing the frames directory or a frame file, or the cache
    directory not being there. *)
Theorem convertTgsToGif_null_has_a_cause root env tgsUrl fileId w w' :
  let this := new_Handler root in
  let hash := tgs_hash tgsUrl fileId in
  let cachedGif := path_join (cacheDir this) (hash ++ ".gif") in
  let framesDir := path_str (path_join (tempDir this) ("tgs_" ++ hash)) in
  let cmd := gifski_cmd "50" cachedGif framesDir in
  file_exists cachedGif w = false ->
  convertTgsToGif this env tgsUrl fileId w = (Returned None, w') ->
  tgs_failure env tgsUrl cmd
  \/ (disk_ok env framesDir = false /\ dir_exists framesDir w = false)
  \/ (exists doc totalFrames (j : nat),
        tgs_document env tgsUrl = Some doc
        /\ loadAnimation env doc = Some totalFrames
        /\ Z.of_nat j * tgs_step doc < totalFrames
        /\ disk_ok env (path_str (path_join framesDir (frame_name j))) = false)
  \/ dir_exists (cacheDir this) w = false.
Proof. apply convertTgsToGif_null. Qed.

Lemma convertTgsToGif_null_has_a_cause_witness :
  let run := convertTgsToGif Demo.handler Demo.env_not_gzip Demo.tgs_url
               (Some "abc123") Demo.world0 in
  fst run = Returned None
  /\ ungzip Demo.env_not_gzip "payload" = None
  /\ (tgs_failure Demo.env_not_gzip Demo.tgs_url
        (gifski_cmd "50"
           (path_join "/app/gif-cache" "e99a18c428cb38d5f260853678922e03.gif")
           "/app/temp/tgs_e99a18c428cb38d5f260853678922e03")
      \/ dir_exists "/app/gif-cache" Demo.world0 = false).
Proof.
  intros run.
  assert (run = (Returned None, snd run)) as Hrun by (vm_compute; reflexivity).
  split; [by rewrite Hrun|]. split; [reflexivity|].
  destruct (convertTgsToGif_null_has_a_cause "/app" Demo.env_not_gzip
              Demo.tgs_url (Some "abc123") Demo.world0 _
              ltac:(vm_compute; reflexivity) Hrun)
    as [H|[[H _]|[(doc & total & j & _ & _ & _ & H)|H]]].
  - by left.
  - discriminate H.
  - discriminate H.
  - by right.
Defined.

Lemma cooperative_returns root env kind sourceUrl stableId w :
  let this := new_Handler root in
  cooperative this env kind sourceUrl stableId w ->
  fst (convert this env kind sourceUrl stableId w)
  = Returned (Some (path_str (cache_path this kind sourceUrl stableId))).
Proof.
  intros this [Hc Hok].
  destruct (file_exists (cache_path this kind sourceUrl stableId) w) eqn:Hmiss.
  { by rewrite convert_hit. }
  destruct kind; unfold convert, cache_path in *; cbv beta iota zeta in Hok.
  - destruct Hok as (Ht & [body Hget] & Hsw & Hrs).
    rewrite run_bind.
    destruct (resizeStaticImage this env sourceUrl w) as [[q|e] w1] eqn:Hrun.
    + by apply resizeStaticImage_miss_run in Hrun as (_ & -> & _); [|done].
    + exfalso. apply resizeStaticImage_thrown in Hrun; [|done].
      cbv zeta in Hrun.
      destruct Hrun as [[_ H]|[[_ [H|H]]|[_ [H|H]]]]; congruence.
  - destruct Hok as (Ht & [body Hget] & Hsw & Hfd & Hex & Hgs).
    rewrite run_bind.
    destruct (convertWebmToGif this env sourceUrl stableId w) as [[q|e] w1] eqn:Hrun.
    + by apply convertWebmToGif_miss_run in Hrun as (-> & _); [|done].
    + exfalso. apply convertWebmToGif_thrown in Hrun; [|done].
      cbv zeta in Hrun. fold this in Hrun.
      destruct Hrun
        as [(_ & H & _)|[(_ & [H|[H|[H1 H2]]] & _)|[(_ & H & _)|(_ & [H|H] & _)]]];
        try congruence.
      destruct Hfd; congruence.
  - destruct Hok as (doc & total & Hdoc & Hanim & Hfd & Hframes & Hgs).
    destruct (convertTgsToGif this env sourceUrl stableId w) as [r w1] eqn:Hrun.
    pose proof Hrun as Hrun'.
    apply convertTgsToGif_miss_run in Hrun
      as [(_ & _ & -> & _)|(-> & _)]; [done| |done].
    exfalso. apply convertTgsToGif_null in Hrun'; [|done].
    cbv zeta in Hrun'. fold this in Hrun'.
    destruct Hrun' as [Hfail|[[H1 H2]|[(doc' & total' & j & Hdoc' & Hanim' & Hj & Hbad)|H]]].
    + destruct Hfail as [Hget|b Hget Hzip|b json Hget Hzip Hjs
                        |doc' Hdoc' Hanim'|doc' total' j Hdoc' Hanim' Hj Hbad
                        |leftover Henc].
      * unfold tgs_document in Hdoc. by rewrite Hget in Hdoc.
      * unfold tgs_document in Hdoc. rewrite Hget in Hdoc. simpl in Hdoc.
        by rewrite Hzip in Hdoc.
      * unfold tgs_document in Hdoc. rewrite Hget in Hdoc. simpl in Hdoc.
        rewrite Hzip in Hdoc. simpl in Hdoc. congruence.
      * congruence.
      * assert (doc' = doc) as -> by congruence.
        assert (total' = total) as -> by congruence.
        destruct (Hframes j Hj). congruence.
      * congruence.
    + destruct Hfd; congruence.
    + assert (doc' = doc) as -> by congruence.
      assert (total' = total) as -> by congruence.
      destruct (Hframes j Hj). congruence.
    + congruence.
Qed.

(** With the cache directory in place and every step succeeding, each of
    the three conversions returns its cache path: the rasterization loop
    of the TGS converter always comes to its end. *)
Theorem convert_succeeds root env kind sourceUrl stableId w :
  let this := new_Handler root in
  cooperative this env kind sourceUrl stableId w ->
  fst (convert this env kind sourceUrl stableId w)
  = Returned (Some (path_str (cache_path this kind sourceUrl stableId))).
Proof. apply cooperative_returns. Qed.

Lemma convert_succeeds_witness :
  cooperative Demo.handler Demo.env_ok Tgs Demo.tgs_url (Some "abc123")
    Demo.world0
  /\ fst (convert Demo.handler Demo.env_ok Tgs Demo.tgs_url (Some "abc123")
            Demo.world0)
     = Returned (Some "/app/gif-cache/e99a18c428cb38d5f260853678922e03.gif").
Proof.
  assert (cooperative Demo.handler Demo.env_ok Tgs Demo.tgs_url (Some "abc123")
            Demo.world0) as Hok.
  { split; [vm_compute; reflexivity|].
    exists (mkAnimData (Some (150 # 1))), 7.
    split; [reflexivity|]. split; [reflexivity|].
    split; [right; reflexivity|]. split; [by intros j _ | reflexivity]. }
  split; [exact Hok|].
  etrans; [exact (convert_succeeds "/app" Demo.env_ok Tgs Demo.tgs_url
                     (Some "abc123") Demo.world0 Hok)|].
  vm_compute. reflexivity.
Defined.

(** ** getGifUrl *)

(** [getGifUrl] never throws.  A URL without ".webm" comes back as it is
    and nothing happens.  Otherwise the result is either the original URL
    (the conversion failed) or [baseUrl/gif/<name>], where [<name>] is the
    name of the cache file the conversion has just returned, which is
    there: the hash the method recomputes is the key the converter used.
    The latter is what happens when every step of the conversion
    succeeds. *)
Theorem getGifUrl_result root env originalUrl baseUrl w :
  let this := new_Handler root in
  let hash := generateHash originalUrl in
  let cachedGif := path_join (cacheDir this) (hash ++ ".gif") in
  exists u w',
    getGifUrl this env originalUrl baseUrl w = (Returned u, w')
    /\ (includes originalUrl ".webm" = false -> u = originalUrl /\ w' = w)
    /\ (u = originalUrl
        \/ (u = baseUrl ++ "/gif/" ++ base cachedGif
            /\ file_exists cachedGif w' = true))
    /\ (includes originalUrl ".webm" = true ->
        cooperative this env Webm originalUrl None w ->
        u = baseUrl ++ "/gif/" ++ hash ++ ".gif").
Proof.
  intros this h c. unfold getGifUrl. rewrite run_bind, run_try_catch.
  destruct (includes originalUrl ".webm") eqn:Hinc.
  2:{ rewrite !run_ret. eexists _, _. split; [reflexivity|].
      split; [done|]. split; [by left | done]. }
  rewrite run_bind. fold h.
  pose proof (cooperative_returns root env Webm originalUrl None w) as Hgood.
  unfold convert in Hgood. rewrite run_bind in Hgood. fold this in Hgood.
  destruct (convertWebmToGif this env originalUrl None w) as [[q|e] w1] eqn:Hrun;
    cbv beta iota; rewrite !run_ret; cbv beta iota; rewrite ?run_ret;
    eexists _, _; (split; [reflexivity|]); (split; [done|]).
  - split; [|done]. right. split; [done|].
    destruct (file_exists c w) eqn:Hc.
    + unfold c, h in Hc. rewrite convertWebmToGif_hit in Hrun by exact Hc.
      injection Hrun as _ <-. exact Hc.
    + by apply convertWebmToGif_miss_run in Hrun as (_ & Hex & _).
  - split; [by left|]. intros _ Hok. by specialize (Hgood Hok).
Qed.

(** ** Frame files in the order the encoder reads them *)




Lemma animated_hit_after_url_rotation_witness :
  let p := "/app/gif-cache/e99a18c428cb38d5f260853678922e03.gif" in
  let w1 := snd (convert Demo.handler Demo.env_ok Tgs Demo.tgs_url
                   (Some "abc123") Demo.world0) in
  convert Demo.handler Demo.env_ok Tgs Demo.tgs_url (Some "abc123") Demo.world0
  = (Returned (Some p), w1)
  /\ convert Demo.handler Demo.env_down Tgs "https://example/moved.tgs"
       (Some "abc123") w1
     = (Returned (Some p), w1).
Proof.
  intros p w1.
  assert (convert Demo.handler Demo.env_ok Tgs Demo.tgs_url (Some "abc123")
            Demo.world0 = (Returned (Some p), w1)) as Hfirst
    by (vm_compute; reflexivity).
  split; [exact Hfirst|].
  exact (animated_hit_after_url_rotation "/app" Demo.env_ok Demo.env_down Tgs
           Demo.tgs_url "https://example/moved.tgs" "abc123" Demo.world0 p w1
           ltac:(discriminate) ltac:(discriminate) Hfirst).
Defined.

(** * The Telegram client *)

Lemma bind_run {S A B} (m : Run S A) (k : A -> Run S B) s :
  (m ≫= k) s
  = match m s with
    | (Resolved a, s') => k a s'
    | (Rejected e, s') => (Rejected e, s')
    end.
Proof. reflexivity. Qed.

Lemma ret_run {S A} (a : A) (s : S) : (mret a : Run S A) s = (Resolved a, s).
Proof. reflexivity. Qed.

Lemma gets_run {S A} (f : S -> A) (s : S) : gets f s = (Resolved (f s), s).
Proof. reflexivity. Qed.

Lemma modify_run {S} (f : S -> S) (s : S) : modify f s = (Resolved tt, f s).
Proof. reflexivity. Qed.

Lemma try_run {S A} (body : Run S A) (handler : Exn -> Run S A) s :
  try_ body handler s
  = match body s with
    | (Resolved a, s') => (Resolved a, s')
    | (Rejected e, s') => handler e s'
    end.
Proof. reflexivity. Qed.

(** ** Hashes of file ids *)

Lemma substring_length (n : nat) (s : string) :
  String.length (String.substring 0 n s) = Nat.min n (String.length s).
Proof.
  revert s. induction n as [|n IH]; intros [|c s]; simpl; auto.
Qed.

Lemma substring_chars (n : nat) (s : string) c :
  In c (list_ascii_of_string (String.substring 0 n s)) ->
  In c (list_ascii_of_string s).
Proof.
  revert s. induction n as [|n IH]; intros [|x s]; simpl; try done.
  intros [->|H]; auto.
Qed.

Lemma generateHash_length input : String.length (generateHash input) = 32%nat.
Proof.
  unfold generateHash, MD5.md5_hex.
  destruct (digest_bytes (MD5.bytes_of_string input)) as [Hlen Hrange].
  destruct (hex_digits _ Hrange) as [Hl _]. by rewrite Hl, Hlen.
Qed.

Lemma getUrlFromHash_run hash s :
  Tg.getUrlFromHash hash s
  = (Resolved (Tg.url <$> Tg.urlMap (Tg.self s) !! hash), s).
Proof.
  unfold Tg.getUrlFromHash. rewrite bind_run, gets_run.
  by destruct (Tg.urlMap (Tg.self s) !! hash).
Qed.

(** [hashUrl] returns the first 16 characters of the MD5 digest of the
    file id, which are 16 hexadecimal digits whatever the URL, sends
    nothing, and makes [getUrlFromHash] of that hash return the URL; every
    other hash resolves as before.  A hash that was never handed out
    resolves to null. *)
Theorem hashUrl_then_getUrlFromHash url fileId s :
  let hash := String.substring 0 16 (generateHash fileId) in
  let s1 := snd (Tg.hashUrl url fileId s) in
  fst (Tg.hashUrl url fileId s) = Resolved hash
  /\ String.length hash = 16%nat
  /\ (forall c, In c (list_ascii_of_string hash) ->
        In c (list_ascii_of_string "0123456789abcdef"))
  /\ Tg.getUrlFromHash hash s1 = (Resolved (Some url), s1)
  /\ (forall h, h <> hash ->
        fst (Tg.getUrlFromHash h s1) = fst (Tg.getUrlFromHash h s))
  /\ (forall h, Tg.urlMap (Tg.self s) !! h = None ->
        Tg.getUrlFromHash h s = (Resolved None, s))
  /\ Tg.sent s1 = Tg.sent s.
Proof.
  intros hash s1. split; [done|]. split.
  { unfold hash. by rewrite substring_length, generateHash_length. }
  split.
  { intros c Hc%substring_chars. revert c Hc.
    unfold generateHash, MD5.md5_hex.
    destruct (digest_bytes (MD5.bytes_of_string fileId)) as [_ Hrange].
    destruct (hex_digits _ Hrange) as [_ Hf]. intros c Hc.
    rewrite forallb_forall in Hf. specialize (Hf c Hc).
    apply existsb_exists in Hf as (x & Hx & Heq).
    apply Ascii.eqb_eq in Heq. by subst x. }
  split.
  { rewrite getUrlFromHash_run. subst s1. simpl. fold hash.
    by rewrite lookup_insert_eq. }
  split.
  { intros h Hne. rewrite !getUrlFromHash_run. subst s1. simpl. fold hash.
    by rewrite lookup_insert_ne. }
  split; [|done].
  intros h Hnone. by rewrite getUrlFromHash_run, Hnone.
Qed.

(** ** getFileUrl and refreshUrl *)

Lemma getFileUrl_run server fileId s :
  Tg.getFileUrl server fileId s
  = (Resolved
       match Tg.getFile_reply server (length (Tg.sent s)) fileId with
       | Tg.Ok filePath => Some (Tg.fileUrl (Tg.self s) ++ "/" ++ filePath)
       | _ => None
       end,
     Tg.send (Tg.GetFile (Tg.baseUrl (Tg.self s) ++ "/getFile") fileId) s).
Proof.
  unfold Tg.getFileUrl, Tg.get_getFile. rewrite bind_run.
  by destruct (Tg.getFile_reply server (length (Tg.sent s)) fileId).
Qed.



(** ** getStickerSet *)

Lemma getStickerSet_run server setName s :
  let cleanName := strip_addstickers setName in
  Tg.getStickerSet server setName s
  = match Tg.stickerCache (Tg.self s) !! cleanName with
    | Some stickerSet => (Resolved (Some stickerSet), s)
    | None =>
        let s1 :=
          Tg.send (Tg.GetStickerSet (Tg.baseUrl (Tg.self s) ++ "/getStickerSet")
                     cleanName) s in
        match Tg.getStickerSet_reply server (length (Tg.sent s)) cleanName with
        | Tg.Ok stickerSet =>
            (Resolved (Some stickerSet),
             Tg.set_stickerCache (insert cleanName stickerSet) s1)
        | Tg.NotOk => (Resolved None, s1)
        | Tg.Throws _ => (Rejected (ReferenceError "cleanName"), s1)
        end
    end.
Proof.
  intros cleanName. unfold Tg.getStickerSet. fold cleanName.
  rewrite bind_run, gets_run.
  destruct (Tg.stickerCache (Tg.self s) !! cleanName); [done|].
  unfold Tg.get_getStickerSet. rewrite bind_run.
  by destruct (Tg.getStickerSet_reply server (length (Tg.sent s)) cleanName).
Qed.

(** A sticker set that [getStickerSet] has returned is returned again
    for the same name without a request, whatever Telegram would answer
    now.  A call that does not return a set leaves the cache as it was,
    and when the request itself fails (no connection, or a status
    outside 2xx) the call does not return null but rejects with a
    ReferenceError: the [catch] block logs [cleanName], which is declared
    inside the [try] block. *)
Theorem getStickerSet_caches_successes server setName s :
  let cleanName := strip_addstickers setName in
  let r := fst (Tg.getStickerSet server setName s) in
  let s1 := snd (Tg.getStickerSet server setName s) in
  (forall stickerSet,
      r = Resolved (Some stickerSet) ->
      forall server' setName',
        strip_addstickers setName' = cleanName ->
        Tg.getStickerSet server' setName' s1 = (Resolved (Some stickerSet), s1))
  /\ (forall e, r = Rejected e -> e = ReferenceError "cleanName")
  /\ ((forall stickerSet, r <> Resolved (Some stickerSet)) ->
      Tg.stickerCache (Tg.self s1) = Tg.stickerCache (Tg.self s))
  /\ (Tg.stickerCache (Tg.self s) !! cleanName = None ->
      forall status,
        Tg.getStickerSet_reply server (length (Tg.sent s)) cleanName
        = Tg.Throws status ->
        r = Rejected (ReferenceError "cleanName"))
  /\ Tg.urlMap (Tg.self s1) = Tg.urlMap (Tg.self s).
Proof.
  intros cleanName r s1. subst r s1.
  pose proof (getStickerSet_run server setName s) as Hrun.
  cbv zeta in Hrun. fold cleanName in Hrun. rewrite Hrun. clear Hrun.
  destruct (Tg.stickerCache (Tg.self s) !! cleanName) as [cached|] eqn:Hc.
  { simpl. split.
    - intros set [= <-] server' setName' Hname.
      pose proof (getStickerSet_run server' setName' s) as Hrun.
      cbv zeta in Hrun. rewrite Hname, Hc in Hrun. done.
    - split; [done|].
      split; [by intros H; destruct (H cached)|]. done. }
  destruct (Tg.getStickerSet_reply server (length (Tg.sent s)) cleanName)
    as [set| |status] eqn:Hreply; cbv zeta; simpl.
  - split.
    + intros set' [= <-] server' setName' Hname.
      pose proof (getStickerSet_run server' setName'
                    (Tg.set_stickerCache (insert cleanName set)
                       (Tg.send (Tg.GetStickerSet
                                   (Tg.baseUrl (Tg.self s) ++ "/getStickerSet")
                                   cleanName) s))) as Hrun.
      cbv zeta in Hrun. rewrite Hname in Hrun. simpl in Hrun.
      by rewrite lookup_insert_eq in Hrun.
    + split; [done|].
      split; [by intros H; destruct (H set)|]. done.
  - split; [done|]. split; [done|]. done.
  - split; [done|]. split; [by intros e [= <-]|]. done.
Qed.

(** ** The name a sticker set is asked for under *)









(** ** getStickerInfo *)

Lemma getStickerInfo_run server setName index s :
  Tg.getStickerInfo server setName index s
  = match Tg.getStickerSet server setName s with
    | (Resolved (Some stickerSet), s1) =>
        match Tg.stickers stickerSet ≫= (fun l => Tg.at_index l index) with
        | Some sticker =>
            (Resolved
               match Tg.getFile_reply server (length (Tg.sent s1))
                       (Tg.file_id sticker) with
               | Tg.Ok filePath =>
                   Some (Tg.mkUrlEntry (Tg.fileUrl (Tg.self s1) ++ "/" ++ filePath)
                           (Tg.file_id sticker))
               | _ => None
               end,
             Tg.send (Tg.GetFile (Tg.baseUrl (Tg.self s1) ++ "/getFile")
                        (Tg.file_id sticker)) s1)
        | None => (Resolved None, s1)
        end
    | (Resolved None, s1) => (Resolved None, s1)
    | (Rejected e, s1) => (Rejected e, s1)
    end.
Proof.
  unfold Tg.getStickerInfo. rewrite bind_run.
  destruct (Tg.getStickerSet server setName s) as [[[set|]|e] s1]; try done.
  destruct (Tg.stickers set) as [l|]; simpl; [|done].
  destruct (Tg.at_index l index) as [sticker|]; [|done].
  rewrite bind_run, getFileUrl_run.
  by destruct (Tg.getFile_reply _ _ _).
Qed.

Lemma getStickerInfo_facts server setName index s :
  let cleanName := strip_addstickers setName in
  let r := fst (Tg.getStickerInfo server setName index s) in
  let s1 := snd (Tg.getStickerInfo server setName index s) in
  (forall info,
      r = Resolved (Some info) ->
      exists stickerSet l sticker filePath,
        Tg.stickerCache (Tg.self s1) !! cleanName = Some stickerSet
        /\ Tg.stickers stickerSet = Some l
        /\ 0 <= index < Z.of_nat (length l)
        /\ l !! Z.to_nat index = Some sticker
        /\ Tg.fileId info = Tg.file_id sticker
        /\ Tg.url info = Tg.fileUrl (Tg.self s) ++ "/" ++ filePath
        /\ last (Tg.sent s1)
           = Some (Tg.GetFile (Tg.baseUrl (Tg.self s) ++ "/getFile")
                     (Tg.file_id sticker)))
  /\ (forall stickerSet l,
        Tg.stickerCache (Tg.self s) !! cleanName = Some stickerSet ->
        Tg.stickers stickerSet = Some l ->
        index < 0 \/ Z.of_nat (length l) <= index ->
        r = Resolved None /\ s1 = s)
  /\ (forall e, r = Rejected e -> e = ReferenceError "cleanName").
Proof.
  intros cleanName r s1. subst r s1. rewrite getStickerInfo_run.
  pose proof (getStickerSet_run server setName s) as Hrun.
  cbv zeta in Hrun. fold cleanName in Hrun.
  split; [|split].
  - intros info.
    destruct (Tg.getStickerSet server setName s) as [[[set|]|e] s1] eqn:Hset;
      try done.
    destruct (Tg.stickers set) as [l|] eqn:Hl; simpl; [|done].
    unfold Tg.at_index. destruct (Z.ltb_spec index 0) as [Hneg|Hpos]; [done|].
    destruct (l !! Z.to_nat index) as [sticker|] eqn:Hidx; [|done].
    simpl.
    destruct (Tg.getFile_reply _ _ _) as [filePath| |status]; try done.
    intros [= <-].
    assert (Tg.stickerCache (Tg.self s1) !! cleanName = Some set
            /\ Tg.fileUrl (Tg.self s1) = Tg.fileUrl (Tg.self s)
            /\ Tg.baseUrl (Tg.self s1) = Tg.baseUrl (Tg.self s))
      as (Hcached & -> & ->).
    { destruct (Tg.stickerCache (Tg.self s) !! cleanName) as [cached|] eqn:Hc.
      - by injection Hrun as -> ->.
      - destruct (Tg.getStickerSet_reply _ _ _) as [set'| |]; try done.
        injection Hrun as -> ->. simpl. by rewrite lookup_insert_eq. }
    exists set, l, sticker, filePath. simpl.
    split; [done|]. split; [done|]. split.
    { apply lookup_lt_Some in Hidx. lia. }
    split; [done|]. split; [done|]. split; [done|].
    by rewrite last_snoc.
  - intros set l Hc Hl Hout. rewrite Hc in Hrun. rewrite Hrun, Hl. simpl.
    unfold Tg.at_index. destruct (Z.ltb_spec index 0) as [Hneg|Hpos]; [done|].
    rewrite lookup_ge_None_2; [done | lia].
  - intros e.
    destruct (Tg.getStickerSet server setName s) as [[[set|]|e'] s1] eqn:Hset.
    + destruct (Tg.stickers set ≫= _); done.
    + done.
    + intros [= <-].
      destruct (Tg.stickerCache (Tg.self s) !! cleanName); [done|].
      destruct (Tg.getStickerSet_reply _ _ _); congruence.
Qed.


(** ** getAllStickerUrls *)

Lemma omap_lookup_seq {A} (l : list A) :
  omap (fun i => l !! i) (seq 0 (length l)) = l.
Proof.
  induction l as [|x l IH] using rev_ind; [done|].
  rewrite length_app, Nat.add_1_r, seq_S, omap_app. simpl.
  rewrite lookup_app_r, Nat.sub_diag by done. simpl. f_equal.
  rewrite <- IH at 2. apply list_omap_ext.
  apply Forall2_same_length_lookup_2; [done|].
  intros i a b Ha Hb. assert (a = b) as <- by congruence.
  apply lookup_seq in Ha as [-> Hlt]. simpl. by rewrite lookup_app_l.
Qed.

Lemma arrived_Permutation {A} server first (l : list A) :
  omap (fun i => l !! i) (Tg.arrival_order server first (length l)) ≡ₚ l.
Proof.
  unfold Tg.arrival_order. rewrite merge_sort_Permutation.
  by rewrite omap_lookup_seq.
Qed.

Lemma on_answer_frame s arrived :
  let s1 := foldl Tg.on_answer s arrived in
  Tg.sent s1 = Tg.sent s
  /\ Tg.stickerCache (Tg.self s1) = Tg.stickerCache (Tg.self s)
  /\ Tg.fileUrl (Tg.self s1) = Tg.fileUrl (Tg.self s)
  /\ Tg.baseUrl (Tg.self s1) = Tg.baseUrl (Tg.self s).
Proof.
  induction arrived as [|x l IH] using rev_ind; [done|].
  rewrite foldl_snoc. destruct x as [e|]; [|done].
  by destruct IH as (? & ? & ? & ?).
Qed.

Lemma on_answer_lookup s arrived e :
  Some e ∈ arrived ->
  exists e',
    Some e' ∈ arrived
    /\ hash16 (Tg.entry_fileId e') = hash16 (Tg.entry_fileId e)
    /\ Tg.urlMap (Tg.self (foldl Tg.on_answer s arrived))
         !! hash16 (Tg.entry_fileId e)
       = Some (Tg.mkUrlEntry (Tg.realUrl e') (Tg.entry_fileId e')).
Proof.
  induction arrived as [|x l IH] using rev_ind; [by intros ?%elem_of_nil|].
  rewrite foldl_snoc. intros Hin.
  destruct x as [x|].
  - destruct (decide (hash16 (Tg.entry_fileId x) = hash16 (Tg.entry_fileId e)))
      as [Heq|Hne].
    + exists x. split; [set_solver|]. split; [done|].
      simpl. unfold hash16 in Heq. rewrite Heq. by rewrite lookup_insert_eq.
    + apply elem_of_app in Hin as [Hin|Hin%list_elem_of_singleton];
        [|congruence].
      destruct (IH Hin) as (e' & He' & Hh & Hl).
      exists e'. split; [set_solver|]. split; [done|].
      simpl. unfold hash16 in Hne. by rewrite lookup_insert_ne.
  - apply elem_of_app in Hin as [Hin|Hin%list_elem_of_singleton]; [|done].
    destruct (IH Hin) as (e' & He' & Hh & Hl).
    exists e'. split; [set_solver|]. done.
Qed.

Lemma sticker_entry_Some fileUrl useProxy sticker reply e :
  Tg.sticker_entry fileUrl useProxy sticker reply = Some e ->
  Tg.entry_fileId e = Tg.file_id sticker
  /\ (exists filePath, Tg.realUrl e = fileUrl ++ "/" ++ filePath)
  /\ Tg.entry_url e
     = if useProxy then "/proxy/sticker?id=" ++ hash16 (Tg.entry_fileId e)
       else Tg.realUrl e.
Proof.
  unfold Tg.sticker_entry. destruct reply as [filePath| |]; try done.
  intros [= <-]. simpl. split; [done|]. split; [by exists filePath|].
  by destruct useProxy.
Qed.

Lemma entries_sublist (f : nat -> Tg.Sticker -> option Tg.StickerEntry) l :
  (forall i sticker e, f i sticker = Some e ->
     Tg.entry_fileId e = Tg.file_id sticker) ->
  sublist (Tg.entry_fileId <$> omap id (imap f l)) (Tg.file_id <$> l).
Proof.
  revert f. induction l as [|x l IH]; intros f Hf; [done|].
  rewrite imap_cons. cbn [omap list_omap].
  destruct (f 0%nat x) as [e|] eqn:He; simpl.
  - rewrite (Hf _ _ _ He). apply sublist_skip. apply IH.
    intros i sticker e'. apply Hf.
  - apply sublist_cons. apply IH. intros i sticker e'. apply Hf.
Qed.

Lemma unique_key {A B} (f : A -> B) (l : list A) x y :
  NoDup (f <$> l) -> x ∈ l -> y ∈ l -> f x = f y -> x = y.
Proof.
  induction l as [|a l IH]; [by intros _ ?%elem_of_nil|].
  rewrite fmap_cons, NoDup_cons. intros [Ha Hl].
  intros [->|Hx]%elem_of_cons [->|Hy]%elem_of_cons Heq; auto.
  - destruct Ha. rewrite Heq. by apply list_elem_of_fmap_2.
  - destruct Ha. rewrite <- Heq. by apply list_elem_of_fmap_2.
Qed.

Lemma getAllStickerUrls_entries server setName useProxy s :
  let s1 := snd (Tg.getAllStickerUrls server setName useProxy s) in
  match fst (Tg.getAllStickerUrls server setName useProxy s) with
  | Rejected e => e = ReferenceError "cleanName"
  | Resolved entries =>
      (forall e,
          e ∈ entries ->
          (exists filePath,
              Tg.realUrl e = Tg.fileUrl (Tg.self s) ++ "/" ++ filePath)
          /\ Tg.entry_url e
             = (if useProxy
                then "/proxy/sticker?id="
                     ++ String.substring 0 16 (generateHash (Tg.entry_fileId e))
                else Tg.realUrl e)
          /\ exists e',
               e' ∈ entries
               /\ String.substring 0 16 (generateHash (Tg.entry_fileId e'))
                  = String.substring 0 16 (generateHash (Tg.entry_fileId e))
               /\ Tg.getUrlFromHash
                    (String.substring 0 16 (generateHash (Tg.entry_fileId e))) s1
                  = (Resolved (Some (Tg.realUrl e')), s1))
      /\ (NoDup ((fun e => String.substring 0 16 (generateHash (Tg.entry_fileId e)))
                   <$> entries) ->
          forall e,
            e ∈ entries ->
            Tg.getUrlFromHash
              (String.substring 0 16 (generateHash (Tg.entry_fileId e))) s1
            = (Resolved (Some (Tg.realUrl e)), s1))
      /\ (entries = []
          \/ exists stickerSet l before,
               Tg.stickerCache (Tg.self s1) !! strip_addstickers setName
               = Some stickerSet
               /\ Tg.stickers stickerSet = Some l
               /\ sublist (Tg.entry_fileId <$> entries) (Tg.file_id <$> l)
               /\ Tg.sent s1
                  = (before
                     ++ ((fun sticker =>
                            Tg.GetFile (Tg.baseUrl (Tg.self s) ++ "/getFile")
                              (Tg.file_id sticker)) <$> l))%list)
  end.
Proof.
  intros s1. subst s1. unfold Tg.getAllStickerUrls. rewrite bind_run.
  pose proof (getStickerSet_run server setName s) as Hrun. cbv zeta in Hrun.
  destruct (Tg.getStickerSet server setName s) as [[[set|]|e] s0] eqn:Hset.
  3:{ simpl. destruct (Tg.stickerCache (Tg.self s) !! _); [done|].
      destruct (Tg.getStickerSet_reply _ _ _); congruence. }
  2:{ rewrite ret_run. simpl. split; [by intros e ?%elem_of_nil|].
      split; [by intros _ e ?%elem_of_nil | by left]. }
  assert (Tg.stickerCache (Tg.self s0) !! strip_addstickers setName = Some set
          /\ Tg.fileUrl (Tg.self s0) = Tg.fileUrl (Tg.self s)
          /\ Tg.baseUrl (Tg.self s0) = Tg.baseUrl (Tg.self s))
    as (Hcached & HfileUrl & HbaseUrl).
  { destruct (Tg.stickerCache (Tg.self s) !! _) as [cached|] eqn:Hc.
    - by injection Hrun as -> ->.
    - destruct (Tg.getStickerSet_reply _ _ _) as [set'| |]; try done.
      injection Hrun as -> ->. simpl. by rewrite lookup_insert_eq. }
  clear Hrun Hset.
  destruct (Tg.stickers set) as [l|] eqn:Hl.
  2:{ rewrite ret_run. simpl. split; [by intros e ?%elem_of_nil|].
      split; [by intros _ e ?%elem_of_nil | by left]. }
  rewrite bind_run. unfold Tg.all_sticker_entries. cbv zeta.
  set (results := imap _ l).
  set (requested := Tg.mkState _ _).
  set (arrived := omap (fun i => results !! i) _).
  rewrite ret_run. cbn [fst snd].
  assert (arrived ≡ₚ results) as Hperm.
  { subst arrived. replace (length l) with (length results)
      by (subst results; apply length_imap).
    apply arrived_Permutation. }
  destruct (on_answer_frame requested arrived) as (Hsent & Hcache & _ & _).
  cbv zeta in Hsent, Hcache.
  assert (forall e, e ∈ omap id results ->
            exists e',
              e' ∈ omap id results
              /\ hash16 (Tg.entry_fileId e') = hash16 (Tg.entry_fileId e)
              /\ Tg.getUrlFromHash (hash16 (Tg.entry_fileId e))
                   (foldl Tg.on_answer requested arrived)
                 = (Resolved (Some (Tg.realUrl e')),
                    foldl Tg.on_answer requested arrived)) as Hresolve.
  { intros e (o & Ho & Hid)%list_elem_of_omap. simpl in Hid. subst o.
    rewrite <- Hperm in Ho.
    destruct (on_answer_lookup requested arrived e Ho) as (e' & He' & Hh & Hlook).
    exists e'. split.
    - apply list_elem_of_omap. exists (Some e'). by rewrite <- Hperm.
    - split; [done|]. by rewrite getUrlFromHash_run, Hlook. }
  split; [|split].
  - intros e He. pose proof He as (o & Ho & Hid)%list_elem_of_omap.
    simpl in Hid. subst o.
    apply elem_of_lookup_imap_1 in Ho as (i & sticker & Hentry & _).
    symmetry in Hentry.
    apply sticker_entry_Some in Hentry as (_ & Hreal & Hshown).
    rewrite HfileUrl in Hreal. split; [exact Hreal|]. split; [exact Hshown|].
    apply Hresolve, He.
  - intros Hnodup e He.
    destruct (Hresolve e He) as (e' & He' & Hh & Hget).
    assert (e = e') as <-; [|exact Hget].
    eapply unique_key; [exact Hnodup | done | done |]. symmetry. exact Hh.
  - right. exists set, l, (Tg.sent s0).
    split; [by rewrite Hcache|]. split; [done|]. split.
    + apply entries_sublist. intros i sticker e He.
      by apply sticker_entry_Some in He as (? & _).
    + rewrite Hsent. subst requested. simpl. by rewrite HbaseUrl.
Qed.


(** * The picker server *)

Lemma on_telegram_run {A} (m : Run Tg.State A) s :
  Picker.on_telegram m s
  = (fst (m (Picker.telegram s)),
     Picker.mkState (Picker.self s) (snd (m (Picker.telegram s)))
       (Picker.files s) (Picker.customPacksFile s) (Picker.outbox s)
       (Picker.reads s)).
Proof. unfold Picker.on_telegram. by destruct (m (Picker.telegram s)). Qed.

Lemma on_files_run {A} (m : M A) s :
  Picker.on_files m s
  = (match fst (m (Picker.files s)) with
     | Returned a => Resolved a
     | Thrown e => Rejected (ConversionError e)
     end,
     Picker.mkState (Picker.self s) (Picker.telegram s) (snd (m (Picker.files s)))
       (Picker.customPacksFile s) (Picker.outbox s) (Picker.reads s)).
Proof. unfold Picker.on_files. by destruct (m (Picker.files s)). Qed.

Lemma getCustomPacks_run s :
  Picker.getCustomPacks s
  = (Resolved match Picker.customPacksFile s with
              | Picker.Packs l => l
              | _ => []
              end, s).
Proof.
  unfold Picker.getCustomPacks. rewrite bind_run, gets_run.
  by destruct (Picker.customPacksFile s).
Qed.

Lemma or_null_Some x y : or_null x = Some y -> x = Some y /\ y <> "".
Proof. destruct x as [[|c x]|]; simpl; try done. by intros [= <-]. Qed.


(** ** GET /api/pack/:name *)

(** The first answer of /api/pack/:name for a pack holds, for each
    sticker, its proxy URL, emoji and the two flags only.  When that
    answer lists a sticker at all, every later request for the pack is
    answered from the picker's cache, without a request to Telegram and
    whatever Telegram would say now, and the answer is the cached array
    itself: each element carries the fields of the first answer and also
    [realUrl], the download URL with the bot token in it, and [fileId].
    An empty answer is not cached.  The route rejects only with the
    ReferenceError of [getStickerSet]. *)
Theorem api_pack_later_answers_are_not_stripped out out' packName s :
  match Picker.stickerCache (Picker.self s) !! packName with
  | Some cached =>
      Picker.api_pack out packName s
      = (Resolved (Picker.ok (Picker.JsonStickers cached)), s)
  | None =>
      match Picker.api_pack out packName s with
      | (Resolved r, s1) =>
          exists stickers,
            r = Picker.ok (Picker.JsonSafeStickers
                             ((fun e => (Tg.entry_url e, Tg.entry_emoji e,
                                         Tg.isAnimated e, Tg.isVideo e))
                                <$> stickers))
            /\ (forall e, e ∈ stickers ->
                  Tg.entry_url e = "/proxy/sticker?id=" ++ hash16 (Tg.entry_fileId e)
                  /\ exists filePath,
                       Tg.realUrl e
                       = Tg.fileUrl (Tg.self (Picker.telegram s)) ++ "/" ++ filePath)
            /\ (stickers <> [] ->
                Picker.api_pack out' packName s1
                = (Resolved (Picker.ok (Picker.JsonStickers stickers)), s1))
            /\ (stickers = [] ->
                Picker.stickerCache (Picker.self s1)
                = Picker.stickerCache (Picker.self s))
      | (Rejected e, _) => e = ReferenceError "cleanName"
      end
  end.
Proof.
  unfold Picker.api_pack at 1 2. rewrite !bind_run, gets_run.
  destruct (Picker.stickerCache (Picker.self s) !! packName) as [cached|] eqn:Hc;
    [done|].
  rewrite bind_run, getCustomPacks_run, bind_run, on_telegram_run.
  set (name := Picker.telegram_pack_name _ packName).
  pose proof (getAllStickerUrls_entries (Picker.telegramServer out) name true
                (Picker.telegram s)) as Hentries.
  cbv zeta in Hentries.
  destruct (Tg.getAllStickerUrls _ name true (Picker.telegram s))
    as [[stickers|e] t1]; simpl in *; [|done].
  destruct Hentries as (Hall & _ & _).
  destruct stickers as [|e stickers].
  { exists []. split; [done|]. split; [by intros e ?%elem_of_nil|]. done. }
  rewrite bind_run. change (0 <? length (e :: stickers))%nat with true.
  cbv iota. rewrite modify_run, ret_run.
  exists (e :: stickers). split; [done|]. split.
  { intros e' He'. destruct (Hall e' He') as ((filePath & Hreal) & Hurl & _).
    split; [exact Hurl | by exists filePath]. }
  split; [|done].
  intros _. unfold Picker.api_pack. rewrite bind_run, gets_run. simpl.
  by rewrite lookup_insert_eq.
Qed.

(** ** GET /proxy/sticker *)


Lemma request_run {A} r (answer : nat -> A) s :
  Picker.request r answer s
  = (Resolved (answer (length (Picker.outbox s))),
     Picker.mkState (Picker.self s) (Picker.telegram s) (Picker.files s)
       (Picker.customPacksFile s) (Picker.outbox s ++ [r]) (Picker.reads s)).
Proof. reflexivity. Qed.




(** ** POST /api/send *)

Lemma postFile_run out bot sessionId session id s :
  let n := length (Picker.outbox s) in
  let with_post post :=
    Picker.mkState (Picker.self s) (Picker.telegram s) (Picker.files s)
      (Picker.customPacksFile s) (Picker.outbox s ++ [post]) (Picker.reads s) in
  Picker.postFile out bot sessionId session id s
  = match or_null (Picker.responseUrl session) with
    | Some url =>
        let post :=
          Picker.PostToResponseUrl url
            ("![sticker](" ++ (Picker.serverUrl bot ++ "/api/v4/files/" ++ id)
             ++ ")") in
        if Picker.responseUrlDead session then (Resolved true, s)
        else if Picker.responseUrl_ok out n url then (Resolved false, with_post post)
        else
          (Resolved true,
           Picker.set_sessions (fun m =>
             match map_get m sessionId with
             | Some session =>
                 map_set m sessionId
                   (Picker.mkSession (Picker.channelId session)
                      (Picker.userId session) (Picker.username session)
                      (Picker.rootId session) (Picker.responseUrl session)
                      true (Picker.created session))
             | None => m
             end) (with_post post))
    | None =>
        let post :=
          Picker.FileAsPost (Picker.channelId session) id (Picker.rootId session) in
        (if Picker.sendFileAsPost_ok out n
         then Resolved false else Rejected PostFailed,
         with_post post)
    end.
Proof.
  cbv zeta. unfold Picker.postFile.
  destruct (or_null (Picker.responseUrl session)) as [url|].
  - destruct (Picker.responseUrlDead session); [done|].
    rewrite bind_run, request_run.
    by destruct (Picker.responseUrl_ok out _ url).
  - rewrite bind_run, request_run.
    by destruct (Picker.sendFileAsPost_ok out _).
Qed.

Lemma map_get_set {V} (m : list (string * V)) k v k' :
  map_get (map_set m k v) k' = if same k k' then Some v else map_get m k'.
Proof.
  unfold same. induction m as [|[k0 v0] m IH]; simpl.
  - unfold same. by destruct (bool_decide (k = k')).
  - unfold same in *. destruct (bool_decide_reflect (k0 = k)) as [->|Hne]; simpl.
    + unfold same. by destruct (bool_decide (k = k')).
    + unfold same. rewrite IH.
      destruct (bool_decide_reflect (k0 = k')) as [->|Hne']; [|done].
      by rewrite bool_decide_eq_false_2.
Qed.

Lemma upload_and_post_run out bot sessionId session filePath filename s :
  let n := length (Picker.outbox s) in
  let upload :=
    Picker.Upload (Picker.channelId session) filePath filename in
  let with_outbox l :=
    Picker.mkState (Picker.self s) (Picker.telegram s) (Picker.files s)
      (Picker.customPacksFile s) l (Picker.reads s) in
  let expired :=
    Picker.mkResponse 410
      (Picker.JsonExpired "session_expired"
         "Session expired. Please run /sticker again.") in
  Picker.upload_and_post out bot sessionId session filePath filename s
  = match Picker.uploadFile out n filePath filename with
    | None =>
        (Rejected UploadFailed, with_outbox (Picker.outbox s ++ [upload])%list)
    | Some id =>
        let posted :=
          with_outbox (Picker.outbox s ++ [upload; post_of bot session id])%list in
        match or_null (Picker.responseUrl session) with
        | Some url =>
            if Picker.responseUrlDead session
            then (Resolved expired,
                  with_outbox (Picker.outbox s ++ [upload])%list)
            else if post_accepted out session (S n)
            then (Resolved (Picker.ok Picker.JsonSuccess), posted)
            else
              (Resolved expired,
               Picker.set_sessions (fun m =>
                 match map_get m sessionId with
                 | Some session =>
                     map_set m sessionId
                       (Picker.mkSession (Picker.channelId session)
                          (Picker.userId session) (Picker.username session)
                          (Picker.rootId session) (Picker.responseUrl session)
                          true (Picker.created session))
                 | None => m
                 end) posted)
        | None =>
            (if post_accepted out session (S n)
             then Resolved (Picker.ok Picker.JsonSuccess)
             else Rejected PostFailed,
             posted)
        end
    end.
Proof.
  cbv zeta. unfold Picker.upload_and_post, Picker.upload, post_of, post_accepted.
  rewrite !bind_run, request_run.
  destruct (Picker.uploadFile out _ filePath filename) as [id|]; [|done].
  cbv beta iota. rewrite ret_run. cbv beta iota.
  rewrite bind_run, postFile_run. cbv zeta.
  cbn [Picker.outbox Picker.self Picker.telegram Picker.files
       Picker.customPacksFile Picker.reads].
  rewrite length_app, Nat.add_1_r. cbn [length].
  destruct (or_null (Picker.responseUrl session)) as [url|].
  - destruct (Picker.responseUrlDead session); [done|].
    destruct (Picker.responseUrl_ok out _ url);
      rewrite ?bind_run, ?modify_run, ?ret_run, <- List.app_assoc; done.
  - destruct (Picker.sendFileAsPost_ok out _);
      rewrite ?ret_run, <- List.app_assoc; done.
Qed.

(** The stages of a request, one after the other. *)
Lemma api_send_stages out bot packName stickerIndex sessionId s :
  let result := Picker.api_send out bot packName stickerIndex sessionId s in
  let env := Picker.converters out in
  let this := Picker.self s in
  let sticker := "sticker_" ++ packName ++ "_" ++ String_of_Z stickerIndex in
  let failed := Picker.mkResponse 500 (Picker.JsonError "Failed to convert sticker") in
  match map_get (Picker.sessions this) sessionId with
  | None =>
      result = (Resolved (Picker.mkResponse 400 (Picker.JsonError "Invalid session")), s)
  | Some session =>
      let name :=
        Picker.telegram_pack_name
          match Picker.customPacksFile s with
          | Picker.Packs l => l
          | _ => []
          end packName in
      let asked :=
        Tg.getStickerInfo (Picker.telegramServer out) name stickerIndex
          (Picker.telegram s) in
      let at_files w :=
        Picker.mkState this (snd asked) w (Picker.customPacksFile s)
          (Picker.outbox s) (Picker.reads s) in
      match fst asked with
      | Rejected e => result = (Rejected e, at_files (Picker.files s))
      | Resolved None =>
          result
          = (Resolved (Picker.mkResponse 400
                         (Picker.JsonError "Failed to get sticker URL")),
             at_files (Picker.files s))
      | Resolved (Some info) =>
          let url := Tg.url info in
          let fileId := Tg.fileId info in
          let gif : option string * World :=
            match includes url ".webm", Picker.webmHandler this,
                  includes url ".tgs", Picker.tgsHandler this with
            | true, Some h, _, _ =>
                let run := convertWebmToGif h env url (Some fileId) (Picker.files s) in
                (match fst run with Returned p => Some p | Thrown _ => None end,
                 snd run)
            | _, _, true, Some h =>
                let run := convertTgsToGif h env url (Some fileId) (Picker.files s) in
                (match fst run with Returned p => p | Thrown _ => None end,
                 snd run)
            | _, _, _, _ => (None, Picker.files s)
            end in
          match or_null (fst gif) with
          | Some p =>
              result
              = Picker.upload_and_post out bot sessionId session p
                  (sticker ++ ".gif") (at_files (snd gif))
          | None =>
              match Picker.staticHandler this, includes url ".tgs" with
              | Some h, false =>
                  let run := resizeStaticImage h env url (snd gif) in
                  match fst run with
                  | Returned p =>
                      result
                      = match Picker.upload_and_post out bot sessionId session p
                                (sticker ++ ".webp") (at_files (snd run)) with
                        | (Resolved response, s1) => (Resolved response, s1)
                        | (Rejected _, s1) => (Resolved failed, s1)
                        end
                  | Thrown _ => result = (Resolved failed, at_files (snd run))
                  end
              | _, _ => result = (Resolved failed, at_files (snd gif))
              end
          end
      end
  end.
Proof.
  cbv zeta. unfold Picker.api_send. rewrite bind_run, gets_run.
  destruct (map_get (Picker.sessions (Picker.self s)) sessionId) as [session|];
    [|done].
  rewrite bind_run, getCustomPacks_run, bind_run, on_telegram_run.
  set (name := Picker.telegram_pack_name _ packName).
  destruct (Tg.getStickerInfo (Picker.telegramServer out) name stickerIndex
              (Picker.telegram s)) as [[[info|]|e] t1]; cbn [fst snd]; try done.
  rewrite bind_run, gets_run. cbn [Picker.self Picker.files].
  rewrite bind_run.
  set (s0 := Picker.mkState _ _ _ _ _ _).
  assert (forall (m : M string),
            try_ (p ← Picker.on_files m; mret (Some p)) (fun _ => mret None) s0
            = (Resolved match fst (m (Picker.files s)) with
                        | Returned p => Some p
                        | Thrown _ => None
                        end,
               Picker.mkState (Picker.self s) t1 (snd (m (Picker.files s)))
                 (Picker.customPacksFile s) (Picker.outbox s) (Picker.reads s)))
    as Hwebm.
  { intros m. rewrite try_run, bind_run, on_files_run. subst s0.
    cbn [Picker.files]. by destruct (m (Picker.files s)) as [[p|e] w]. }
  assert (forall (m : M (option string)),
            try_ (Picker.on_files m) (fun _ => mret None) s0
            = (Resolved match fst (m (Picker.files s)) with
                        | Returned p => p
                        | Thrown _ => None
                        end,
               Picker.mkState (Picker.self s) t1 (snd (m (Picker.files s)))
                 (Picker.customPacksFile s) (Picker.outbox s) (Picker.reads s)))
    as Htgs.
  { intros m. rewrite try_run, on_files_run. subst s0.
    cbn [Picker.files]. by destruct (m (Picker.files s)) as [[p|e] w]. }
  assert (forall gifPath w,
            (match or_null gifPath with
             | Some gifFilePath =>
                 Picker.upload_and_post out bot sessionId session gifFilePath
                   (("sticker_" ++ packName ++ "_" ++ String_of_Z stickerIndex)
                    ++ ".gif")
             | None =>
                 answered ←
                   match Picker.staticHandler (Picker.self s),
                         includes (Tg.url info) ".tgs" with
                   | Some staticHandler, false =>
                       try_
                         (resizedPath ← Picker.on_files
                            (resizeStaticImage staticHandler (Picker.converters out)
                               (Tg.url info));
                          response ← Picker.upload_and_post out bot sessionId
                                       session resizedPath
                                       (("sticker_" ++ packName ++ "_"
                                         ++ String_of_Z stickerIndex) ++ ".webp");
                          mret (Some response))
                         (fun _ => mret None)
                   | _, _ => mret None
                   end;
                 match answered with
                 | Some response => mret response
                 | None =>
                     mret (Picker.mkResponse 500
                             (Picker.JsonError "Failed to convert sticker"))
                 end
             end)
              (Picker.mkState (Picker.self s) t1 w (Picker.customPacksFile s)
                 (Picker.outbox s) (Picker.reads s))
            = match or_null gifPath with
              | Some p =>
                  Picker.upload_and_post out bot sessionId session p
                    (("sticker_" ++ packName ++ "_" ++ String_of_Z stickerIndex)
                     ++ ".gif")
                    (Picker.mkState (Picker.self s) t1 w (Picker.customPacksFile s)
                       (Picker.outbox s) (Picker.reads s))
              | None =>
                  match Picker.staticHandler (Picker.self s),
                        includes (Tg.url info) ".tgs" with
                  | Some h, false =>
                      let run :=
                        resizeStaticImage h (Picker.converters out) (Tg.url info) w in
                      match fst run with
                      | Returned p =>
                          match Picker.upload_and_post out bot sessionId session p
                                  (("sticker_" ++ packName ++ "_"
                                    ++ String_of_Z stickerIndex) ++ ".webp")
                                  (Picker.mkState (Picker.self s) t1 (snd run)
                                     (Picker.customPacksFile s) (Picker.outbox s)
                                     (Picker.reads s)) with
                          | (Resolved response, s1) => (Resolved response, s1)
                          | (Rejected _, s1) =>
                              (Resolved (Picker.mkResponse 500
                                           (Picker.JsonError "Failed to convert sticker")),
                               s1)
                          end
                      | Thrown _ =>
                          (Resolved (Picker.mkResponse 500
                                       (Picker.JsonError "Failed to convert sticker")),
                           Picker.mkState (Picker.self s) t1 (snd run)
                             (Picker.customPacksFile s) (Picker.outbox s)
                             (Picker.reads s))
                      end
                  | _, _ =>
                      (Resolved (Picker.mkResponse 500
                                   (Picker.JsonError "Failed to convert sticker")),
                       Picker.mkState (Picker.self s) t1 w (Picker.customPacksFile s)
                         (Picker.outbox s) (Picker.reads s))
                  end
              end) as Hrest.
  { intros gifPath w. destruct (or_null gifPath) as [p|]; [done|].
    rewrite bind_run.
    destruct (Picker.staticHandler (Picker.self s)) as [h|];
      [|by destruct (includes (Tg.url info) ".tgs")].
    destruct (includes (Tg.url info) ".tgs"); [done|].
    rewrite try_run, bind_run, on_files_run. cbn [Picker.files]. cbv zeta.
    destruct (resizeStaticImage h (Picker.converters out) (Tg.url info) w)
      as [[p|e] w1]; cbn [fst snd]; [|done].
    rewrite bind_run.
    by destruct (Picker.upload_and_post _ _ _ _ _ _ _) as [[response|e] s1]. }
  destruct (includes (Tg.url info) ".webm") eqn:Hiw,
           (Picker.webmHandler (Picker.self s)) as [wh|] eqn:Hwh,
           (includes (Tg.url info) ".tgs") eqn:Hit,
           (Picker.tgsHandler (Picker.self s)) as [th|] eqn:Hth;
    rewrite ?Hwebm, ?Htgs, ?ret_run; cbn [fst snd]; subst s0;
    rewrite Hrest; try reflexivity.
  all: destruct (or_null _) as [p|]; [reflexivity|].
  all: destruct (Picker.staticHandler (Picker.self s)) as [sh|]; try reflexivity.
  all: cbv zeta; by destruct (fst (resizeStaticImage sh _ _ _)).
Qed.

Lemma send_frame_refl sessionId s : send_frame sessionId s s.
Proof. by repeat split. Qed.

Lemma send_frame_trans sessionId s1 s2 s3 :
  send_frame sessionId s1 s2 -> send_frame sessionId s2 s3 ->
  send_frame sessionId s1 s3.
Proof.
  intros (A1 & A2 & A3 & A4 & A5 & A6 & A7 & A8)
         (B1 & B2 & B3 & B4 & B5 & B6 & B7 & B8).
  repeat split; try congruence.
  intros id Hid. by rewrite B8, A8.
Qed.

(** The upload and the post that end a request, from a state in which
    the request's session is [session]. *)
Lemma upload_and_post_facts out bot sessionId session filePath filename s :
  let result :=
    Picker.upload_and_post out bot sessionId session filePath filename s in
  let s1 := snd result in
  let n := length (Picker.outbox s) in
  let expired :=
    Picker.mkResponse 410
      (Picker.JsonExpired "session_expired"
         "Session expired. Please run /sticker again.") in
  map_get (Picker.sessions (Picker.self s)) sessionId = Some session ->
  exists posts,
    Picker.outbox s1
    = (Picker.outbox s
       ++ Picker.Upload (Picker.channelId session) filePath filename :: posts)%list
    /\ Picker.telegram s1 = Picker.telegram s
    /\ Picker.files s1 = Picker.files s
    /\ send_frame sessionId s s1
    /\ match Picker.uploadFile out n filePath filename, posts with
       | None, [] =>
           fst result = Rejected UploadFailed
           /\ Picker.sessions (Picker.self s1) = Picker.sessions (Picker.self s)
       | Some id, [] =>
           or_null (Picker.responseUrl session) <> None
           /\ Picker.responseUrlDead session = true
           /\ fst result = Resolved expired
           /\ Picker.sessions (Picker.self s1) = Picker.sessions (Picker.self s)
       | Some id, [post] =>
           post = post_of bot session id
           /\ (or_null (Picker.responseUrl session) = None
               \/ Picker.responseUrlDead session = false)
           /\ if post_accepted out session (S n)
              then fst result = Resolved (Picker.ok Picker.JsonSuccess)
                   /\ Picker.sessions (Picker.self s1)
                      = Picker.sessions (Picker.self s)
              else match or_null (Picker.responseUrl session) with
                   | Some _ =>
                       fst result = Resolved expired
                       /\ exists session',
                            map_get (Picker.sessions (Picker.self s1)) sessionId
                            = Some session'
                            /\ Picker.responseUrlDead session' = true
                            /\ Picker.responseUrl session'
                               = Picker.responseUrl session
                   | None =>
                       fst result = Rejected PostFailed
                       /\ Picker.sessions (Picker.self s1)
                          = Picker.sessions (Picker.self s)
                   end
       | _, _ => False
       end.
Proof.
  intros result s1 n expired Hsession. subst result s1.
  rewrite upload_and_post_run. cbv zeta. fold n.
  destruct (Picker.uploadFile out n filePath filename) as [id|].
  2:{ exists []. cbn [fst snd Picker.outbox Picker.telegram Picker.files].
      split_and!; try done; apply send_frame_refl. }
  destruct (or_null (Picker.responseUrl session)) as [url|] eqn:Hurl.
  - destruct (Picker.responseUrlDead session) eqn:Hdead.
    { exists []. cbn [fst snd Picker.outbox Picker.telegram Picker.files].
      split_and!; try done; apply send_frame_refl. }
    exists [post_of bot session id].
    destruct (post_accepted out session (S n)).
    { cbn [fst snd Picker.outbox Picker.telegram Picker.files].
      split_and!; try done; try apply send_frame_refl; by right. }
    cbn [fst snd]. unfold Picker.set_sessions, Picker.set_self.
    cbn [Picker.outbox Picker.telegram Picker.files Picker.self
         Picker.customPacksFile Picker.reads Picker.sessions].
    rewrite Hsession.
    split_and!; try done; [|by right|].
    + repeat split; try done. cbn. intros id' Hne. rewrite map_get_set.
      unfold same. by rewrite bool_decide_eq_false_2.
    + eexists. rewrite map_get_set. unfold same.
      rewrite bool_decide_eq_true_2 by done. done.
  - exists [post_of bot session id].
    cbn [fst snd Picker.outbox Picker.telegram Picker.files].
    split_and!; try done; try apply send_frame_refl; try (by left).
    by destruct (post_accepted out session (S n)).
Qed.

(** A request to /api/send sends at most one upload and, after it, at
    most one post, and nothing else.  The upload goes to the channel of
    the request's session and is named after the pack and the index, with
    ".gif" for a converted animation and ".webp" for a resized image.
    The post goes out only when the upload brought a file id, and it
    carries that id: as a link to the file on the Mattermost server when
    the session has a response URL, else as a file post of the bot; the
    Telegram URL is never posted.  The answer is success exactly when the
    post was accepted.  A failed upload or a failed post of the bot is
    answered 500 for a resized image, but for a converted animation it
    rejects, so that request is never answered.  The request changes no
    other session, no pack and none of the picker's caches. *)
Theorem api_send_uploads_once_and_posts_the_upload
    out bot packName stickerIndex sessionId s :
  let result := Picker.api_send out bot packName stickerIndex sessionId s in
  let s1 := snd result in
  let first := length (Picker.outbox s) in
  let sticker := "sticker_" ++ packName ++ "_" ++ String_of_Z stickerIndex in
  let failed :=
    Picker.mkResponse 500 (Picker.JsonError "Failed to convert sticker") in
  let expired :=
    Picker.mkResponse 410
      (Picker.JsonExpired "session_expired"
         "Session expired. Please run /sticker again.") in
  exists new,
    Picker.outbox s1 = (Picker.outbox s ++ new)%list
    /\ send_frame sessionId s s1
    /\ match new with
       | [] =>
           match map_get (Picker.sessions (Picker.self s)) sessionId with
           | None =>
               result
               = (Resolved (Picker.mkResponse 400
                              (Picker.JsonError "Invalid session")), s)
           | Some _ =>
               fst result
               = Resolved (Picker.mkResponse 400
                             (Picker.JsonError "Failed to get sticker URL"))
               \/ fst result = Resolved failed
               \/ fst result = Rejected (ReferenceError "cleanName")
           end
       | Picker.Upload channel filePath filename :: posts =>
           exists session (animation : bool),
             map_get (Picker.sessions (Picker.self s)) sessionId = Some session
             /\ channel = Picker.channelId session
             /\ filename = sticker ++ (if animation then ".gif" else ".webp")
             /\ let unhandled e :=
                  if animation then Rejected e else Resolved failed in
                match Picker.uploadFile out first filePath filename, posts with
                | None, [] => fst result = unhandled UploadFailed
                | Some id, [] =>
                    or_null (Picker.responseUrl session) <> None
                    /\ Picker.responseUrlDead session = true
                    /\ fst result = Resolved expired
                | Some id, [post] =>
                    post = post_of bot session id
                    /\ fst result
                       = if post_accepted out session (S first)
                         then Resolved (Picker.ok Picker.JsonSuccess)
                         else match or_null (Picker.responseUrl session) with
                              | Some _ => Resolved expired
                              | None => unhandled PostFailed
                              end
                | _, _ => False
                end
       | _ => False
       end.
Proof.
  intros result s1 first sticker failed expired.
  pose proof (api_send_stages out bot packName stickerIndex sessionId s) as Hst.
  cbv zeta in Hst. fold result sticker failed in Hst.
  destruct (map_get (Picker.sessions (Picker.self s)) sessionId)
    as [session|] eqn:Hsession.
  2:{ exists []. subst s1. rewrite Hst, app_nil_r.
      split_and!; try done; apply send_frame_refl. }
  set (name := Picker.telegram_pack_name _ packName) in Hst.
  pose proof (getStickerInfo_facts (Picker.telegramServer out) name stickerIndex
                (Picker.telegram s)) as (_ & _ & Hrej).
  destruct (Tg.getStickerInfo (Picker.telegramServer out) name stickerIndex
              (Picker.telegram s)) as [asked t1].
  cbn [fst snd] in Hst, Hrej.
  assert (forall w,
            send_frame sessionId s
              (Picker.mkState (Picker.self s) t1 w (Picker.customPacksFile s)
                 (Picker.outbox s) (Picker.reads s))) as Hframe
      by (by intros w; repeat split).
  destruct asked as [[info|]|e].
  3:{ exists []. subst s1. rewrite Hst, app_nil_r. specialize (Hrej e eq_refl).
      subst e. split_and!; try done;
        first [apply Hframe | by left | by right; left | by right; right]. }
  2:{ exists []. subst s1. rewrite Hst, app_nil_r.
      split_and!; try done;
        first [apply Hframe | by left | by right; left | by right; right]. }
  match type of Hst with
  | context [or_null (fst ?g)] => set (gif := g) in Hst
  end.
  destruct (or_null (fst gif)) as [p|] eqn:Hp.
  { clear Hp.
    pose proof (upload_and_post_facts out bot sessionId session p
                  (sticker ++ ".gif")
                  (Picker.mkState (Picker.self s) t1 (snd gif)
                     (Picker.customPacksFile s) (Picker.outbox s) (Picker.reads s))
                  Hsession) as (posts & Hout & _ & _ & Hfr & Hcase).
    rewrite <- Hst in Hout, Hfr, Hcase. fold s1 in Hout, Hfr.
    cbn [Picker.outbox] in Hout, Hcase. fold first in Hcase.
    exists (Picker.Upload (Picker.channelId session) p (sticker ++ ".gif") :: posts).
    split; [exact Hout|].
    split; [by eapply send_frame_trans; [apply (Hframe (snd gif))|]|].
    exists session, true. split_and!; try done. cbv zeta.
    destruct (Picker.uploadFile out first p (sticker ++ ".gif")) as [id|],
             posts as [|post [|??]]; try done.
    - by destruct Hcase as (? & ? & ? & _).
    - destruct Hcase as (Hpost & _ & Hcase). split; [done|].
      destruct (post_accepted out session (S first)); [by destruct Hcase|].
      by destruct (or_null (Picker.responseUrl session)); destruct Hcase.
    - by destruct Hcase. }
  destruct (Picker.staticHandler (Picker.self s)) as [sh|],
           (includes (Tg.url info) ".tgs").
  1,3,4: exists []; subst s1; rewrite Hst, app_nil_r;
         split_and!; try done;
        first [apply Hframe | by left | by right; left | by right; right].
  cbv zeta in Hst.
  destruct (resizeStaticImage sh (Picker.converters out) (Tg.url info) (snd gif))
    as [[p|e] w].
  2:{ exists []. subst s1. cbn [fst snd] in Hst. rewrite Hst, app_nil_r.
      split_and!; try done;
        first [apply Hframe | by left | by right; left | by right; right]. }
  cbn [fst snd] in Hst.
  pose proof (upload_and_post_facts out bot sessionId session p
                (sticker ++ ".webp")
                (Picker.mkState (Picker.self s) t1 w
                   (Picker.customPacksFile s) (Picker.outbox s) (Picker.reads s))
                Hsession) as (posts & Hout & _ & _ & Hfr & Hcase).
  cbv zeta in Hcase. cbn [Picker.outbox] in Hout, Hcase. fold first in Hcase.
  destruct (Picker.upload_and_post out bot sessionId session p
              (sticker ++ ".webp") _) as [r s2].
  cbn [fst snd] in Hout, Hfr, Hcase.
  assert (s1 = s2) as Hs1 by (by subst s1; rewrite Hst; destruct r).
  assert (fst result
          = match r with
            | Resolved response => Resolved response
            | Rejected _ => Resolved failed
            end) as Hr by (by rewrite Hst; destruct r).
  rewrite Hs1.
  exists (Picker.Upload (Picker.channelId session) p (sticker ++ ".webp") :: posts).
  split; [exact Hout|].
  split; [by eapply send_frame_trans; [apply (Hframe w)|]|].
  exists session, false. split_and!; try done. cbv zeta. rewrite Hr.
  destruct (Picker.uploadFile out first p (sticker ++ ".webp")) as [id|],
           posts as [|post [|??]]; try done.
  - destruct Hcase as (? & ? & -> & _). done.
  - destruct Hcase as (Hpost & _ & Hcase). split; [done|].
    destruct (post_accepted out session (S first)); [by destruct Hcase as [-> _]|].
    by destruct (or_null (Picker.responseUrl session)); destruct Hcase as [-> _].
  - by destruct Hcase as [-> _].
Qed.



(** A sticker whose URL includes ".tgs" (and not ".webm") goes through
    the TGS converter and through nothing else: the static handler never
    gets it.  When the picker has no TGS converter, or the conversion
    returns null or throws, the request is answered 500 "Failed to
    convert sticker" and nothing is uploaded or posted. *)
Theorem api_send_never_resizes_an_animation
    out bot packName stickerIndex sessionId s session info t1 :
  let result := Picker.api_send out bot packName stickerIndex sessionId s in
  let s1 := snd result in
  let name :=
    Picker.telegram_pack_name
      match Picker.customPacksFile s with
      | Picker.Packs l => l
      | _ => []
      end packName in
  let failed :=
    Picker.mkResponse 500 (Picker.JsonError "Failed to convert sticker") in
  map_get (Picker.sessions (Picker.self s)) sessionId = Some session ->
  Tg.getStickerInfo (Picker.telegramServer out) name stickerIndex
    (Picker.telegram s)
  = (Resolved (Some info), t1) ->
  includes (Tg.url info) ".tgs" = true ->
  includes (Tg.url info) ".webm" = false ->
  match Picker.tgsHandler (Picker.self s) with
  | None =>
      fst result = Resolved failed
      /\ Picker.files s1 = Picker.files s
      /\ Picker.outbox s1 = Picker.outbox s
  | Some h =>
      let run :=
        convertTgsToGif h (Picker.converters out) (Tg.url info)
          (Some (Tg.fileId info)) (Picker.files s) in
      Picker.files s1 = snd run
      /\ ((forall p, fst run <> Returned (Some p)) ->
          fst result = Resolved failed
          /\ Picker.outbox s1 = Picker.outbox s)
  end.
Proof.
  intros result s1 name failed Hsession Hinfo Htgs Hwebm.
  pose proof (api_send_stages out bot packName stickerIndex sessionId s) as Hst.
  cbv zeta in Hst. fold result name failed in Hst.
  rewrite Hsession, Hinfo in Hst. cbn [fst snd] in Hst.
  rewrite Htgs, Hwebm in Hst.
  destruct (Picker.tgsHandler (Picker.self s)) as [h|].
  2:{ assert (result
              = (Resolved failed,
                 Picker.mkState (Picker.self s) t1 (Picker.files s)
                   (Picker.customPacksFile s) (Picker.outbox s) (Picker.reads s)))
        as Hr.
      { destruct (Picker.webmHandler (Picker.self s)); cbn [fst snd or_null] in Hst;
          by destruct (Picker.staticHandler (Picker.self s)). }
      subst s1. by rewrite Hr. }
  cbv zeta.
  set (run := convertTgsToGif h _ _ _ _) in *.
  assert (match or_null match fst run with
                        | Returned p => p
                        | Thrown _ => None
                        end with
          | Some p =>
              result
              = Picker.upload_and_post out bot sessionId session p
                  (("sticker_" ++ packName ++ "_" ++ String_of_Z stickerIndex)
                   ++ ".gif")
                  (Picker.mkState (Picker.self s) t1 (snd run)
                     (Picker.customPacksFile s) (Picker.outbox s) (Picker.reads s))
          | None =>
              result
              = (Resolved failed,
                 Picker.mkState (Picker.self s) t1 (snd run)
                   (Picker.customPacksFile s) (Picker.outbox s) (Picker.reads s))
          end) as Hr.
  { destruct (Picker.webmHandler (Picker.self s)); cbn [fst snd] in Hst;
      destruct (or_null _); try done;
      by destruct (Picker.staticHandler (Picker.self s)). }
  clear Hst. split.
  - destruct (or_null _) as [p|].
    + pose proof (upload_and_post_facts out bot sessionId session p
                    (("sticker_" ++ packName ++ "_" ++ String_of_Z stickerIndex)
                     ++ ".gif")
                    (Picker.mkState (Picker.self s) t1 (snd run)
                       (Picker.customPacksFile s) (Picker.outbox s)
                       (Picker.reads s)) Hsession)
        as (_ & _ & _ & Hfiles & _).
      subst s1. by rewrite Hr, Hfiles.
    + subst s1. by rewrite Hr.
  - intros Hnone.
    destruct (fst run) as [[[|c p]|]|e]; cbn [or_null] in Hr;
      try (by subst s1; rewrite Hr).
    by destruct (Hnone (String c p)).
Qed.

Lemma api_send_never_resizes_an_animation_witness :
  let out := PickerDemo.outside Demo.env_not_gzip in
  let result :=
    Picker.api_send out PickerDemo.bot "memezey" 1 "s1" PickerDemo.state in
  let info :=
    Tg.mkUrlEntry
      "https://api.telegram.org/file/bot123:abc/stickers/file_2.tgs" "anim1" in
  map_get (Picker.sessions (Picker.self PickerDemo.state)) "s1"
  = Some PickerDemo.session
  /\ fst (Tg.getStickerInfo PickerDemo.server "memezey" 1
            (Picker.telegram PickerDemo.state))
     = Resolved (Some info)
  /\ includes (Tg.url info) ".tgs" = true
  /\ includes (Tg.url info) ".webm" = false
  /\ fst (convertTgsToGif Demo.handler Demo.env_not_gzip (Tg.url info)
            (Some "anim1") Demo.world0)
     = Returned None
  /\ fst result
     = Resolved (Picker.mkResponse 500
                   (Picker.JsonError "Failed to convert sticker"))
  /\ Picker.outbox (snd result) = [].
Proof.
  intros out result info.
  assert (map_get (Picker.sessions (Picker.self PickerDemo.state)) "s1"
          = Some PickerDemo.session) as Hsession by reflexivity.
  assert (Tg.getStickerInfo PickerDemo.server "memezey" 1
            (Picker.telegram PickerDemo.state)
          = (Resolved (Some info),
             snd (Tg.getStickerInfo PickerDemo.server "memezey" 1
                    (Picker.telegram PickerDemo.state)))) as Hinfo
    by (vm_compute; reflexivity).
  assert (includes (Tg.url info) ".tgs" = true) as Htgs by reflexivity.
  assert (includes (Tg.url info) ".webm" = false) as Hwebm by reflexivity.
  assert (fst (convertTgsToGif Demo.handler Demo.env_not_gzip (Tg.url info)
                 (Some "anim1") Demo.world0)
          = Returned None) as Hnull by (vm_compute; reflexivity).
  destruct (api_send_never_resizes_an_animation out PickerDemo.bot "memezey" 1
              "s1" PickerDemo.state _ _ _ Hsession Hinfo Htgs Hwebm)
    as [_ Hfailed].
  destruct Hfailed as [Hr Hout].
  { intros p. cbn [Picker.converters out PickerDemo.outside Picker.files
                   PickerDemo.state Tg.fileId info].
    rewrite Hnull. discriminate. }
  split; [exact Hsession|]. split; [rewrite Hinfo; reflexivity|].
  split; [exact Htgs|]. split; [exact Hwebm|]. split; [exact Hnull|].
  split; [exact Hr | exact Hout].
Defined.

(** A video whose conversion to GIF throws is not given up: when the
    picker has a static handler, the same URL goes to
    [resizeStaticImage], in the files the failed conversion left, and
    what that returns is uploaded under the name of the pack and index
    with ".webp".  When the resize throws too, the request is answered
    500 and nothing is uploaded. *)
Theorem api_send_resizes_a_video_that_failed_to_convert
    out bot packName stickerIndex sessionId s session info t1 wh sh e w :
  let result := Picker.api_send out bot packName stickerIndex sessionId s in
  let s1 := snd result in
  let name :=
    Picker.telegram_pack_name
      match Picker.customPacksFile s with
      | Picker.Packs l => l
      | _ => []
      end packName in
  let sticker := "sticker_" ++ packName ++ "_" ++ String_of_Z stickerIndex in
  let failed :=
    Picker.mkResponse 500 (Picker.JsonError "Failed to convert sticker") in
  map_get (Picker.sessions (Picker.self s)) sessionId = Some session ->
  Tg.getStickerInfo (Picker.telegramServer out) name stickerIndex
    (Picker.telegram s)
  = (Resolved (Some info), t1) ->
  includes (Tg.url info) ".webm" = true ->
  includes (Tg.url info) ".tgs" = false ->
  Picker.webmHandler (Picker.self s) = Some wh ->
  Picker.staticHandler (Picker.self s) = Some sh ->
  convertWebmToGif wh (Picker.converters out) (Tg.url info)
    (Some (Tg.fileId info)) (Picker.files s)
  = (Thrown e, w) ->
  let resized := resizeStaticImage sh (Picker.converters out) (Tg.url info) w in
  Picker.files s1 = snd resized
  /\ match fst resized with
     | Returned p =>
         exists posts,
           Picker.outbox s1
           = (Picker.outbox s
              ++ Picker.Upload (Picker.channelId session) p (sticker ++ ".webp")
                 :: posts)%list
     | Thrown _ =>
         fst result = Resolved failed /\ Picker.outbox s1 = Picker.outbox s
     end.
Proof.
  intros result s1 name sticker failed Hsession Hinfo Hwebm Htgs Hwh Hsh Hrun
    resized.
  pose proof (api_send_stages out bot packName stickerIndex sessionId s) as Hst.
  cbv zeta in Hst. fold result name sticker failed in Hst.
  rewrite Hsession, Hinfo in Hst. cbn [fst snd] in Hst.
  rewrite Htgs, Hwebm, Hwh, Hsh, Hrun in Hst. cbn [fst snd or_null] in Hst.
  fold resized in Hst.
  destruct (fst resized) as [p|e'].
  - pose proof (upload_and_post_facts out bot sessionId session p
                  (sticker ++ ".webp")
                  (Picker.mkState (Picker.self s) t1 (snd resized)
                     (Picker.customPacksFile s) (Picker.outbox s)
                     (Picker.reads s)) Hsession)
      as (posts & Hout & _ & Hfiles & _).
    destruct (Picker.upload_and_post out bot sessionId session p
                (sticker ++ ".webp") _) as [r s2].
    cbn [fst snd Picker.outbox Picker.files] in Hout, Hfiles.
    assert (s1 = s2) as -> by (by subst s1; rewrite Hst; destruct r).
    split; [done|]. by exists posts.
  - subst s1. by rewrite Hst.
Qed.

Lemma api_send_resizes_a_video_that_failed_to_convert_witness :
  let out := PickerDemo.outside Demo.env_gifski_fails in
  let result :=
    Picker.api_send out PickerDemo.bot "memezey" 0 "s1" PickerDemo.state in
  let info :=
    Tg.mkUrlEntry
      "https://api.telegram.org/file/bot123:abc/stickers/file_1.webm" "video1" in
  let converted :=
    convertWebmToGif Demo.handler Demo.env_gifski_fails (Tg.url info)
      (Some "video1") Demo.world0 in
  map_get (Picker.sessions (Picker.self PickerDemo.state)) "s1"
  = Some PickerDemo.session
  /\ fst (Tg.getStickerInfo PickerDemo.server "memezey" 0
            (Picker.telegram PickerDemo.state))
     = Resolved (Some info)
  /\ includes (Tg.url info) ".webm" = true
  /\ includes (Tg.url info) ".tgs" = false
  /\ (exists cmd, fst converted = Thrown (ExecError cmd))
  /\ (exists p posts,
        fst (resizeStaticImage Demo.handler Demo.env_gifski_fails (Tg.url info)
               (snd converted))
        = Returned p
        /\ Picker.outbox (snd result)
           = Picker.Upload "channel1" p "sticker_memezey_0.webp" :: posts).
Proof.
  intros out result info converted.
  assert (map_get (Picker.sessions (Picker.self PickerDemo.state)) "s1"
          = Some PickerDemo.session) as Hsession by reflexivity.
  assert (Tg.getStickerInfo PickerDemo.server "memezey" 0
            (Picker.telegram PickerDemo.state)
          = (Resolved (Some info),
             snd (Tg.getStickerInfo PickerDemo.server "memezey" 0
                    (Picker.telegram PickerDemo.state)))) as Hinfo
    by (vm_compute; reflexivity).
  assert (includes (Tg.url info) ".webm" = true) as Hwebm by reflexivity.
  assert (includes (Tg.url info) ".tgs" = false) as Htgs by reflexivity.
  assert (exists cmd, converted = (Thrown (ExecError cmd), snd converted))
    as [cmd Hrun] by (eexists; vm_compute; reflexivity).
  assert (exists p,
            fst (resizeStaticImage Demo.handler Demo.env_gifski_fails
                   (Tg.url info) (snd converted))
            = Returned p) as [p Hp] by (eexists; vm_compute; reflexivity).
  destruct (api_send_resizes_a_video_that_failed_to_convert out PickerDemo.bot
              "memezey" 0 "s1" PickerDemo.state _ _ _ Demo.handler Demo.handler
              _ _ Hsession Hinfo Hwebm Htgs eq_refl eq_refl Hrun)
    as [_ Hup].
  change (Picker.converters out) with Demo.env_gifski_fails in Hup.
  rewrite Hp in Hup. destruct Hup as [posts Hout].
  split; [exact Hsession|]. split; [rewrite Hinfo; reflexivity|].
  split; [exact Hwebm|]. split; [exact Htgs|].
  split; [exists cmd; rewrite Hrun; reflexivity|].
  exists p, posts. split; [exact Hp | exact Hout].
Defined.

(** ** Custom packs *)

Lemma read_run {A} (value : nat -> A) s :
  Picker.read value s
  = (Resolved (value (Picker.reads s)),
     Picker.mkState (Picker.self s) (Picker.telegram s) (Picker.files s)
       (Picker.customPacksFile s) (Picker.outbox s) (S (Picker.reads s))).
Proof. reflexivity. Qed.

Lemma find_none_Forall {A} (f : A -> bool) (l : list A) :
  List.find f l = None -> Forall (fun x => f x = false) l.
Proof.
  induction l as [|x l IH]; simpl; [by constructor|].
  destruct (f x) eqn:Hx; [done|]. intros H. constructor; auto.
Qed.

Lemma addCustomPack_run out lower packName telegramPackName s :
  let customPacks :=
    match Picker.customPacksFile s with
    | Picker.Packs l => l
    | _ => []
    end in
  let s_read :=
    Picker.mkState (Picker.self s) (Picker.telegram s) (Picker.files s)
      (Picker.customPacksFile s) (Picker.outbox s) (S (Picker.reads s)) in
  let added :=
    (customPacks
     ++ [Picker.mkCustomPack packName telegramPackName
           (Picker.toISOString out (Picker.reads s))])%list in
  Picker.addCustomPack out lower packName telegramPackName s
  = match List.find (fun pack =>
                       same (lower (Picker.name pack)) (lower packName)
                       || same (Picker.telegramName pack) telegramPackName)
            customPacks with
    | Some _ => (Rejected PackExists, s)
    | None =>
        match Picker.write_error out added with
        | None =>
            (Resolved tt, Picker.set_customPacksFile (Picker.Packs added) s_read)
        | Some message => (Rejected (WriteFailed message), s_read)
        end
    end.
Proof.
  cbv zeta. unfold Picker.addCustomPack.
  rewrite bind_run, getCustomPacks_run.
  destruct (List.find _ _); [done|].
  rewrite bind_run, read_run.
  by destruct (Picker.write_error out _).
Qed.

Lemma api_add_pack_run out lower packName packUrl s :
  Picker.api_add_pack out lower packName packUrl s
  = match or_null packName, or_null packUrl with
    | Some name, Some url =>
        match Picker.match_pack_link url with
        | None =>
            (Resolved (Picker.mkResponse 400
                         (Picker.JsonError "Invalid Telegram sticker pack URL. Expected format: https://t.me/addstickers/PackName")),
             s)
        | Some telegramPackName =>
            match Picker.addCustomPack out lower name telegramPackName s with
            | (Resolved _, s1) =>
                (Resolved (Picker.ok (Picker.JsonMessage "Pack added successfully")),
                 s1)
            | (Rejected e, s1) =>
                (Resolved (Picker.mkResponse 500
                             (Picker.JsonError ("Failed to add pack: "
                                                ++ Picker.error_message e))),
                 s1)
            end
        end
    | _, _ =>
        (Resolved (Picker.mkResponse 400
                     (Picker.JsonError "Pack name and URL are required")), s)
    end.
Proof.
  unfold Picker.api_add_pack. rewrite try_run.
  destruct packName as [[|c n]|]; try done.
  destruct packUrl as [[|c' u]|]; try done.
  cbn [or_null].
  destruct (Picker.match_pack_link (String c' u)); [|done].
  rewrite bind_run.
  by destruct (Picker.addCustomPack out lower (String c n) s0 s) as [[[]|e] s1].
Qed.

Lemma api_add_pack_facts out lower packName packUrl s :
  let result := Picker.api_add_pack out lower packName packUrl s in
  let s1 := snd result in
  let packs (s : Picker.State) :=
    match Picker.customPacksFile s with
    | Picker.Packs l => l
    | _ => []
    end in
  exists response,
    fst result = Resolved response
    /\ Picker.self s1 = Picker.self s
    /\ Picker.telegram s1 = Picker.telegram s
    /\ Picker.files s1 = Picker.files s
    /\ Picker.outbox s1 = Picker.outbox s
    /\ (Picker.status response = 200%nat ->
        exists name telegramPackName added,
          or_null packName = Some name
          /\ (packUrl ≫= Picker.match_pack_link) = Some telegramPackName
          /\ Picker.write_error out
               (packs s ++ [Picker.mkCustomPack name telegramPackName added])%list
             = None
          /\ Picker.customPacksFile s1
             = Picker.Packs
                 (packs s ++ [Picker.mkCustomPack name telegramPackName added])
          /\ Forall (fun pack =>
                       lower (Picker.name pack) <> lower name
                       /\ Picker.telegramName pack <> telegramPackName)
               (packs s))
    /\ (Picker.status response <> 200%nat ->
        Picker.customPacksFile s1 = Picker.customPacksFile s)
    /\ (NoDup (Picker.name <$> packs s) -> NoDup (Picker.name <$> packs s1))
    /\ (NoDup (Picker.telegramName <$> packs s) ->
        NoDup (Picker.telegramName <$> packs s1)).
Proof.
  intros result s1 packs. subst result s1. rewrite api_add_pack_run.
  assert (forall (response : Picker.Response) s0,
            Picker.status response <> 200%nat ->
            Picker.self s0 = Picker.self s ->
            Picker.telegram s0 = Picker.telegram s ->
            Picker.files s0 = Picker.files s ->
            Picker.outbox s0 = Picker.outbox s ->
            Picker.customPacksFile s0 = Picker.customPacksFile s ->
            exists response',
              Resolved response = Resolved response'
              /\ Picker.self s0 = Picker.self s
              /\ Picker.telegram s0 = Picker.telegram s
              /\ Picker.files s0 = Picker.files s
              /\ Picker.outbox s0 = Picker.outbox s
              /\ (Picker.status response' = 200%nat ->
                  exists name telegramPackName added,
                    or_null packName = Some name
                    /\ (packUrl ≫= Picker.match_pack_link) = Some telegramPackName
                    /\ Picker.write_error out
                         (packs s
                          ++ [Picker.mkCustomPack name telegramPackName added])%list
                       = None
                    /\ Picker.customPacksFile s0
                       = Picker.Packs
                           (packs s
                            ++ [Picker.mkCustomPack name telegramPackName added])
                    /\ Forall (fun pack =>
                                 lower (Picker.name pack) <> lower name
                                 /\ Picker.telegramName pack <> telegramPackName)
                         (packs s))
              /\ (Picker.status response' <> 200%nat ->
                  Picker.customPacksFile s0 = Picker.customPacksFile s)
              /\ (NoDup (Picker.name <$> packs s) ->
                  NoDup (Picker.name <$> packs s0))
              /\ (NoDup (Picker.telegramName <$> packs s) ->
                  NoDup (Picker.telegramName <$> packs s0)))
    as Hsame.
  { intros response s0 Hstatus H1 H2 H3 H4 H5. exists response.
    unfold packs. rewrite H5. split_and!; done. }
  destruct (or_null packName) as [name|] eqn:Hname; [|by apply Hsame].
  destruct (or_null packUrl) as [url|] eqn:Hurl; [|by apply Hsame].
  destruct (Picker.match_pack_link url) as [telegramPackName|] eqn:Hlink;
    [|by apply Hsame].
  rewrite addCustomPack_run. cbv zeta. fold (packs s).
  destruct (List.find _ (packs s)) as [existing|] eqn:Hfind;
    [by apply Hsame|].
  destruct (Picker.write_error out _) as [message|] eqn:Hwrite;
    [by apply Hsame|].
  cbn [fst snd].
  apply find_none_Forall in Hfind.
  assert (Forall (fun pack =>
                    lower (Picker.name pack) <> lower name
                    /\ Picker.telegramName pack <> telegramPackName) (packs s))
    as Hfresh.
  { eapply Forall_impl; [exact Hfind|]. intros pack Hpack. simpl in Hpack.
    apply orb_false_elim in Hpack as [H1 H2]. unfold same in *.
    apply bool_decide_eq_false in H1, H2. done. }
  exists (Picker.ok (Picker.JsonMessage "Pack added successfully")).
  split_and!; try done.
  - intros _. exists name, telegramPackName,
      (Picker.toISOString out (Picker.reads s)).
    split; [done|]. split; [|done].
    apply or_null_Some in Hurl as [-> _]. done.
  - intros Hnodup. unfold packs at 1. cbn [Picker.customPacksFile
      Picker.set_customPacksFile]. rewrite fmap_app. simpl.
    apply NoDup_app. split; [done|]. split; [|apply NoDup_singleton].
    intros x Hx ->%list_elem_of_singleton.
    apply list_elem_of_fmap in Hx as (pack & Hpn & Hpack).
    rewrite Forall_forall in Hfresh. destruct (Hfresh pack Hpack) as [Hne _].
    by rewrite <- Hpn in Hne.
  - intros Hnodup. unfold packs at 1. cbn [Picker.customPacksFile
      Picker.set_customPacksFile]. rewrite fmap_app. simpl.
    apply NoDup_app. split; [done|]. split; [|apply NoDup_singleton].
    intros x Hx ->%list_elem_of_singleton.
    apply list_elem_of_fmap in Hx as (pack & Hpn & Hpack).
    rewrite Forall_forall in Hfresh. destruct (Hfresh pack Hpack) as [_ Hne].
    by rewrite <- Hpn in Hne.
Qed.


Lemma api_delete_pack_run out packName token s :
  let deleted :=
    Picker.set_stickerCache (delete packName) in
  Picker.api_delete_pack out packName token s
  = if bool_decide (token = Picker.MM_BOT_TOKEN out)
    then
      match Picker.customPacksFile s with
      | Picker.Unreadable =>
          (Resolved (Picker.mkResponse 500
                       (Picker.JsonError "Failed to delete pack")), s)
      | file =>
          let customPacks :=
            match file with Picker.Packs l => l | _ => [] end in
          let remaining :=
            List.filter (fun pack => negb (same (Picker.name pack) packName))
              customPacks in
          if (length remaining =? length customPacks)%nat
          then (Resolved (Picker.mkResponse 404
                            (Picker.JsonError "Pack not found or is a default pack")),
                s)
          else
            match Picker.write_error out remaining with
            | None =>
                (Resolved (Picker.ok Picker.JsonSuccess),
                 deleted (Picker.set_customPacksFile (Picker.Packs remaining) s))
            | Some _ =>
                (Resolved (Picker.mkResponse 500
                             (Picker.JsonError "Failed to delete pack")), s)
            end
      end
    else (Resolved (Picker.mkResponse 401 (Picker.JsonError "Invalid token")), s).
Proof.
  cbv zeta. unfold Picker.api_delete_pack.
  destruct (bool_decide (token = Picker.MM_BOT_TOKEN out)); [|done].
  cbn [negb]. rewrite try_run, bind_run, gets_run.
  destruct (Picker.customPacksFile s) as [| |l] eqn:Hfile; try done.
  rewrite bind_run, ret_run. cbv beta iota.
  destruct (length _ =? length l)%nat; [done|].
  by destruct (Picker.write_error out _).
Qed.



Lemma filter_all {A} (f : A -> bool) (l : list A) :
  Forall (fun x => f x = true) l -> List.filter f l = l.
Proof.
  induction 1 as [|x l Hx _ IH]; [done|]. simpl. by rewrite Hx, IH.
Qed.

(** A pack that /api/add-pack has added is taken out again by
    /api/delete-pack with the token, when the disk takes the write: the
    file then holds the packs that were read before the addition. *)
Theorem add_then_delete_restores_packs
    out lower packName packUrl s response s1 :
  let packs (s : Picker.State) :=
    match Picker.customPacksFile s with
    | Picker.Packs l => l
    | _ => []
    end in
  Picker.api_add_pack out lower (Some packName) packUrl s = (Resolved response, s1) ->
  Picker.status response = 200%nat ->
  Picker.write_error out (packs s) = None ->
  let result :=
    Picker.api_delete_pack out packName (Picker.MM_BOT_TOKEN out) s1 in
  fst result = Resolved (Picker.ok Picker.JsonSuccess)
  /\ Picker.customPacksFile (snd result) = Picker.Packs (packs s).
Proof.
  intros packs Hadd Hok Hwrite result.
  pose proof (api_add_pack_facts out lower (Some packName) packUrl s) as Hfacts.
  cbv zeta in Hfacts. rewrite Hadd in Hfacts. cbn [fst snd] in Hfacts.
  destruct Hfacts as (response' & [= <-] & _ & _ & _ & _ & Hadded & _).
  destruct (Hadded Hok) as (name & tg & added & Hname & _ & _ & Hfile & Hfresh).
  fold (packs s) in Hfile, Hfresh.
  apply or_null_Some in Hname as [[= <-] _].
  assert (List.filter (fun pack => negb (same (Picker.name pack) packName))
            (packs s ++ [Picker.mkCustomPack packName tg added])
          = packs s) as Hfilter.
  { rewrite List.filter_app. simpl. unfold same at 2.
    rewrite bool_decide_eq_true_2 by done. simpl. rewrite app_nil_r.
    apply filter_all. eapply Forall_impl; [exact Hfresh|].
    intros pack [Hne _]. simpl in *. unfold same.
    rewrite bool_decide_eq_false_2 by congruence. done. }
  subst result. rewrite api_delete_pack_run. cbv zeta.
  rewrite bool_decide_eq_true_2 by done. rewrite Hfile, Hfilter.
  rewrite length_app. simpl.
  replace (length (packs s) =? length (packs s) + 1)%nat with false
    by (symmetry; apply Nat.eqb_neq; lia).
  by rewrite Hwrite.
Qed.

Lemma add_then_delete_restores_packs_witness :
  let out := PickerDemo.outside Demo.env_ok in
  let added :=
    Picker.api_add_pack out (fun name => name) (Some "cats")
      (Some "https://t.me/addstickers/CatsPack") PickerDemo.state in
  let result := Picker.api_delete_pack out "cats" (Some "secret") (snd added) in
  fst added
  = Resolved (Picker.ok (Picker.JsonMessage "Pack added successfully"))
  /\ Picker.customPacksFile (snd added)
     = Picker.Packs
         [Picker.mkCustomPack "cats" "CatsPack" "2024-01-01T00:00:00.000Z"]
  /\ fst result = Resolved (Picker.ok Picker.JsonSuccess)
  /\ Picker.customPacksFile (snd result) = Picker.Packs [].
Proof.
  intros out added result.
  assert (added
          = (Resolved (Picker.ok (Picker.JsonMessage "Pack added successfully")),
             snd added)) as Hadd by (vm_compute; reflexivity).
  destruct (add_then_delete_restores_packs out (fun name => name) "cats"
              (Some "https://t.me/addstickers/CatsPack") PickerDemo.state _ _
              Hadd eq_refl eq_refl) as [Hr Hfile].
  split; [rewrite Hadd; reflexivity|].
  split; [vm_compute; reflexivity|].
  split; [exact Hr | exact Hfile].
Defined.

(** ** The link of a pack *)







(** ** From the pack route to the proxy *)





(** ** Sessions *)

Lemma new_session_run out sessionId session s :
  Picker.new_session out sessionId session s
  = (Resolved tt,
     Picker.set_sessions
       (fun m => map_set m sessionId (session (Picker.Date_now out (Picker.reads s))))
       (Picker.mkState (Picker.self s) (Picker.telegram s) (Picker.files s)
          (Picker.customPacksFile s) (Picker.outbox s) (S (Picker.reads s)))).
Proof. reflexivity. Qed.

Lemma upload_and_post_status out bot sessionId session filePath filename s r :
  fst (Picker.upload_and_post out bot sessionId session filePath filename s)
  = Resolved r ->
  Picker.status r = 200%nat \/ Picker.status r = 410%nat.
Proof.
  rewrite upload_and_post_run. cbv zeta.
  destruct (Picker.uploadFile out _ filePath filename); [|done].
  destruct (or_null (Picker.responseUrl session)).
  - destruct (Picker.responseUrlDead session); [intros [= <-]; by right|].
    destruct (post_accepted out session _); intros [= <-]; [by left | by right].
  - destruct (post_accepted out session _); [|done]. intros [= <-]. by left.
Qed.

Lemma api_send_valid_session out bot packName stickerIndex sessionId s session :
  map_get (Picker.sessions (Picker.self s)) sessionId = Some session ->
  fst (Picker.api_send out bot packName stickerIndex sessionId s)
  <> Resolved (Picker.mkResponse 400 (Picker.JsonError "Invalid session")).
Proof.
  intros Hsession.
  pose proof (api_send_stages out bot packName stickerIndex sessionId s) as Hst.
  cbv zeta in Hst. rewrite Hsession in Hst.
  destruct (fst (Tg.getStickerInfo _ _ _ _)) as [[info|]|e];
    try (by rewrite Hst).
  destruct (or_null _) as [p|].
  { rewrite Hst. intros [H|H]%upload_and_post_status; done. }
  destruct (Picker.staticHandler (Picker.self s)) as [sh|],
           (includes (Tg.url info) ".tgs"); try (by rewrite Hst).
  destruct (fst (resizeStaticImage sh _ _ _)) as [p|e]; [|by rewrite Hst].
  rewrite Hst.
  match goal with
  | |- context [Picker.upload_and_post ?a ?b ?c ?d ?e ?f ?g] =>
      pose proof (upload_and_post_status a b c d e f g) as Hstatus;
      destruct (Picker.upload_and_post a b c d e f g) as [[r|e'] s2]
  end; [|done].
  cbn [fst] in *. intros [= ->]. by destruct (Hstatus _ eq_refl).
Qed.

Lemma includes_self s : includes s s = true.
Proof.
  assert (String.prefix s s = true) as Hp.
  { induction s as [|c s IH]; [done|]. cbn [String.prefix].
    by destruct (ascii_dec c c). }
  destruct s as [|c s]; [done|]. cbn [includes]. by rewrite Hp.
Qed.

Lemma includes_later a s t : includes t s = true -> includes (a ++ t) s = true.
Proof.
  intros H. induction a as [|c a IH]; [done|].
  rewrite string_app_cons. cbn [includes]. rewrite IH. apply orb_true_r.
Qed.

(** A slash command opens a session and answers with a link that
    carries its id; [generatePickerLink] does the same for the bot.  The
    session is found under that id with the channel, user and thread of
    the command, and with its response URL, when the command had one;
    every other session is as it was, and a session that had the id
    before is replaced.  So /api/send accepts the id: it does not answer
    "Invalid session". *)
Theorem slash_opens_a_session_send_accepts
    out user_id user_name channel_id root_id response_url channelId userId
    username rootId s :
  let id := Picker.random_id out (Picker.reads s) in
  let now := Picker.Date_now out (S (Picker.reads s)) in
  let link := Picker.picker_url out (Picker.self s) id in
  let opened (session : Picker.Session) (s1 : Picker.State) :=
    map_get (Picker.sessions (Picker.self s1)) id = Some session
    /\ (forall id', id' <> id ->
          map_get (Picker.sessions (Picker.self s1)) id'
          = map_get (Picker.sessions (Picker.self s)) id')
    /\ (forall out' bot packName stickerIndex,
          fst (Picker.api_send out' bot packName stickerIndex id s1)
          <> Resolved (Picker.mkResponse 400 (Picker.JsonError "Invalid session"))) in
  (let result :=
     Picker.api_slash out user_id user_name channel_id root_id response_url s in
   (exists text,
       fst result = Resolved (Picker.ok (Picker.JsonEphemeral text))
       /\ includes text ("(" ++ link ++ ")") = true)
   /\ opened
        (Picker.mkSession channel_id user_id user_name (or_null root_id)
           (or_null response_url) false now)
        (snd result))
  /\ (let result :=
        Picker.generatePickerLink out channelId userId username rootId s in
      fst result = Resolved link
      /\ opened
           (Picker.mkSession channelId userId (js_or username userId)
              (or_null rootId) None false now)
           (snd result))
  /\ link
     = js_or (Picker.DOMAIN out) "http://localhost" ++ ":"
       ++ Picker.port (Picker.self s) ++ "/?session=" ++ id.
Proof.
  intros id now link opened.
  assert (forall session,
            opened session
              (Picker.set_sessions (fun m => map_set m id session)
                 (Picker.mkState (Picker.self s) (Picker.telegram s)
                    (Picker.files s) (Picker.customPacksFile s) (Picker.outbox s)
                    (S (S (Picker.reads s)))))) as Hopened.
  { intros session.
    assert (map_get (Picker.sessions
                       (Picker.self
                          (Picker.set_sessions (fun m => map_set m id session)
                             (Picker.mkState (Picker.self s) (Picker.telegram s)
                                (Picker.files s) (Picker.customPacksFile s)
                                (Picker.outbox s) (S (S (Picker.reads s)))))))
              id = Some session) as Hfound.
    { cbn. rewrite map_get_set. unfold same. by rewrite bool_decide_eq_true_2. }
    split; [exact Hfound|]. split.
    - intros id' Hne. cbn. rewrite map_get_set. unfold same.
      by rewrite bool_decide_eq_false_2.
    - intros out' bot packName stickerIndex.
      by eapply api_send_valid_session. }
  split; [|split; [|done]].
  - cbv zeta. unfold Picker.api_slash.
    rewrite bind_run, read_run, bind_run, new_session_run, bind_run, gets_run,
      ret_run.
    cbn [fst snd Picker.reads]. split; [|apply Hopened].
    eexists. split; [reflexivity|].
    apply (includes_later "🎨 [**Open Sticker Picker**]" ("(" ++ link ++ ")")).
    apply includes_self.
  - cbv zeta. unfold Picker.generatePickerLink.
    rewrite bind_run, read_run, bind_run, new_session_run, bind_run, gets_run,
      ret_run.
    cbn [fst snd Picker.reads]. split; [done | apply Hopened].
Qed.
